(** * YourResume: the repository collection, enrichment and scoring engine

    A shallow embedding of [src/services/githubService.ts] and the
    properties its specification states about it.

    Modelling conventions.
    - A JavaScript string is a [string]; the model covers single-byte
      (ASCII) text, on which [toLowerCase] maps [A-Z] to [a-z] and [trim]
      strips tab, line feed, vertical tab, form feed, carriage return and
      space, as ECMAScript does.
    - A JavaScript number holding a count, a size or a millisecond time
      stamp is a [Z]; a value that may fail [typeof x === 'number'] (an
      optional field, an unchecked JSON payload) is an [option Z].
    - The quotients the source compares with thresholds
      ([userCommits / totalCommits], [codeBytes / 1024], the days since the
      last update) are exact rationals ([Q]); on integer operands below
      2^53 the comparisons agree with those on IEEE doubles.
    - [new Date(s).getTime()] and [Date.now()] are parameters of the
      scoring section: [dateTime] ([None] when the date is invalid) and
      [now].
    - [JSON.parse] is a parameter of the JSON-based parsers ([None] when
      it throws), and so is the text of a number; the answers of the
      GitHub endpoints are parameters of the functions that request
      them. *)

From Stdlib Require Import ZArith QArith Qminmax List String Ascii Bool Lia.
From Stdlib Require Import Sorted Permutation DecimalString.
Import ListNotations.

Open Scope string_scope.
Open Scope Z_scope.

(** ** JavaScript strings and arrays *)

Definition charCode (c : ascii) : N := N_of_ascii c.

Definition toLowerChar (c : ascii) : ascii :=
  let n := charCode c in
  if ((65 <=? n) && (n <=? 90))%N then ascii_of_N (n + 32) else c.

(** [String.prototype.toLowerCase]. *)
Fixpoint toLowerCase (s : string) : string :=
  match s with
  | EmptyString => EmptyString
  | String c s' => String (toLowerChar c) (toLowerCase s')
  end.

(** The characters [trim] strips and [\s] matches. *)
Definition isWhiteSpace (c : ascii) : bool :=
  let n := charCode c in
  (((9 <=? n) && (n <=? 13)) || (n =? 32))%N.

Fixpoint trimStart (s : string) : string :=
  match s with
  | EmptyString => EmptyString
  | String c s' => if isWhiteSpace c then trimStart s' else s
  end.

Fixpoint trimEnd (s : string) : string :=
  match s with
  | EmptyString => EmptyString
  | String c s' =>
      let t := trimEnd s' in
      if isWhiteSpace c && (t =? "")%string then EmptyString else String c t
  end.

(** [String.prototype.trim]. *)
Definition trim (s : string) : string := trimEnd (trimStart s).

(** [s.split(sep)] for a one-character separator: never empty. *)
Fixpoint split (sep : ascii) (s : string) : list string :=
  match s with
  | EmptyString => [EmptyString]
  | String c s' =>
      if Ascii.eqb c sep then EmptyString :: split sep s'
      else match split sep s' with
           | [] => [String c EmptyString]
           | p :: ps => String c p :: ps
           end
  end.

(** [full_name.split('/')[0]]: the owner part of a repository name. *)
Definition ownerPart (fullName : string) : string :=
  hd EmptyString (split "/" fullName).

(** Whether [full_name] has the separator of owner and name. *)
Definition hasSeparator (fullName : string) : bool :=
  existsb (Ascii.eqb "/") (list_ascii_of_string fullName).

(** [s.startsWith(p)]. *)
Definition startsWith (p s : string) : bool := prefix p s.

(** [s.includes(sub)]. *)
Fixpoint includes (sub s : string) : bool :=
  prefix sub s ||
  match s with
  | EmptyString => false
  | String _ s' => includes sub s'
  end.

(** [s.length] as a number. *)
Definition strlen (s : string) : Z := Z.of_nat (String.length s).

(** [s.slice(0, n)] for [0 <= n]. *)
Fixpoint takeChars (n : N) (s : string) : string :=
  match s with
  | EmptyString => EmptyString
  | String c s' => if (n =? 0)%N then EmptyString else String c (takeChars (N.pred n) s')
  end.

(** [a.slice(0, n)] on an array: a negative [n] counts from the end. *)
Definition sliceTo {A : Type} (n : Z) (a : list A) : list A :=
  if n <? 0 then firstn (Z.to_nat (Z.max 0 (Z.of_nat (List.length a) + n))) a
  else firstn (Z.to_nat n) a.

(** [[...new Set(a)]]: the first occurrence of every element, in order. *)
Fixpoint uniqueFrom (seen a : list string) : list string :=
  match a with
  | [] => []
  | x :: a' =>
      if existsb (String.eqb x) seen then uniqueFrom seen a'
      else x :: uniqueFrom (x :: seen) a'
  end.

Definition unique (a : list string) : list string := uniqueFrom [] a.

(** [typeof x === 'number' ? x : 0]. *)
Definition numberOr0 (x : option Z) : Z :=
  match x with Some n => n | None => 0 end.

Definition Qltb (x y : Q) : bool := negb (Qle_bool y x).

(** ** Data model ([types.ts]) *)

Record Owner := mkOwner { login : string; type_ : string }.

Record GitHubRepo := mkRepo {
  id : Z;
  name : string;
  full_name : string;
  owner : option Owner;
  private : bool;
  html_url : string;
  description : option string;
  fork : bool;
  created_at : string;
  updated_at : string;
  pushed_at : string;
  homepage : option string;
  size : Z;
  stargazers_count : option Z;
  watchers_count : option Z;
  language : option string;
  forks_count : option Z;
  topics : list string
}.

Inductive Complexity := simple | moderate | complex.

Record PackageJson := mkPackageJson {
  dependencies : list string;
  devDependencies : list string;
  scripts : list string;
  pkg_description : option string
}.

Record ReadmeData := mkReadmeData {
  readme_length : option Z;
  readme_hasDemo : bool;
  readme_hasDocs : bool;
  techMentions : list string;
  readme_projectType : string;
  readme_hasMetrics : bool;
  readme_complexity : Complexity
}.

Record EnrichedData := mkEnrichedData {
  packageJson : option PackageJson;
  pythonDependencies : list string;
  commitCount : option Z;
  userCommitCount : option Z;
  languages : list (string * Z);
  languageCount : option Z;
  totalCodeBytes : option Z;
  readme : option ReadmeData;
  isMLProject : bool;
  isDataScience : bool;
  detectedTechnologies : option (list string)
}.

(** [EnrichedRepoData extends GitHubRepo]. *)
Record EnrichedRepoData := mkEnriched {
  repo : GitHubRepo;
  calculatedScore : option Z;
  enrichedData : option EnrichedData
}.

(** [{ ...repo, calculatedScore: s }]. *)
Definition withScore (r : EnrichedRepoData) (s : Z) : EnrichedRepoData :=
  mkEnriched (repo r) (Some s) (enrichedData r).

(** ** The scoring and filtering engine ([scoreAndSortRepos]) *)

(** [const isOwnRepo = owner.toLowerCase().trim() === usernameLower]. *)
Definition isOwner (owner usernameLower : string) : bool :=
  (trim (toLowerCase owner) =? usernameLower)%string.

(** What the contribution-gating block does to the running score: it either
    returns from the callback with the sentinel or goes on. *)
Inductive Gate := ReturnSentinel | Continue (score : Z).

(** The quotient [contributionRatio], capped at 100%. *)
Definition contributionRatio (userCommits totalCommits : Z) : Q :=
  if (totalCommits >? 0) && (userCommits >=? 0)
  then Qmin (inject_Z userCommits / inject_Z totalCommits)%Q 1%Q
  else if (totalCommits =? 0) && (userCommits >? 0) then 1%Q
  else 0%Q.

(** Lines 916-944: the penalty tiers for organisation repositories and
    for the user's own forks. *)
Definition contributionGate (isOwnRepo isFork : bool)
    (userCommits : Z) (ratio : Q) (score : Z) : Gate :=
  if negb isOwnRepo then
    if userCommits =? 0 then ReturnSentinel
    else if userCommits <? 3 then Continue (score - 300)
    else if (userCommits <? 10) || Qltb ratio (1 # 10) then Continue (score - 200)
    else if (userCommits <? 20) || Qltb ratio (25 # 100) then Continue (score - 100)
    else Continue score
  else if isFork then
    if userCommits =? 0 then ReturnSentinel
    else if userCommits <? 10 then Continue (score - 250)
    else if userCommits <? 30 then Continue (score - 150)
    else Continue score
  else Continue score.

Section Scoring.

(** [new Date(s).getTime()], [None] when it is [NaN]. *)
Variable dateTime : string -> option Z.
(** [Date.now()]. *)
Variable now : Z.

(** [(Date.now() - updateDate.getTime()) / (1000 * 60 * 60 * 24)];
    [None] stands for [Infinity]. *)
Definition daysSinceUpdate (r : GitHubRepo) : option Q :=
  match dateTime (updated_at r) with
  | Some t => Some (inject_Z (now - t) / inject_Z (1000 * 60 * 60 * 24))%Q
  | None => None
  end.

(** [daysSinceUpdate < d]. *)
Definition daysBelow (days : option Q) (d : Z) : bool :=
  match days with
  | Some q => Qltb q (inject_Z d)
  | None => false
  end.

(** Lines 869-898: the score of a repository without enrichment data. *)
Definition fallbackScore (r : GitHubRepo) (isOwnRepo : bool) : Z :=
  let score := 0 in
  let stars := numberOr0 (stargazers_count r) in
  let forks := numberOr0 (forks_count r) in
  let score := if negb (private r) && (stars >? 10) then score + 30 else score in
  let score := if forks >? 5 then score + 20 else score in
  let score := if daysBelow (daysSinceUpdate r) 90 then score + 10 else score in
  let score := if isOwnRepo then score + 20 else score in
  let score := if fork r then score - 200 else score in
  Z.max 0 score.

(** Lines 947-1059: the positive signals and the minor penalties, from
    the score the gating block left. The score is an integer throughout,
    so the last guard, [typeof score === 'number' && !isNaN(score)],
    returns it as it is. *)
Definition signalScore (r : GitHubRepo) (data : EnrichedData)
    (isOwnRepo : bool) (userCommits totalCommits : Z) (score : Z) : Z :=
  let relevantCommits := if isOwnRepo then totalCommits else userCommits in
  let score :=
    if relevantCommits >? 500 then score + 100
    else if relevantCommits >? 200 then score + 80
    else if relevantCommits >? 100 then score + 60
    else if relevantCommits >? 50 then score + 40
    else if relevantCommits >? 20 then score + 20
    else if relevantCommits >? 5 then score + 10
    else score in
  let codeBytes := numberOr0 (totalCodeBytes data) in
  let codeKB : Q := if codeBytes >? 0 then (inject_Z codeBytes / inject_Z 1024)%Q else 0%Q in
  let score :=
    if Qltb (inject_Z 1000) codeKB then score + 50
    else if Qltb (inject_Z 500) codeKB then score + 40
    else if Qltb (inject_Z 200) codeKB then score + 30
    else if Qltb (inject_Z 100) codeKB then score + 20
    else if Qltb (inject_Z 50) codeKB then score + 10
    else score in
  let langCount := numberOr0 (languageCount data) in
  let score :=
    if langCount >=? 5 then score + 30
    else if langCount >=? 3 then score + 20
    else if langCount >=? 2 then score + 10
    else score in
  let readmeLength :=
    numberOr0 (match readme data with Some rd => readme_length rd | None => None end) in
  let score :=
    if readmeLength >? 5000 then score + 40
    else if readmeLength >? 2000 then score + 30
    else if readmeLength >? 1000 then score + 20
    else if readmeLength >? 500 then score + 10
    else score in
  let complexity := option_map readme_complexity (readme data) in
  let score :=
    match complexity with
    | Some complex => score + 50
    | Some moderate => score + 25
    | _ => score
    end in
  let scripts :=
    match packageJson data with Some pkg => scripts pkg | None => [] end in
  let score := if existsb (includes "test") scripts then score + 20 else score in
  let score := if existsb (includes "build") scripts then score + 15 else score in
  let score := if existsb (includes "lint") scripts then score + 10 else score in
  let flag (f : ReadmeData -> bool) :=
    match readme data with Some rd => f rd | None => false end in
  let score := if flag readme_hasDocs then score + 15 else score in
  let score := if flag readme_hasDemo then score + 20 else score in
  let score := if flag readme_hasMetrics then score + 15 else score in
  let techs :=
    match detectedTechnologies data with Some t => t | None => [] end in
  let depCount := Z.of_nat (List.length techs) in
  let score :=
    if depCount >? 30 then score + 30
    else if depCount >? 20 then score + 20
    else if depCount >? 10 then score + 10
    else score in
  let days := daysSinceUpdate r in
  let score :=
    if daysBelow days 30 then score + 30
    else if daysBelow days 90 then score + 20
    else if daysBelow days 180 then score + 10
    else score in
  let score :=
    if negb (private r) then
      let stars := numberOr0 (stargazers_count r) in
      let score :=
        if stars >? 100 then score + 50
        else if stars >? 50 then score + 40
        else if stars >? 20 then score + 30
        else if stars >? 10 then score + 20
        else if stars >? 5 then score + 10
        else score in
      let forks := numberOr0 (forks_count r) in
      if forks >? 20 then score + 30
      else if forks >? 10 then score + 20
      else if forks >? 5 then score + 10
      else score
    else score in
  let score := if isOwnRepo then score + 30 else score in
  let readmeLen :=
    numberOr0 (match readme data with Some rd => readme_length rd | None => None end) in
  let score := if readmeLen =? 0 then score - 20 else score in
  let score :=
    if isOwnRepo && negb (fork r) && (relevantCommits <? 5) then score - 20 else score in
  score.

(** The callback of [.map]: the value given to [calculatedScore]. *)
Definition computeScore (usernameLower : string) (r : EnrichedRepoData) : Z :=
  let parts := split "/" (full_name (repo r)) in
  if (List.length parts <? 2)%nat then 0
  else
    let owner := hd EmptyString parts in
    let isOwnRepo := isOwner owner usernameLower in
    match enrichedData r with
    | None => fallbackScore (repo r) isOwnRepo
    | Some data =>
        let userCommits := numberOr0 (userCommitCount data) in
        let totalCommits := numberOr0 (commitCount data) in
        let ratio := contributionRatio userCommits totalCommits in
        match contributionGate isOwnRepo (fork (repo r)) userCommits ratio 0 with
        | ReturnSentinel => -9999
        | Continue score =>
            signalScore (repo r) data isOwnRepo userCommits totalCommits score
        end
    end.

Definition scoreRepo (usernameLower : string) (r : EnrichedRepoData)
    : EnrichedRepoData :=
  withScore r (computeScore usernameLower r).

(** Comparisons of a possibly missing score: [undefined] compares false. *)
Definition scoreLt (s : option Z) (k : Z) : bool :=
  match s with Some v => v <? k | None => false end.
Definition scoreGt (s : option Z) (k : Z) : bool :=
  match s with Some v => v >? k | None => false end.
Definition scoreGe (s : option Z) (k : Z) : bool :=
  match s with Some v => v >=? k | None => false end.

(** The ownership test of the filter (lines 1070-1071). *)
Definition isOwn (usernameLower : string) (r : EnrichedRepoData) : bool :=
  let parts := split "/" (full_name (repo r)) in
  (2 <=? List.length parts)%nat && isOwner (hd EmptyString parts) usernameLower.

(** The callback of [.filter] (lines 1061-1075). *)
Definition keepScored (usernameLower : string) (r : EnrichedRepoData) : bool :=
  let score := calculatedScore r in
  if scoreLt score (-1000) then false
  else scoreGt score 0 || (scoreGe score 0 && isOwn usernameLower r).

(** The comparator's operands:
    [typeof a.calculatedScore === 'number' ? a.calculatedScore : 0]. *)
Definition sortKey (r : EnrichedRepoData) : Z := numberOr0 (calculatedScore r).

(** [Array.prototype.sort] with [(a, b) => scoreB - scoreA]: a stable sort
    by descending score. *)
Fixpoint insertByScore (x : EnrichedRepoData) (l : list EnrichedRepoData)
    : list EnrichedRepoData :=
  match l with
  | [] => [x]
  | y :: l' =>
      if sortKey y <=? sortKey x then x :: l
      else y :: insertByScore x l'
  end.

Fixpoint sortByScore (l : list EnrichedRepoData) : list EnrichedRepoData :=
  match l with
  | [] => []
  | x :: l' => insertByScore x (sortByScore l')
  end.

(** The order the comparator asks for: [a] may stand before [b]. *)
Definition byScoreDesc (a b : EnrichedRepoData) : Prop := sortKey b <= sortKey a.

Definition scoreAndSortRepos (repos : list EnrichedRepoData) (username : string)
    : list EnrichedRepoData :=
  let usernameLower := toLowerCase username in
  sortByScore (filter (keepScored usernameLower) (map (scoreRepo usernameLower) repos)).

End Scoring.

(** ** The relevance pre-filter of [fetchAllRepos] *)

(** [new Map(repos.map(item => [item.id, item]))]: a key keeps the place of
    its first insertion and the value of its last. *)
Fixpoint mapSet (k : Z) (v : GitHubRepo) (m : list (Z * GitHubRepo))
    : list (Z * GitHubRepo) :=
  match m with
  | [] => [(k, v)]
  | (k', v') :: m' =>
      if k =? k' then (k, v) :: m' else (k', v') :: mapSet k v m'
  end.

Definition uniqueRepos (repos : list GitHubRepo) : list GitHubRepo :=
  map snd (fold_left (fun m item => mapSet (id item) item m) repos []).

(** The ownership test of the pre-filter (lines 810-816): the owner part of
    [full_name] or the [owner.login] field names the user. *)
Definition isOwnRepo (trimmedUsername : string) (r : GitHubRepo) : bool :=
  let parts := split "/" (full_name r) in
  let owner_ := hd EmptyString parts in
  let ownerLower := trim (toLowerCase owner_) in
  let usernameLower := trim (toLowerCase trimmedUsername) in
  (ownerLower =? usernameLower)%string ||
  match owner r with
  | Some o => (trim (toLowerCase (login o)) =? usernameLower)%string
  | None => false
  end.

(** The callback of [uniqueRepos.filter] (lines 797-845). *)
Definition isUserRelevant (trimmedUsername : string) (r : GitHubRepo) : bool :=
  if (full_name r =? "")%string then false
  else
    let parts := split "/" (full_name r) in
    if (List.length parts <? 2)%nat then false
    else
      let isOwn := isOwnRepo trimmedUsername r in
      if isOwn && negb (fork r) then true
      else if fork r && negb isOwn then false
      else if fork r && isOwn then
        let stars := numberOr0 (stargazers_count r) in
        let forks := numberOr0 (forks_count r) in
        if (stars <? 20) && (forks <? 10) then false else true
      else true.

(** The three kinds of entry the specification says the pre-filter
    removes: no separator in [full_name]; a fork that is not the user's;
    a fork of the user's with fewer than 20 stars and fewer than 10 forks. *)
Definition removedByPrefilter (trimmedUsername : string) (r : GitHubRepo) : Prop :=
  hasSeparator (full_name r) = false \/
  (fork r = true /\ isOwnRepo trimmedUsername r = false) \/
  (fork r = true /\ isOwnRepo trimmedUsername r = true /\
   numberOr0 (stargazers_count r) < 20 /\ numberOr0 (forks_count r) < 10).

(** What [fetchAllRepos] returns from the pages it collected. *)
Definition userRelevantRepos (repos : list GitHubRepo) (username : string)
    : list GitHubRepo :=
  let trimmedUsername := trim username in
  filter (isUserRelevant trimmedUsername) (uniqueRepos repos).

(** ** The enrichment orchestrator ([enrichRepoData]) *)

Section Enrichment.

(** The asynchronous callback of [topRepos.map]: what the network yields
    for one repository, caught failures included. *)
Variable enrichOne : string -> string -> GitHubRepo -> EnrichedRepoData.

(** [limit] is [None] when the caller omits the argument. *)
Definition enrichRepoData (token : string) (repos : list GitHubRepo)
    (username : string) (limit : option Z) : list EnrichedRepoData :=
  let limit := match limit with Some l => l | None => 10 end in
  let topRepos := sliceTo limit repos in
  map (enrichOne token username) topRepos.

(** The call in [App.tsx]: [enrichRepoData(githubToken, repos, user.login, 20)]. *)
Definition appEnrichedRepos (githubToken : string) (repos : list GitHubRepo)
    (userLogin : string) : list EnrichedRepoData :=
  enrichRepoData githubToken repos userLogin (Some 20).

End Enrichment.

(** ** The content fetcher ([fetchFileContent]) *)

(** A thrown value: an error object with its [name]. *)
Record Error := mkError { error_name : string }.

Inductive Outcome (A : Type) :=
| Ok (a : A)
| Throw (e : Error).
Arguments Ok {A} a.
Arguments Throw {A} e.

Definition bind {A B : Type} (m : Outcome A) (f : A -> Outcome B) : Outcome B :=
  match m with
  | Ok a => f a
  | Throw e => Throw e
  end.

Notation "x <- m ;; k" := (bind m (fun x => k))
  (at level 61, m at next level, right associativity).

(** [try { body } catch (e) { handler(e) }]. *)
Definition tryCatch {A : Type} (body : Outcome A) (handler : Error -> Outcome A)
    : Outcome A :=
  match body with
  | Ok a => Ok a
  | Throw e => handler e
  end.

(** The base64 decoders [base64Decode] looks for. *)
Inductive Base64Env :=
| Browser (atob : string -> option string)   (* [atob] throws: [None] *)
| Node (bufferDecode : string -> string)     (* [Buffer.from(s, 'base64')] *)
| NoDecoder.

(** [base64Decode]: every failure inside the [try] becomes ['']. *)
Definition base64Decode (env : Base64Env) (str : string) : string :=
  let body : Outcome string :=
    match env with
    | Browser atob =>
        match atob str with
        | Some s => Ok s
        | None => Throw (mkError "InvalidCharacterError")
        end
    | Node bufferDecode => Ok (bufferDecode str)
    | NoDecoder => Throw (mkError "Error")
    end in
  match body with
  | Ok s => s
  | Throw _ => EmptyString
  end.

(** The decoding of [str] throws inside [base64Decode]. *)
Definition decoderThrows (env : Base64Env) (str : string) : Prop :=
  match env with
  | Browser atob => atob str = None
  | Node _ => False
  | NoDecoder => True
  end.

(** The [content] field of the payload. *)
Inductive ContentField :=
| NoContent                       (* missing or [null] *)
| TextContent (s : string)        (* a string *)
| OtherContent.                   (* a truthy value without [replace] *)

Record ContentsPayload := mkPayload {
  data_size : option Z;
  data_content : ContentField;
  data_encoding : option string
}.

(** What [response.json()] gives. *)
Inductive JsonBody :=
| JsonRejects (e : Error)          (* the body is not JSON *)
| JsonNull                         (* [null]: reading a field throws *)
| JsonData (d : ContentsPayload).

Inductive Response :=
| Rejects (e : Error)              (* [fetch] rejects: network failure *)
| Responds (ok : bool) (body : JsonBody).

(** The upstream behaviour for one URL: when the answer arrives and what
    it is. *)
Record Upstream := mkUpstream {
  latencyMs : Z;
  response : Response
}.

Definition BASE_URL : string := "https://api.github.com".

(** [content.replace(/\n/g, '')]. *)
Fixpoint removeNewlines (s : string) : string :=
  match s with
  | EmptyString => EmptyString
  | String c s' =>
      if Ascii.eqb c "010"%char then removeNewlines s'
      else String c (removeNewlines s')
  end.

(** The URL of a file of a repository. *)
Definition contentsUrl (owner_ repo_ path : string) : string :=
  BASE_URL ++ "/repos/" ++ owner_ ++ "/" ++ repo_ ++ "/contents/" ++ path.

(** The defaults of [timeoutMs] and [maxSizeBytes]. *)
Definition timeoutOr5000 (timeoutMs : option Z) : Z :=
  match timeoutMs with Some t => t | None => 5000 end.
Definition maxSizeOr1MB (maxSizeBytes : option Z) : Z :=
  match maxSizeBytes with Some m => m | None => 1024 * 1024 end.

Section ContentFetcher.

Variable env : Base64Env.
Variable upstream : string -> Upstream.

(** [fetch(url, { signal })] under [setTimeout(() => controller.abort(), timeoutMs)]. *)
Definition fetchWithTimeout (url : string) (timeoutMs : Z) : Outcome (bool * JsonBody) :=
  let u := upstream url in
  if timeoutMs <=? latencyMs u then Throw (mkError "AbortError")
  else
    match response u with
    | Rejects e => Throw e
    | Responds ok body => Ok (ok, body)
    end.

Definition responseJson (body : JsonBody) : Outcome ContentsPayload :=
  match body with
  | JsonRejects e => Throw e
  | JsonNull => Throw (mkError "TypeError")
  | JsonData d => Ok d
  end.

(** [data.content.replace(/\n/g, '')]. *)
Definition contentReplace (c : ContentField) : Outcome string :=
  match c with
  | TextContent s => Ok (removeNewlines s)
  | _ => Throw (mkError "TypeError")
  end.

(** Whether [data.content] is truthy: the empty string is not. *)
Definition isTruthyContent (c : ContentField) : bool :=
  match c with
  | NoContent => false
  | TextContent s => negb (s =? "")%string
  | OtherContent => true
  end.

(** [timeoutMs] and [maxSizeBytes] are [None] when omitted. *)
Definition fetchFileContent (token owner_ repo_ path : string)
    (timeoutMs maxSizeBytes : option Z) : Outcome (option string) :=
  let timeoutMs := timeoutOr5000 timeoutMs in
  let maxSizeBytes := maxSizeOr1MB maxSizeBytes in
  tryCatch
    (resp <- fetchWithTimeout (contentsUrl owner_ repo_ path) timeoutMs ;;
     let (ok, body) := resp in
     if negb ok then Ok None
     else
       data <- responseJson body ;;
       if match data_size data with
          | Some sz => negb (sz =? 0) && (sz >? maxSizeBytes)
          | None => false
          end
       then Ok None
       else if isTruthyContent (data_content data) &&
               match data_encoding data with
               | Some e => (e =? "base64")%string
               | None => false
               end
       then
         tryCatch
           (cleaned <- contentReplace (data_content data) ;;
            let decoded := base64Decode env cleaned in
            if strlen decoded >? maxSizeBytes then Ok None
            else Ok (Some decoded))
           (fun decodeError => Ok None)
       else Ok None)
    (fun error => Ok None).

End ContentFetcher.

(** ** Regular expressions

    The fragment of ECMAScript regular expressions the parsers use, with
    the backtracking semantics of the language: alternatives in order,
    greedy quantifiers first, the first match from the left. *)

Inductive Re :=
| Eps                              (* the empty pattern *)
| Chr (p : ascii -> bool)          (* one character of a class *)
| Cat (a b : Re)                   (* ab *)
| Or (a b : Re)                    (* a|b *)
| Opt (a : Re)                     (* a? *)
| Many (p : ascii -> bool)         (* [p]*  *)
| Few (p : ascii -> bool)          (* [p]*? *)
| Bound                            (* \b *)
| Start                            (* ^ *)
| LineStart                        (* ^ under the m flag *)
| Group (a : Re).                  (* (a) *)

(** The state after a match: the text left and the captures so far. *)
Definition MatchState := (string * list string)%type.
Definition Cont := option ascii -> string -> list string -> option MatchState.

Definition isWordChar (c : ascii) : bool :=
  let n := charCode c in
  (((48 <=? n) && (n <=? 57)) || ((65 <=? n) && (n <=? 90)) ||
   ((97 <=? n) && (n <=? 122)) || (n =? 95))%N.

Definition isLineTerminator (c : ascii) : bool :=
  let n := charCode c in ((n =? 10) || (n =? 13))%N.

Definition wordBefore (prev : option ascii) : bool :=
  match prev with Some c => isWordChar c | None => false end.

Definition wordAhead (s : string) : bool :=
  match s with String c _ => isWordChar c | EmptyString => false end.

(** The text of [s] in front of its suffix [rest]. *)
Definition consumed (s rest : string) : string :=
  substring 0 (String.length s - String.length rest) s.

Fixpoint run (r : Re) (prev : option ascii) (s : string) (caps : list string)
    (k : Cont) {struct r} : option MatchState :=
  match r with
  | Eps => k prev s caps
  | Chr p =>
      match s with
      | String c s' => if p c then k (Some c) s' caps else None
      | EmptyString => None
      end
  | Cat a b => run a prev s caps (fun prev' s' caps' => run b prev' s' caps' k)
  | Or a b =>
      match run a prev s caps k with
      | Some st => Some st
      | None => run b prev s caps k
      end
  | Opt a =>
      match run a prev s caps k with
      | Some st => Some st
      | None => k prev s caps
      end
  | Many p =>
      (fix many (prev : option ascii) (s : string) {struct s} : option MatchState :=
         match s with
         | String c s' =>
             if p c then
               match many (Some c) s' with
               | Some st => Some st
               | None => k prev s caps
               end
             else k prev s caps
         | EmptyString => k prev s caps
         end) prev s
  | Few p =>
      (fix few (prev : option ascii) (s : string) {struct s} : option MatchState :=
         match k prev s caps with
         | Some st => Some st
         | None =>
             match s with
             | String c s' => if p c then few (Some c) s' else None
             | EmptyString => None
             end
         end) prev s
  | Bound => if xorb (wordBefore prev) (wordAhead s) then k prev s caps else None
  | Start => match prev with None => k prev s caps | Some _ => None end
  | LineStart =>
      match prev with
      | None => k prev s caps
      | Some c => if isLineTerminator c then k prev s caps else None
      end
  | Group a =>
      run a prev s caps (fun prev' s' caps' => k prev' s' (caps' ++ [consumed s s'])%list)
  end.

(** One attempt at the current position. *)
Definition attempt (r : Re) (prev : option ascii) (s : string) : option MatchState :=
  run r prev s [] (fun _ rest caps => Some (rest, caps)).

(** A match: its text and its capture groups. *)
Definition Match := (string * list string)%type.

(** The first match at or after the current position. *)
Fixpoint searchFrom (r : Re) (prev : option ascii) (s : string) : option Match :=
  match attempt r prev s with
  | Some (rest, caps) => Some (consumed s rest, caps)
  | None =>
      match s with
      | String c s' => searchFrom r (Some c) s'
      | EmptyString => None
      end
  end.

(** [re.test(s)]. *)
Definition test (r : Re) (s : string) : bool :=
  match searchFrom r None s with Some _ => true | None => false end.

(** [s.match(re)] without the g flag. *)
Definition matchFirst (r : Re) (s : string) : option Match := searchFrom r None s.

(** [s.matchAll(re)] and [s.match(re)] under the g flag: the matches from
    the left, each search starting where the last match ended (one
    character further after an empty match). [skip] counts the characters
    still inside the last match. *)
Fixpoint matchAllFrom (r : Re) (skip : nat) (prev : option ascii) (s : string)
    {struct s} : list Match :=
  match skip with
  | S n =>
      match s with
      | String c s' => matchAllFrom r n (Some c) s'
      | EmptyString => []
      end
  | O =>
      match attempt r prev s with
      | Some (rest, caps) =>
          let text := consumed s rest in
          (text, caps) ::
          match s with
          | String c s' => matchAllFrom r (String.length text - 1) (Some c) s'
          | EmptyString => []
          end
      | None =>
          match s with
          | String c s' => matchAllFrom r 0 (Some c) s'
          | EmptyString => []
          end
      end
  end.

Definition matchAll (r : Re) (s : string) : list Match := matchAllFrom r 0 None s.

(** The k-th capture group of a match, k from 1. *)
Definition capture (k : nat) (m : Match) : string := nth (k - 1) (snd m) EmptyString.

(** *** Pattern notation *)

Definition isChar (c : ascii) : ascii -> bool := Ascii.eqb c.
(** A character under the i flag. *)
Definition isCI (c : ascii) : ascii -> bool :=
  fun x => Ascii.eqb (toLowerChar x) (toLowerChar c).
Definition isDigit (c : ascii) : bool :=
  let n := charCode c in ((48 <=? n) && (n <=? 57))%N.
Definition isAlnum (c : ascii) : bool :=
  let n := charCode c in
  (((48 <=? n) && (n <=? 57)) || ((65 <=? n) && (n <=? 90)) ||
   ((97 <=? n) && (n <=? 122)))%N.
(** [.]: anything but a line terminator. *)
Definition isDot (c : ascii) : bool := negb (isLineTerminator c).
Definition anyOf (cs : string) (c : ascii) : bool :=
  existsb (Ascii.eqb c) (list_ascii_of_string cs).
Definition noneOf (cs : string) (c : ascii) : bool := negb (anyOf cs c).

(** A literal text. *)
Fixpoint lit (t : string) : Re :=
  match t with
  | EmptyString => Eps
  | String c t' => Cat (Chr (isChar c)) (lit t')
  end.

(** A literal text under the i flag. *)
Fixpoint litCI (t : string) : Re :=
  match t with
  | EmptyString => Eps
  | String c t' => Cat (Chr (isCI c)) (litCI t')
  end.

(** [[p]+]. *)
Definition Some1 (p : ascii -> bool) : Re := Cat (Chr p) (Many p).

(** [a|b|c|...]. *)
Fixpoint oneOf (rs : list Re) : Re :=
  match rs with
  | [] => Chr (fun _ => false)
  | [r] => r
  | r :: rs' => Or r (oneOf rs')
  end.

(** [a b c ...]. *)
Fixpoint seqOf (rs : list Re) : Re :=
  match rs with
  | [] => Eps
  | [r] => r
  | r :: rs' => Cat r (seqOf rs')
  end.

(** ** The manifest parsers *)

Definition newline : ascii := "010"%char.
Definition dquote : ascii := "034"%char.
(** The two quote characters of the class [['\x22]]. *)
Definition quotes : string := String dquote "'".

(** [!content || content.length > limit]. *)
Definition rejected (content : string) (limit : Z) : bool :=
  (content =? "")%string || (strlen content >? limit).

(** [[a-zA-Z0-9_-]]. *)
Definition isNameChar (c : ascii) : bool := isAlnum c || anyOf "_-" c.

(** [/^([a-zA-Z0-9_-]+)/]. *)
Definition rePackageName : Re := Cat Start (Group (Some1 isNameChar)).

(** [parseRequirementsTxt] (lines 116-132). *)
Definition parseRequirementsTxt (content : string) : list string :=
  if rejected content 100000 then []
  else
    let lines := sliceTo 500 (split newline content) in
    let lines := map trim lines in
    let lines :=
      filter (fun line => negb (line =? "")%string && negb (startsWith "#" line)
                          && (strlen line <? 200)) lines in
    let pkgs :=
      map (fun line => option_map (capture 1) (matchFirst rePackageName line)) lines in
    flat_map (fun pkg =>
                match pkg with
                | Some p => if (strlen p >? 0) && (strlen p <? 100) then [p] else []
                | None => []
                end) pkgs.

(** [[a-zA-Z0-9._/-]]. *)
Definition isGoPathChar (c : ascii) : bool := isAlnum c || anyOf "._/-" c.

(** [/^\s*(?:require\s+)?([a-zA-Z0-9._/-]+)\s+v/]. *)
Definition reRequire : Re :=
  seqOf [Start; Many isWhiteSpace;
         Opt (Cat (lit "require") (Some1 isWhiteSpace));
         Group (Some1 isGoPathChar); Some1 isWhiteSpace; lit "v"].

(** [parseGoMod] (lines 135-153). *)
Definition parseGoMod (content : string) : list string :=
  if rejected content 100000 then []
  else
    let lines := split newline content in
    let deps :=
      flat_map (fun line =>
                  match matchFirst reRequire line with
                  | Some requireMatch =>
                      let parts := split "/" (capture 1 requireMatch) in
                      let pkgName := last parts EmptyString in
                      if negb (pkgName =? "")%string && (strlen pkgName <? 50)
                      then [pkgName] else []
                  | None => []
                  end) lines in
    sliceTo 100 (unique deps).

(** [/^\[dependencies\]/], [/^\[dev-dependencies\]/], [/^\[/] and
    [/^([a-zA-Z0-9_-]+)\s*=/]. *)
Definition reDependencies : Re := Cat Start (lit "[dependencies]").
Definition reDevDependencies : Re := Cat Start (lit "[dev-dependencies]").
Definition reSection : Re := Cat Start (lit "[").
Definition reCargoKey : Re :=
  seqOf [Start; Group (Some1 isNameChar); Many isWhiteSpace; lit "="].

(** One turn of the loop of [parseCargoToml] on the pair [(inDeps, deps)]. *)
Definition cargoLine (st : bool * list string) (line : string) : bool * list string :=
  let (inDeps, deps) := st in
  if test reDependencies line || test reDevDependencies line then (true, deps)
  else if test reSection line then (false, deps)
  else if inDeps then
    match matchFirst reCargoKey line with
    | Some m =>
        if strlen (capture 1 m) <? 50 then (inDeps, (deps ++ [capture 1 m])%list)
        else (inDeps, deps)
    | None => (inDeps, deps)
    end
  else (inDeps, deps).

(** [parseCargoToml] (lines 156-179). *)
Definition parseCargoToml (content : string) : list string :=
  if rejected content 100000 then []
  else
    let lines := split newline content in
    let deps := snd (fold_left cargoLine lines (false, [])) in
    sliceTo 100 (unique deps).

(** [/<artifactId>([^<]+)<\/artifactId>/g]. *)
Definition reArtifactId : Re :=
  seqOf [lit "<artifactId>"; Group (Some1 (noneOf "<")); lit "</artifactId>"].

(** [parsePomXml] (lines 182-195). *)
Definition parsePomXml (content : string) : list string :=
  if rejected content 500000 then []
  else
    let matches := matchAll reArtifactId content in
    let deps :=
      flat_map (fun m =>
                  let a := capture 1 m in
                  if negb (a =? "")%string && (strlen a <? 50) && negb (includes "$" a)
                  then [a] else []) matches in
    sliceTo 100 (unique deps).

(** [/(?:implementation|compile|api|testImplementation)\s*['\x22(]([^'\x22():]+):([^'\x22():]+)/g]. *)
Definition reGradle : Re :=
  seqOf [oneOf [lit "implementation"; lit "compile"; lit "api"; lit "testImplementation"];
         Many isWhiteSpace; Chr (anyOf (quotes ++ "("));
         Group (Some1 (noneOf (quotes ++ "():"))); lit ":";
         Group (Some1 (noneOf (quotes ++ "():")))].

(** [parseBuildGradle] (lines 198-211). *)
Definition parseBuildGradle (content : string) : list string :=
  if rejected content 200000 then []
  else
    let matches := matchAll reGradle content in
    let deps :=
      flat_map (fun m =>
                  let a := capture 2 m in
                  if negb (a =? "")%string && (strlen a <? 50) then [a] else [])
               matches in
    sliceTo 100 (unique deps).

(** [/^\s*gem\s+['\x22]([a-zA-Z0-9_-]+)['\x22]/]. *)
Definition reGem : Re :=
  seqOf [Start; Many isWhiteSpace; lit "gem"; Some1 isWhiteSpace;
         Chr (anyOf quotes); Group (Some1 isNameChar); Chr (anyOf quotes)].

(** [parseGemfile] (lines 214-227). *)
Definition parseGemfile (content : string) : list string :=
  if rejected content 100000 then []
  else
    let lines := split newline content in
    let deps :=
      flat_map (fun line =>
                  match matchFirst reGem line with
                  | Some m => if strlen (capture 1 m) <? 50 then [capture 1 m] else []
                  | None => []
                  end) lines in
    sliceTo 100 (unique deps).

(** [/find_package\s*\(\s*([a-zA-Z0-9_]+)/gi]. *)
Definition reFindPackage : Re :=
  seqOf [litCI "find_package"; Many isWhiteSpace; lit "("; Many isWhiteSpace;
         Group (Some1 isWordChar)].

(** [parseCMakeLists] (lines 230-241). *)
Definition parseCMakeLists (content : string) : list string :=
  if rejected content 200000 then []
  else
    let findPkgMatches := matchAll reFindPackage content in
    let deps :=
      flat_map (fun m =>
                  let a := capture 1 m in
                  if negb (a =? "")%string && (strlen a <? 50) then [a] else [])
               findPkgMatches in
    sliceTo 100 (unique deps).

(** [/install_requires\s*=\s*\[([\s\S]*?)\]/] and [/['\x22]([a-zA-Z0-9_-]+)/g]. *)
Definition reInstallRequires : Re :=
  seqOf [lit "install_requires"; Many isWhiteSpace; lit "="; Many isWhiteSpace;
         lit "["; Group (Few (fun _ => true)); lit "]"].
Definition reQuotedName : Re := Cat (Chr (anyOf quotes)) (Group (Some1 isNameChar)).

(** [parseSetupPy] (lines 283-297). *)
Definition parseSetupPy (content : string) : list string :=
  if rejected content 100000 then []
  else
    let deps :=
      match matchFirst reInstallRequires content with
      | Some requiresMatch =>
          flat_map (fun m =>
                      let a := capture 1 m in
                      if negb (a =? "")%string && (strlen a <? 50) then [a] else [])
                   (matchAll reQuotedName (capture 1 requiresMatch))
      | None => []
      end in
    sliceTo 100 (unique deps).

(** [/[\x22']([a-zA-Z0-9_-]+)(?:[><=!~]|[\x22'])/g]. *)
Definition reTomlName : Re :=
  seqOf [Chr (anyOf quotes); Group (Some1 isNameChar);
         Or (Chr (anyOf "><=!~")) (Chr (anyOf quotes))].

(** [parsePyprojectToml] (lines 300-311). *)
Definition parsePyprojectToml (content : string) : list string :=
  if rejected content 100000 then []
  else
    let matches := matchAll reTomlName content in
    let deps :=
      flat_map (fun m =>
                  let a := capture 1 m in
                  if negb (a =? "")%string && (strlen a <? 50) && (strlen a >? 1)
                  then [a] else []) matches in
    sliceTo 100 (unique deps).

(** ** The README analyzer ([parseReadme]) *)

(** What [parseReadme] returns. *)
Record ReadmeAnalysis := mkAnalysis {
  hasDemo : bool;
  hasDocs : bool;
  mentions : list string;
  projectType : string;
  hasMetrics : bool;
  complexity : Complexity
}.

(** [/library|package|npm|pypi|gem/] and the five that follow it. *)
Definition reLibrary : Re :=
  oneOf [lit "library"; lit "package"; lit "npm"; lit "pypi"; lit "gem"].
Definition reApi : Re :=
  oneOf [lit "api"; lit "backend"; lit "server"; lit "microservice"].
Definition reCli : Re :=
  oneOf [lit "cli"; seqOf [lit "command"; Opt (Chr isDot); lit "line"]; lit "terminal"].
Definition reDashboard : Re :=
  oneOf [lit "dashboard"; lit "admin"; lit "panel"].
Definition reMobile : Re :=
  oneOf [lit "mobile"; lit "ios"; lit "android";
         seqOf [lit "react"; Opt (Chr isDot); lit "native"]].
Definition reWebsite : Re :=
  oneOf [lit "website"; lit "landing"; lit "portfolio"].

(** [/\d+\+?\s*(users|requests|downloads|stars|contributors|companies)/i]. *)
Definition reMetrics : Re :=
  seqOf [Some1 isDigit; Opt (lit "+"); Many isWhiteSpace;
         Group (oneOf [litCI "users"; litCI "requests"; litCI "downloads";
                       litCI "stars"; litCI "contributors"; litCI "companies"])].

(** [/\s+/], [/!\[.*\]\(.*\)/g] and [/^#{2,3}\s/gm]. *)
Definition reSpaces : Re := Some1 isWhiteSpace.
Definition reImage : Re :=
  seqOf [lit "!["; Many isDot; lit "]("; Many isDot; lit ")"].
Definition reHeader : Re :=
  seqOf [LineStart; lit "##"; Opt (lit "#"); Chr isWhiteSpace].

(** The technology vocabulary, between two [\b], under the gi flags. *)
Definition reTech : Re :=
  seqOf [Bound;
         Group (oneOf [
           litCI "react"; litCI "vue"; litCI "angular"; litCI "svelte";
           seqOf [litCI "next"; Opt (lit "."); litCI "js"]; litCI "nuxt";
           seqOf [litCI "node"; Opt (lit "."); litCI "js"]; litCI "express";
           litCI "koa"; litCI "fastify"; litCI "django"; litCI "flask";
           litCI "fastapi"; litCI "spring"; litCI "laravel"; litCI "rails";
           litCI "docker"; litCI "kubernetes"; litCI "aws"; litCI "gcp";
           litCI "azure"; litCI "heroku"; litCI "vercel"; litCI "netlify";
           litCI "postgresql"; litCI "mysql"; litCI "mongodb"; litCI "redis";
           litCI "elasticsearch"; litCI "graphql";
           seqOf [litCI "rest"; Opt (Chr isWhiteSpace); litCI "api"]; litCI "grpc";
           litCI "typescript"; litCI "javascript"; litCI "python"; litCI "java";
           litCI "go"; litCI "golang"; litCI "rust"; litCI "c++"; litCI "swift";
           litCI "kotlin"; litCI "php"; litCI "ruby"; litCI "terraform";
           litCI "ansible"; litCI "jenkins";
           seqOf [litCI "github"; Opt (Chr isWhiteSpace); litCI "actions"];
           litCI "ci/cd"; litCI "webpack"; litCI "vite"; litCI "rollup";
           litCI "jest"; litCI "mocha"; litCI "pytest"; litCI "junit"]);
         Bound].

(** [/demo|live|deployed|website|app\.|production/] and
    [/documentation|docs|api reference|wiki/]. *)
Definition reDemo : Re :=
  oneOf [lit "demo"; lit "live"; lit "deployed"; lit "website"; lit "app.";
         lit "production"].
Definition reDocs : Re :=
  oneOf [lit "documentation"; lit "docs"; lit "api reference"; lit "wiki"].

(** [content.split(/\s+/).length]: one more than the runs of white space. *)
Definition wordCountOf (content : string) : Z :=
  Z.of_nat (List.length (matchAll reSpaces content)) + 1.

(** [parseReadme] (lines 314-366). *)
Definition parseReadme (content : string) : ReadmeAnalysis :=
  let maxContentLength := 50000 in
  let truncatedContent :=
    if strlen content >? maxContentLength
    then takeChars (Z.to_N maxContentLength) content
    else content in
  let lower := toLowerCase truncatedContent in
  let projectType := "application" in
  let projectType := if test reLibrary lower then "library" else projectType in
  let projectType := if test reApi lower then "api" else projectType in
  let projectType := if test reCli lower then "cli-tool" else projectType in
  let projectType := if test reDashboard lower then "dashboard" else projectType in
  let projectType := if test reMobile lower then "mobile-app" else projectType in
  let projectType := if test reWebsite lower then "website" else projectType in
  let hasMetrics := test reMetrics content in
  let wordCount := wordCountOf content in
  let hasDiagrams := test reImage content in
  let hasSections := Z.of_nat (List.length (matchAll reHeader content)) in
  let complexity := simple in
  let complexity :=
    if (wordCount >? 500) || (hasSections >? 5) then moderate else complexity in
  let complexity :=
    if (wordCount >? 1500) || (hasSections >? 10) || hasDiagrams
    then complex else complexity in
  let techMatches := map fst (matchAll reTech content) in
  let sanitizedMentions :=
    sliceTo 50
      (filter (fun m => (strlen m >? 1) && (strlen m <? 50))
              (map toLowerCase (unique techMatches))) in
  mkAnalysis
    (test reDemo lower)
    (test reDocs lower)
    sanitizedMentions
    projectType
    hasMetrics
    complexity.

(** ** A model of the browser's [atob]

    The forgiving base64 decoding of the HTML standard, for running the
    content fetcher on a concrete payload. *)

Definition base64Value (c : ascii) : option N :=
  let n := charCode c in
  (if (65 <=? n) && (n <=? 90) then Some (n - 65)
   else if (97 <=? n) && (n <=? 122) then Some (n - 71)
   else if (48 <=? n) && (n <=? 57) then Some (n + 4)
   else if n =? 43 then Some 62
   else if n =? 47 then Some 63
   else None)%N.

Fixpoint sextets (s : string) : option (list N) :=
  match s with
  | EmptyString => Some []
  | String c s' =>
      match base64Value c, sextets s' with
      | Some v, Some vs => Some (v :: vs)
      | _, _ => None
      end
  end.

Fixpoint bytesOfSextets (v : list N) : option string :=
  match v with
  | [] => Some EmptyString
  | [_] => None
  | [a; b] => Some (String (ascii_of_N (a * 4 + b / 16)) EmptyString)
  | [a; b; c] =>
      Some (String (ascii_of_N (a * 4 + b / 16))
           (String (ascii_of_N ((b mod 16) * 16 + c / 4)) EmptyString))
  | a :: b :: c :: d :: rest =>
      option_map
        (fun t => String (ascii_of_N (a * 4 + b / 16))
                 (String (ascii_of_N ((b mod 16) * 16 + c / 4))
                 (String (ascii_of_N ((c mod 4) * 64 + d)) t)))
        (bytesOfSextets rest)
  end%N.

Fixpoint removeWhiteSpace (s : string) : string :=
  match s with
  | EmptyString => EmptyString
  | String c s' =>
      if isWhiteSpace c then removeWhiteSpace s' else String c (removeWhiteSpace s')
  end.

Fixpoint stripPadding (s : string) : string :=
  match s with
  | EmptyString => EmptyString
  | String c s' =>
      if (s =? "=")%string || (s =? "==")%string then EmptyString
      else String c (stripPadding s')
  end.

Definition atob (input : string) : option string :=
  let s := removeWhiteSpace input in
  let s := if (Nat.modulo (String.length s) 4 =? 0)%nat then stripPadding s else s in
  match sextets s with
  | Some v => bytesOfSextets v
  | None => None
  end.

(** ** The contributor aggregate ([fetchCommitCount]) *)

(** An entry of the contributors list, with the two fields the code reads. *)
Record Contributor := mkContributor {
  contributor_login : option string;
  contributions : option Z
}.

(** What [response.json()] gives for a page of contributors; a [None] in
    the array is a [null] element. *)
Inductive ContributorsBody :=
| ContributorsRejects (e : Error)
| ContributorsNotArray
| ContributorsArray (contributors : list (option Contributor)).

Inductive ContributorsResponse :=
| ContributorsRequestRejects (e : Error)
| ContributorsResponds (ok : bool) (body : ContributorsBody).

(** The answer to the request for one page, and the time it takes. *)
Record ContributorsUpstream := mkContributorsUpstream {
  contributorsLatencyMs : Z;
  contributorsResponse : ContributorsResponse
}.

(** [{ total, userContributions }]. *)
Record CommitData := mkCommitData { total : Z; userContributions : Z }.

(** A string that is neither missing nor empty. *)
Definition truthy (s : option string) : bool :=
  match s with
  | Some (String _ _) => true
  | _ => false
  end.

(** [contributors.some(c => c.login?.toLowerCase() === target)]: reading
    [login] of a [null] element throws. *)
Fixpoint someLogin (target : string) (contributors : list (option Contributor))
    : Outcome bool :=
  match contributors with
  | [] => Ok false
  | None :: _ => Throw (mkError "TypeError")
  | Some c :: rest =>
      if match contributor_login c with
         | Some l => (toLowerCase l =? target)%string
         | None => false
         end
      then Ok true
      else someLogin target rest
  end.

(** [typeof c?.contributions === 'number' ? c.contributions : 0]. *)
Definition contributionsOf (c : option Contributor) : Z :=
  match c with
  | Some c' => numberOr0 (contributions c')
  | None => 0
  end.

(** The [reduce] that sums the contributions. *)
Definition totalContributions (allContributors : list (option Contributor)) : Z :=
  fold_left (fun sum c => sum + contributionsOf c) allContributors 0.

(** [c?.login?.toLowerCase().trim() === usernameLower]. *)
Definition loginIs (usernameLower : string) (c : option Contributor) : bool :=
  match c with
  | Some c' =>
      match contributor_login c' with
      | Some l => (trim (toLowerCase l) =? usernameLower)%string
      | None => false
      end
  | None => false
  end.

Section CommitCount.

(** The contributors endpoint, by owner, repository and page. *)
Variable contributorsPage : string -> string -> Z -> ContributorsUpstream.

(** The [while (page <= maxPages)] loop (lines 385-418), with the pages
    that are left, the time spent under the one timer of the function,
    and the contributors collected so far. *)
Fixpoint collectContributors (owner_ repo_ : string) (username : option string)
    (timeoutMs : Z) (pagesLeft : nat) (page elapsed : Z)
    (allContributors : list (option Contributor))
    : Outcome (list (option Contributor)) :=
  match pagesLeft with
  | O => Ok allContributors
  | S pagesLeft' =>
      let u := contributorsPage owner_ repo_ page in
      let elapsed := elapsed + contributorsLatencyMs u in
      if timeoutMs <=? elapsed then Throw (mkError "AbortError")
      else
        match contributorsResponse u with
        | ContributorsRequestRejects e => Throw e
        | ContributorsResponds ok body =>
            if negb ok then Ok allContributors
            else
              match body with
              | ContributorsRejects e => Throw e
              | ContributorsNotArray => Ok allContributors
              | ContributorsArray contributors =>
                  if (List.length contributors =? 0)%nat then Ok allContributors
                  else
                    let allContributors := (allContributors ++ contributors)%list in
                    found <- (match username with
                              | Some name =>
                                  if truthy username
                                  then someLogin (toLowerCase name) contributors
                                  else Ok false
                              | None => Ok false
                              end) ;;
                    if found && (List.length contributors <? 100)%nat
                    then Ok allContributors
                    else if (List.length contributors <? 100)%nat
                    then Ok allContributors
                    else collectContributors owner_ repo_ username timeoutMs
                           pagesLeft' (page + 1) elapsed allContributors
              end
        end
  end.

(** [fetchCommitCount] (lines 369-455); [timeoutMs] is [None] when
    omitted. *)
Definition fetchCommitCount (token owner_ repo_ : string) (username : option string)
    (timeoutMs : option Z) : Outcome CommitData :=
  let timeoutMs := match timeoutMs with Some t => t | None => 10000 end in
  let maxPages := 3%nat in
  tryCatch
    (allContributors <- collectContributors owner_ repo_ username timeoutMs
                          maxPages 1 0 [] ;;
     if (List.length allContributors =? 0)%nat then Ok (mkCommitData 0 0)
     else
       let total := totalContributions allContributors in
       let userContributions :=
         match username with
         | Some name =>
             if truthy username && (0 <? strlen (trim name))
             then
               let usernameLower := trim (toLowerCase name) in
               contributionsOf
                 (match find (loginIs usernameLower) allContributors with
                  | Some c => c
                  | None => None
                  end)
             else 0
         | None => 0
         end in
       Ok (mkCommitData total userContributions))
    (fun error => Ok (mkCommitData 0 0)).

End CommitCount.

(** ** The repository listing ([fetchAllRepos]) *)

(** A value or a thrown [Error] with its message. *)
Inductive Result (A : Type) :=
| Value (a : A)
| Raise (message : string).
Arguments Value {A} a.
Arguments Raise {A} message.

(** What [response.json()] gives for a page of repositories. *)
Inductive ReposBody :=
| ReposJsonFails
| ReposNotArray
| ReposArray (data : list GitHubRepo).

Inductive ReposResponse :=
| ReposNetworkError
| ReposStatus (status : Z) (body : ReposBody).

(** [response.ok]. *)
Definition statusOk (status : Z) : bool := (200 <=? status) && (status <=? 299).

(** [GITHUB_API.REPOS_PER_PAGE] and [GITHUB_API.MAX_PAGES]. *)
Definition REPOS_PER_PAGE : nat := 100.
Definition MAX_PAGES : nat := 3.

Section RepoListing.

(** [/user/repos] by token and page, [/users/:name/repos] by token, name
    and page. *)
Variable userReposPage : string -> Z -> ReposResponse.
Variable publicReposPage : string -> string -> Z -> ReposResponse.

(** What a page of data does to the loop: the list after it, and whether
    the loop goes on to the next page or breaks. *)
Definition takePage (repos : list GitHubRepo) (body : ReposBody)
    : list GitHubRepo * bool :=
  match body with
  | ReposJsonFails => (repos, false)
  | ReposNotArray => (repos, false)
  | ReposArray data =>
      if (List.length data =? 0)%nat then (repos, false)
      else ((repos ++ data)%list, negb (List.length data <? REPOS_PER_PAGE)%nat)
  end.

(** The [while (page <= MAX_PAGES)] loop (lines 728-790). *)
Fixpoint collectRepos (trimmedToken trimmedUsername : string)
    (pagesLeft : nat) (page : Z) (repos : list GitHubRepo)
    : Result (list GitHubRepo) :=
  match pagesLeft with
  | O => Value repos
  | S pagesLeft' =>
      match userReposPage trimmedToken page with
      | ReposNetworkError =>
          if (0 <? List.length repos)%nat then Value repos
          else Raise "Network error: Unable to fetch repositories. Please check your internet connection."
      | ReposStatus status body =>
          if (status =? 403) || (status =? 429) then
            if (0 <? List.length repos)%nat then Value repos
            else Raise "GitHub API Rate Limit Exceeded. Please try again later."
          else if statusOk status then
            let (repos', more) := takePage repos body in
            if more
            then collectRepos trimmedToken trimmedUsername pagesLeft' (page + 1) repos'
            else Value repos'
          else if page =? 1 then
            match publicReposPage trimmedToken trimmedUsername page with
            | ReposNetworkError => Value repos
            | ReposStatus publicStatus publicBody =>
                if statusOk publicStatus then
                  let (repos', more) := takePage repos publicBody in
                  if more
                  then collectRepos trimmedToken trimmedUsername pagesLeft'
                         (page + 1) repos'
                  else Value repos'
                else Value repos
            end
          else Value repos
      end
  end.

(** [fetchAllRepos] (lines 715-848). *)
Definition fetchAllRepos (token username : string) : Result (list GitHubRepo) :=
  if (token =? "")%string || (username =? "")%string
  then Raise "Token and username are required"
  else
    let trimmedToken := trim token in
    let trimmedUsername := trim username in
    match collectRepos trimmedToken trimmedUsername MAX_PAGES 1 [] with
    | Value repos => Value (userRelevantRepos repos username)
    | Raise message => Raise message
    end.

End RepoListing.

(** ** JSON values ([JSON.parse]) *)

(** A parsed JSON value. The fields of an object are its own properties
    in the order [Object.keys] lists them, every key once. *)
#[warnings="-register-all"]
Inductive Json :=
| JNull
| JBool (b : bool)
| JNumber (n : Q)
| JString (s : string)
| JArray (items : list Json)
| JObject (fields : list (string * Json)).

Fixpoint lookupField (key : string) (fields : list (string * Json)) : option Json :=
  match fields with
  | [] => None
  | (k, v) :: fields' => if (k =? key)%string then Some v else lookupField key fields'
  end.

(** [v.key] on a value that is not [null], for a key that is neither an
    index nor the name of a built-in property: [None] is [undefined]. *)
Definition getField (v : Json) (key : string) : option Json :=
  match v with
  | JObject fields => lookupField key fields
  | _ => None
  end.

(** Whether a value, possibly [undefined], is truthy. *)
Definition truthyJson (v : option Json) : bool :=
  match v with
  | None => false
  | Some JNull => false
  | Some (JBool b) => b
  | Some (JNumber n) => negb (Qeq_bool n 0%Q)
  | Some (JString s) => negb (s =? "")%string
  | Some (JArray _) => true
  | Some (JObject _) => true
  end.

(** [v || d]. *)
Definition orElse (v : option Json) (d : Json) : Json :=
  match v with
  | Some x => if truthyJson v then x else d
  | None => d
  end.

(** The decimal text of an array index. *)
Definition indexString (i : nat) : string := NilEmpty.string_of_uint (Nat.to_uint i).

Definition indices (n : nat) : list string := map indexString (seq 0 n).

(** [Object.keys(v)]: the indices of an array or of a string, nothing for
    a number or a boolean; [null] throws. *)
Definition objectKeys (v : Json) : Outcome (list string) :=
  match v with
  | JNull => Throw (mkError "TypeError")
  | JBool _ => Ok []
  | JNumber _ => Ok []
  | JString s => Ok (indices (String.length s))
  | JArray items => Ok (indices (List.length items))
  | JObject fields => Ok (map fst fields)
  end.

(** [typeof v === 'object' && v !== null]. *)
Definition isObject (v : Json) : bool :=
  match v with
  | JArray _ => true
  | JObject _ => true
  | _ => false
  end.

(** What [for (const x of v)] visits: the elements of an array, the
    characters of a string; anything else is not iterable. *)
Definition iterate (v : Json) : Outcome (list Json) :=
  match v with
  | JArray items => Ok items
  | JString s => Ok (map (fun c => JString (String c EmptyString)) (list_ascii_of_string s))
  | _ => Throw (mkError "TypeError")
  end.

Section JsonParsers.

(** [JSON.parse]: [None] when it throws a [SyntaxError]. *)
Variable jsonParse : string -> option Json.
(** The text of a number. *)
Variable numberToString : Q -> string.

Definition parseJson (content : string) : Outcome Json :=
  match jsonParse content with
  | Some v => Ok v
  | None => Throw (mkError "SyntaxError")
  end.

(** [String(v)]; an array is its elements joined by commas, [null]
    elements left empty. *)
Fixpoint toStringJs (v : Json) : string :=
  match v with
  | JNull => "null"
  | JBool b => if b then "true" else "false"
  | JNumber n => numberToString n
  | JString s => s
  | JArray items =>
      String.concat ","
        (map (fun item => match item with JNull => EmptyString | _ => toStringJs item end)
             items)
  | JObject _ => "[object Object]"
  end.

(** [items.join('')]. *)
Definition joinEmpty (items : list Json) : string :=
  String.concat EmptyString
    (map (fun item => match item with JNull => EmptyString | _ => toStringJs item end)
         items).

(** [parsePackageJson] (lines 85-113). *)
Definition parsePackageJson (content : string) : option PackageJson :=
  let body : Outcome (option PackageJson) :=
    if rejected content 500000 then Ok None
    else
      pkg <- parseJson content ;;
      if negb (isObject pkg) then Ok None
      else
        deps <- objectKeys (orElse (getField pkg "dependencies") (JObject [])) ;;
        devDeps <- objectKeys (orElse (getField pkg "devDependencies") (JObject [])) ;;
        scriptNames <- objectKeys (orElse (getField pkg "scripts") (JObject [])) ;;
        Ok (Some (mkPackageJson
                    (sliceTo 200 deps)
                    (sliceTo 200 devDeps)
                    (sliceTo 50 scriptNames)
                    match getField pkg "description" with
                    | Some (JString s) => Some (takeChars 500 s)
                    | _ => None
                    end)) in
  match body with
  | Ok result => result
  | Throw _ => None
  end.

(** What [parseJupyterNotebook] returns. *)
Record NotebookData := mkNotebookData {
  imports : list string;
  isML : bool;
  notebook_isDataScience : bool
}.

(** [/(?:import|from)\s+([a-zA-Z0-9_]+)/g]. *)
Definition reImport : Re :=
  seqOf [Or (lit "import") (lit "from"); Some1 isWhiteSpace; Group (Some1 isWordChar)].

Definition mlLibs : list string :=
  ["tensorflow"; "torch"; "pytorch"; "keras"; "sklearn"; "xgboost"; "lightgbm";
   "transformers"; "huggingface"].
Definition dsLibs : list string :=
  ["pandas"; "numpy"; "matplotlib"; "seaborn"; "plotly"; "scipy"; "statsmodels"].

(** The source text of a cell (lines 255-257): [None] for a cell that is
    not a code cell. A [null] cell throws, and so does a source that is
    truthy but neither a string nor an array: it has no [matchAll]. *)
Definition cellSource (cell : Json) : Outcome (option string) :=
  match cell with
  | JNull => Throw (mkError "TypeError")
  | _ =>
      match getField cell "cell_type" with
      | Some (JString t) =>
          if negb (t =? "code")%string then Ok None
          else
            match getField cell "source" with
            | Some (JArray items) => Ok (Some (joinEmpty items))
            | src =>
                match orElse src (JString EmptyString) with
                | JString s => Ok (Some s)
                | _ => Throw (mkError "TypeError")
                end
            end
      | _ => Ok None
      end
  end.

(** The imports of one source text (lines 260-263). *)
Definition sourceImports (source : string) : list string :=
  flat_map (fun m =>
              if negb (capture 1 m =? "")%string && (strlen (capture 1 m) <? 50)
              then [capture 1 m] else [])
           (matchAll reImport source).

(** The loop over the cells (lines 254-264). *)
Fixpoint cellImports (cells : list Json) (imports : list string)
    : Outcome (list string) :=
  match cells with
  | [] => Ok imports
  | cell :: rest =>
      source <- cellSource cell ;;
      match source with
      | None => cellImports rest imports
      | Some s => cellImports rest (imports ++ sourceImports s)%list
      end
  end.

(** [libs.includes(imp.toLowerCase())] for some [imp]. *)
Definition someIn (libs uniqueImports : list string) : bool :=
  existsb (fun imp => existsb (String.eqb (toLowerCase imp)) libs) uniqueImports.

(** [parseJupyterNotebook] (lines 244-280). *)
Definition parseJupyterNotebook (content : string) : NotebookData :=
  if rejected content 5000000 then mkNotebookData [] false false
  else
    let body : Outcome NotebookData :=
      notebook <- parseJson content ;;
      cells <- match notebook with
               | JNull => Throw (mkError "TypeError")
               | _ => Ok (orElse (getField notebook "cells") (JArray []))
               end ;;
      cells <- iterate cells ;;
      imports <- cellImports cells [] ;;
      let uniqueImports := unique imports in
      Ok (mkNotebookData (sliceTo 100 uniqueImports)
                         (someIn mlLibs uniqueImports)
                         (someIn dsLibs uniqueImports)) in
    match body with
    | Ok result => result
    | Throw _ => mkNotebookData [] false false
    end.

End JsonParsers.

(** ** The language breakdown ([fetchLanguages]) *)

(** What [response.json()] gives: an object from language to bytes, or
    something that is not an object ([null], an array, a primitive). *)
Inductive LanguagesBody :=
| LanguagesRejects (e : Error)
| LanguagesNotObject
| LanguagesObject (data : list (string * Z)).

Inductive LanguagesResponse :=
| LanguagesRequestRejects (e : Error)
| LanguagesResponds (ok : bool) (body : LanguagesBody).

Record LanguagesUpstream := mkLanguagesUpstream {
  languagesLatencyMs : Z;
  languagesResponse : LanguagesResponse
}.

Section Languages.

(** The languages endpoint, by owner and repository. *)
Variable languagesEndpoint : string -> string -> LanguagesUpstream.

(** [fetchLanguages] (lines 458-495); [timeoutMs] is [None] when omitted. *)
Definition fetchLanguages (token owner_ repo_ : string) (timeoutMs : option Z)
    : Outcome (list (string * Z)) :=
  let timeoutMs := timeoutOr5000 timeoutMs in
  tryCatch
    (let u := languagesEndpoint owner_ repo_ in
     if timeoutMs <=? languagesLatencyMs u then Throw (mkError "AbortError")
     else
       match languagesResponse u with
       | LanguagesRequestRejects e => Throw e
       | LanguagesResponds ok body =>
           if negb ok then Ok []
           else
             match body with
             | LanguagesRejects e => Throw e
             | LanguagesNotObject => Ok []
             | LanguagesObject data => Ok data
             end
       end)
    (fun error => Ok []).

End Languages.

(** ** The enrichment of one repository (the callback of [enrichRepoData]) *)

(** [a.indexOf(v)]. *)
Fixpoint indexOf (v : string) (a : list string) : Z :=
  match a with
  | [] => -1
  | x :: a' =>
      if (x =? v)%string then 0
      else let i := indexOf v a' in if i <? 0 then -1 else i + 1
  end.

(** [a.filter((v, i, a) => a.indexOf(v) === i)], from index [i] on. *)
Fixpoint filterFirstFrom (whole : list string) (i : Z) (a : list string) : list string :=
  match a with
  | [] => []
  | v :: a' =>
      if indexOf v whole =? i then v :: filterFirstFrom whole (i + 1) a'
      else filterFirstFrom whole (i + 1) a'
  end.

Definition filterFirst (a : list string) : list string := filterFirstFrom a 0 a.

(** [a || b] on two file contents, and [a || ''] . *)
Definition orContent (a b : option string) : option string :=
  if truthy a then a else b.
Definition contentOrEmpty (a : option string) : string :=
  match a with
  | Some s => s
  | None => EmptyString
  end.

(** [file ? parse(file) : otherwise]. *)
Definition parsedOr {A : Type} (file : option string) (parse : string -> A)
    (otherwise : A) : A :=
  match file with
  | Some s => if truthy file then parse s else otherwise
  | None => otherwise
  end.

(** [langKeys.includes(name)]. *)
Definition hasLanguage (langKeys : list string) (name : string) : bool :=
  existsb (String.eqb name) langKeys.

Section RepoEnrichment.

Variable env : Base64Env.
Variable upstream : string -> Upstream.
Variable contributorsPage : string -> string -> Z -> ContributorsUpstream.
Variable languagesEndpoint : string -> string -> LanguagesUpstream.
Variable jsonParse : string -> option Json.
Variable numberToString : Q -> string.

(** A fetch of the second group: made only when the languages ask for
    it; a file that is not requested is [undefined]. *)
Definition fetchWhen (wanted : bool) (token owner_ repo_ path : string)
    (timeoutMs maxSizeBytes : option Z) : Outcome (option string) :=
  if wanted
  then fetchFileContent env upstream token owner_ repo_ path timeoutMs maxSizeBytes
  else Ok None.

(** The callback of [topRepos.map] (lines 508-669). *)
Definition enrichRepo (token username : string) (r : GitHubRepo) : EnrichedRepoData :=
  let body : Outcome EnrichedRepoData :=
    let parts := split "/" (full_name r) in
    if (List.length parts <? 2)%nat then Ok (mkEnriched r None None)
    else
      let owner := hd EmptyString parts in
      let repoName := String.concat "/" (tl parts) in
      packageJson <- fetchFileContent env upstream token owner repoName
                       "package.json" None None ;;
      requirementsTxt <- fetchFileContent env upstream token owner repoName
                           "requirements.txt" None None ;;
      readme <- fetchFileContent env upstream token owner repoName
                  "README.md" None None ;;
      readmeMd <- fetchFileContent env upstream token owner repoName
                    "readme.md" None None ;;
      commitData <- fetchCommitCount contributorsPage token owner repoName
                      (Some username) None ;;
      languages <- fetchLanguages languagesEndpoint token owner repoName None ;;
      let langKeys := map toLowerCase (map fst languages) in
      goMod <- fetchWhen (hasLanguage langKeys "go")
                 token owner repoName "go.mod" None None ;;
      cargoToml <- fetchWhen (hasLanguage langKeys "rust")
                     token owner repoName "Cargo.toml" None None ;;
      pomXml <- fetchWhen (hasLanguage langKeys "java")
                  token owner repoName "pom.xml" None None ;;
      buildGradle <- fetchWhen (hasLanguage langKeys "java")
                       token owner repoName "build.gradle" None None ;;
      gemfile <- fetchWhen (hasLanguage langKeys "ruby")
                   token owner repoName "Gemfile" None None ;;
      cmakeLists <- fetchWhen (hasLanguage langKeys "c" || hasLanguage langKeys "c++"
                               || hasLanguage langKeys "cmake")
                      token owner repoName "CMakeLists.txt" None None ;;
      setupPy <- fetchWhen (hasLanguage langKeys "python"
                            || hasLanguage langKeys "jupyter notebook")
                   token owner repoName "setup.py" None None ;;
      pyprojectToml <- fetchWhen (hasLanguage langKeys "python"
                                  || hasLanguage langKeys "jupyter notebook")
                         token owner repoName "pyproject.toml" None None ;;
      notebook1 <- fetchWhen (hasLanguage langKeys "jupyter notebook")
                     token owner repoName "main.ipynb" (Some 5000) (Some 5000000) ;;
      notebook2 <- fetchWhen (hasLanguage langKeys "jupyter notebook")
                     token owner repoName "notebook.ipynb" (Some 5000) (Some 5000000) ;;
      let readmeContent := contentOrEmpty (orContent (orContent readme readmeMd)
                                                     (Some EmptyString)) in
      let packageData := parsedOr packageJson (parsePackageJson jsonParse) None in
      let pythonDeps := parsedOr requirementsTxt parseRequirementsTxt [] in
      let readmeData :=
        parsedOr (Some readmeContent) parseReadme
                 (mkAnalysis false false [] "application" false simple) in
      let goDeps := parsedOr goMod parseGoMod [] in
      let rustDeps := parsedOr cargoToml parseCargoToml [] in
      let javaDeps := (parsedOr pomXml parsePomXml []
                       ++ parsedOr buildGradle parseBuildGradle [])%list in
      let rubyDeps := parsedOr gemfile parseGemfile [] in
      let cppDeps := parsedOr cmakeLists parseCMakeLists [] in
      let setupPyDeps := parsedOr setupPy parseSetupPy [] in
      let pyprojectDeps := parsedOr pyprojectToml parsePyprojectToml [] in
      let notebookContent := orContent notebook1 notebook2 in
      let notebookData :=
        parsedOr notebookContent (parseJupyterNotebook jsonParse numberToString)
                 (mkNotebookData [] false false) in
      let detectedProjectType :=
        if isML notebookData then "ml-project"
        else if notebook_isDataScience notebookData then "data-science"
        else projectType readmeData in
      let languageCount := Z.of_nat (List.length (map fst languages)) in
      let totalBytes := fold_left (fun sum bytes => sum + bytes) (map snd languages) 0 in
      Ok (mkEnriched r None
            (Some (mkEnrichedData
                     packageData
                     (pythonDeps ++ setupPyDeps ++ pyprojectDeps)%list
                     (Some (total commitData))
                     (Some (userContributions commitData))
                     languages
                     (Some languageCount)
                     (Some totalBytes)
                     (Some (mkReadmeData
                              (Some (strlen readmeContent))
                              (hasDemo readmeData)
                              (hasDocs readmeData)
                              (mentions readmeData)
                              detectedProjectType
                              (hasMetrics readmeData)
                              (complexity readmeData)))
                     (isML notebookData)
                     (notebook_isDataScience notebookData)
                     (Some (filterFirst
                              (match packageData with
                               | Some p => dependencies p
                               | None => []
                               end
                               ++ match packageData with
                                  | Some p => devDependencies p
                                  | None => []
                                  end
                               ++ pythonDeps ++ setupPyDeps ++ pyprojectDeps
                               ++ goDeps ++ rustDeps ++ javaDeps ++ rubyDeps ++ cppDeps
                               ++ imports notebookData ++ mentions readmeData)%list))))) in
  match body with
  | Ok enriched => enriched
  | Throw _ => mkEnriched r None None
  end.

End RepoEnrichment.

(** ** Auxiliary functions for stating properties *)

(** The map built from a list of repositories, from any start. *)
Definition repoMapFrom (m : list (Z * GitHubRepo)) (repos : list GitHubRepo)
    : list (Z * GitHubRepo) :=
  fold_left (fun m item => mapSet (id item) item m) repos m.

(** The longest prefix of characters of a class, and what follows it. *)
Fixpoint takeWhileChars (p : ascii -> bool) (s : string) : string :=
  match s with
  | EmptyString => EmptyString
  | String c s' => if p c then String c (takeWhileChars p s') else EmptyString
  end.

Fixpoint dropWhileChars (p : ascii -> bool) (s : string) : string :=
  match s with
  | EmptyString => EmptyString
  | String c s' => if p c then dropWhileChars p s' else s
  end.

(** The leading identifier of a line of a requirements file, if any. *)
Definition leadingName (line : string) : option string :=
  let n := takeWhileChars isNameChar line in
  if (n =? "")%string then None else Some n.

(** Every character of a string is of a class. *)
Definition allChars (p : ascii -> bool) (s : string) : bool :=
  forallb p (list_ascii_of_string s).

(** A pattern that holds no capture group. *)
Fixpoint groupFree (r : Re) : bool :=
  match r with
  | Group _ => false
  | Cat a b => groupFree a && groupFree b
  | Or a b => groupFree a && groupFree b
  | Opt a => groupFree a
  | _ => true
  end.

(** [full_name.split('/').slice(1).join('/')]: the name part of a
    repository name. *)
Definition repoNamePart (fullName : string) : string :=
  String.concat "/" (tl (split "/" fullName)).

(** The languages, in lower case, that make [enrichRepoData] request a
    file of the second group (lines 538-575). *)
Definition secondGroupLanguages : list string :=
  ["go"; "rust"; "java"; "ruby"; "c"; "c++"; "cmake"; "python"; "jupyter notebook"].

(** ** Sample data

    Concrete repositories and upstream behaviours for running the
    definitions above. *)

Definition sampleRepo (fullName : string) (isFork : bool) (stars forks : Z)
    : GitHubRepo :=
  mkRepo 1 "x" fullName None false "" None isFork "" "2026-01-01T00:00:00Z" ""
         None 0 (Some stars) None None (Some forks) [].

Definition sampleData (userCommits totalCommits : Z) : EnrichedData :=
  mkEnrichedData None [] (Some totalCommits) (Some userCommits) [] None None None
                 false false None.

(** A date parser that knows one date, and a clock one day after it. *)
Definition sampleDateTime (s : string) : option Z :=
  if (s =? "2026-01-01T00:00:00Z")%string then Some 1767225600000 else None.
Definition sampleNow : Z := 1767312000000.

(** An organisation repository with 500 stars in which the user has no
    commit, one in which the user has 10 of 100 commits, the user's own
    repository without enrichment, and an entry without a separator. *)
Definition orgRepoNoCommits : EnrichedRepoData :=
  mkEnriched (sampleRepo "org/y" false 500 100) None (Some (sampleData 0 500)).
Definition orgRepoTenOfHundred : EnrichedRepoData :=
  mkEnriched (sampleRepo "org/y" false 0 0) None (Some (sampleData 10 100)).
Definition ownRepoPlain : EnrichedRepoData :=
  mkEnriched (sampleRepo "alice/x" false 0 0) None None.
Definition malformedRepo : EnrichedRepoData :=
  mkEnriched (sampleRepo "orphan" false 500 100) None (Some (sampleData 50 60)).

(** Fifteen repositories of the user and an enrichment that adds nothing. *)
Definition fifteenRepos : list GitHubRepo :=
  map (fun i => mkRepo (Z.of_nat i) "x" "alice/x" None false "" None false ""
                       "2026-01-01T00:00:00Z" "" None 0 (Some 0) None None (Some 0) [])
      (List.seq 1 15).
Definition plainEnrich (token username : string) (r : GitHubRepo) : EnrichedRepoData :=
  mkEnriched r None None.

(** An upstream that answers every request after 120 ms with a payload
    that is not base64, and one that answers with the base64 of "hi". *)
Definition undecodablePayload : ContentsPayload :=
  mkPayload (Some 3) (TextContent "%%%") (Some "base64").
Definition undecodableUpstream (url : string) : Upstream :=
  mkUpstream 120 (Responds true (JsonData undecodablePayload)).
Definition hiUpstream (url : string) : Upstream :=
  mkUpstream 120 (Responds true (JsonData (mkPayload (Some 2) (TextContent "aGk=") (Some "base64")))).

(** A requirements file that names one package twice. *)
Definition duplicatedRequirements : string :=
  "flask==2.0" ++ String newline "flask>=1.0".

(** [s.repeat(n)]. *)
Fixpoint repeatString (n : nat) (s : string) : string :=
  match n with
  | O => EmptyString
  | S n' => s ++ repeatString n' s
  end.

(** A README of 50,000 letters followed by a metric, a technology and an
    image. *)
Definition longReadme : string :=
  repeatString (Z.to_nat 50000) "a" ++ " 100+ users of React ![chart](c.png)".

(** A [go.mod] that requires one module twice. *)
Definition sampleGoMod : string :=
  "module m" ++ String newline "require github.com/gin-gonic/gin v1.9.1"
  ++ String newline "  golang.org/x/text v0.3.0"
  ++ String newline "require github.com/gin-gonic/gin v1.9.1".

(** A short README. *)
Definition sampleReadme : string :=
  "# My Library" ++ String newline "## Install"
  ++ String newline "Uses React and react, Node.js and C++x. 100+ users ![a](b) REST API docs".

(** Two more repositories: an organisation repository with 40 of 50
    commits by the user, and a repository of the user with 30 stars. *)
Definition orgRepoFortyOfFifty : EnrichedRepoData :=
  mkEnriched (sampleRepo "org/z" false 0 0) None (Some (sampleData 40 50)).
Definition ownRepoStarred : EnrichedRepoData :=
  mkEnriched (sampleRepo "alice/w" false 30 0) None None.

(** The user's own fork without a commit of the user, the user's fork and
    a fork of somebody else without enrichment. *)
Definition ownForkNoCommits : EnrichedRepoData :=
  mkEnriched (sampleRepo "alice/forked" true 500 100) None (Some (sampleData 0 500)).
Definition ownForkPlain : EnrichedRepoData :=
  mkEnriched (sampleRepo "alice/forked" true 50 50) None None.

(** A full page of contributors with the user among them, and an endpoint
    that answers the first page with it and refuses the second. *)
Definition hundredContributors : list (option Contributor) :=
  Some (mkContributor (Some "Alice") (Some 7))
  :: repeat (Some (mkContributor (Some "bob") (Some 3))) 99.
Definition sampleContributorsPage (owner_ repo_ : string) (page : Z)
    : ContributorsUpstream :=
  if page =? 1
  then mkContributorsUpstream 50 (ContributorsResponds true (ContributorsArray hundredContributors))
  else mkContributorsUpstream 50 (ContributorsResponds false ContributorsNotArray).
(** The same endpoint with a fourth page. *)
Definition longerContributorsPage (owner_ repo_ : string) (page : Z)
    : ContributorsUpstream :=
  if page =? 4
  then mkContributorsUpstream 50 (ContributorsResponds true (ContributorsArray hundredContributors))
  else sampleContributorsPage owner_ repo_ page.

(** A full page of repositories of the user, and a listing that answers
    the first page with it and is rate-limited after. *)
Definition hundredRepos : list GitHubRepo :=
  map (fun i => mkRepo (Z.of_nat i) "x" "alice/x" None false "" None false ""
                       "2026-01-01T00:00:00Z" "" None 0 (Some 0) None None (Some 0) [])
      (List.seq 1 100).
Definition sampleUserReposPage (token : string) (page : Z) : ReposResponse :=
  if page =? 1 then ReposStatus 200 (ReposArray hundredRepos)
  else ReposStatus 403 ReposNotArray.
Definition samplePublicReposPage (token username : string) (page : Z) : ReposResponse :=
  ReposNetworkError.
(** The same listing with a fourth page. *)
Definition longerUserReposPage (token : string) (page : Z) : ReposResponse :=
  if page =? 4 then ReposStatus 200 (ReposArray hundredRepos)
  else sampleUserReposPage token page.

(** A JSON string literal. *)
Definition quoted (s : string) : string :=
  String dquote (s ++ String dquote EmptyString).

(** The text of a package.json, of a notebook with a text cell and a code
    cell, and of a notebook whose second cell is [null], each with the
    value [JSON.parse] gives for it. *)
Definition samplePackageText : string :=
  "{" ++ quoted "dependencies" ++ ":{" ++ quoted "react" ++ ":" ++ quoted "18.0.0"
  ++ "}," ++ quoted "scripts" ++ ":{" ++ quoted "build" ++ ":" ++ quoted "vite build"
  ++ "}}".
Definition samplePackage : Json :=
  JObject [("dependencies", JObject [("react", JString "18.0.0")]);
           ("scripts", JObject [("build", JString "vite build")])].
Definition sampleNotebookText : string :=
  "{" ++ quoted "cells" ++ ":[{" ++ quoted "cell_type" ++ ":" ++ quoted "markdown"
  ++ "," ++ quoted "source" ++ ":" ++ quoted "import nothing" ++ "},{"
  ++ quoted "cell_type" ++ ":" ++ quoted "code" ++ "," ++ quoted "source" ++ ":["
  ++ quoted "import torch\n" ++ "," ++ quoted "from pandas import DataFrame" ++ "]}]}".
Definition sampleNotebook : Json :=
  JObject [("cells", JArray [
    JObject [("cell_type", JString "markdown"); ("source", JString "import nothing")];
    JObject [("cell_type", JString "code");
             ("source", JArray [JString ("import torch" ++ String newline EmptyString);
                                JString "from pandas import DataFrame"])]])].
Definition nullCellNotebookText : string :=
  "{" ++ quoted "cells" ++ ":[{" ++ quoted "cell_type" ++ ":" ++ quoted "code" ++ ","
  ++ quoted "source" ++ ":" ++ quoted "import torch" ++ "},null]}".
Definition nullCellNotebook : Json :=
  JObject [("cells", JArray [
    JObject [("cell_type", JString "code"); ("source", JString "import torch")];
    JNull])].

(** A parser that knows the three texts, and the text of an integer. *)
Definition sampleJsonParse (s : string) : option Json :=
  if (s =? samplePackageText)%string then Some samplePackage
  else if (s =? sampleNotebookText)%string then Some sampleNotebook
  else if (s =? nullCellNotebookText)%string then Some nullCellNotebook
  else None.
Definition sampleNumberToString (n : Q) : string :=
  NilEmpty.string_of_int (Z.to_int (Qnum n)).

(** A TypeScript repository of another account: its package.json and its
    README.md are served, every other file is missing; the same
    repository with a go.mod as well. *)
Definition octoSite : GitHubRepo := sampleRepo "octo/site" false 10 2.
Definition sampleFilesUpstream (url : string) : Upstream :=
  if (url =? contentsUrl "octo" "site" "package.json")%string
  then mkUpstream 120 (Responds true (JsonData (mkPayload (Some 68)
         (TextContent "eyJkZXBlbmRlbmNpZXMiOnsicmVhY3QiOiIxOC4wLjAifSwic2NyaXB0cyI6eyJidWlsZCI6InZpdGUgYnVpbGQifX0=")
         (Some "base64"))))
  else if (url =? contentsUrl "octo" "site" "README.md")%string
  then mkUpstream 120 (Responds true (JsonData (mkPayload (Some 60)
         (TextContent "QnVpbHQgd2l0aCBSZWFjdCBhbmQgRG9ja2VyLiBMaXZlIGRlbW86IGh0dHBzOi8vc2l0ZS5leGFtcGxl")
         (Some "base64"))))
  else mkUpstream 120 (Responds false JsonNull).
Definition goModUpstream (url : string) : Upstream :=
  if (url =? contentsUrl "octo" "site" "go.mod")%string then hiUpstream url
  else sampleFilesUpstream url.
Definition sampleLanguages : list (string * Z) := [("TypeScript", 5000); ("HTML", 300)].
Definition sampleLanguagesEndpoint (owner_ repo_ : string) : LanguagesUpstream :=
  mkLanguagesUpstream 80 (LanguagesResponds true (LanguagesObject sampleLanguages)).

(** A contributors endpoint that answers after the ten seconds of the
    timer of [fetchCommitCount]. *)
Definition slowContributorsPage (owner_ repo_ : string) (page : Z)
    : ContributorsUpstream :=
  mkContributorsUpstream 20000 (ContributorsResponds true (ContributorsArray hundredContributors)).

(** What the enrichment of that repository yields, with the contributors
    of [sampleContributorsPage]. *)
Definition octoSiteEnrichment : EnrichedData :=
  mkEnrichedData (Some (mkPackageJson ["react"] [] ["build"] None)) []
                 (Some 304) (Some 7) sampleLanguages (Some 2) (Some 5300)
                 (Some (mkReadmeData (Some 60) true false ["react"; "docker"]
                                     "application" false simple))
                 false false (Some ["react"; "docker"]).

(** * Properties *)

(** ** Strings *)

Lemma split_nonempty (sep : ascii) (s : string) : split sep s <> [].
Proof.
  induction s as [|c s IH]; simpl; [discriminate|].
  destruct (Ascii.eqb c sep); [discriminate|].
  destruct (split sep s); discriminate.
Qed.

(** [split] yields one part more than there are separators. *)
Lemma split_length (sep : ascii) (s : string) :
  List.length (split sep s) =
  S (List.length (filter (Ascii.eqb sep) (list_ascii_of_string s))).
Proof.
  induction s as [|c s IH]; simpl; [reflexivity|].
  rewrite (Ascii.eqb_sym sep c).
  destruct (Ascii.eqb c sep); simpl.
  - now rewrite IH.
  - pose proof (split_nonempty sep s) as Hne.
    destruct (split sep s) as [|p ps]; [contradiction|].
    simpl in *. exact IH.
Qed.

Lemma split_short_iff (s : string) :
  (List.length (split "/" s) <? 2)%nat = negb (hasSeparator s).
Proof.
  rewrite split_length. unfold hasSeparator.
  induction (list_ascii_of_string s) as [|c l IH]; [reflexivity|].
  cbn [filter existsb].
  destruct (Ascii.eqb "/" c); cbn [negb orb]; [reflexivity|exact IH].
Qed.

Lemma split_long_iff (s : string) :
  (2 <=? List.length (split "/" s))%nat = hasSeparator s.
Proof.
  pose proof (split_short_iff s) as H.
  destruct (hasSeparator s); simpl in H.
  - apply Nat.ltb_ge in H. now apply Nat.leb_le.
  - apply Nat.ltb_lt in H. apply Nat.leb_gt. lia.
Qed.

Lemma takeChars_all (n : N) (s : string) :
  (N.of_nat (String.length s) <= n)%N -> takeChars n s = s.
Proof.
  revert n. induction s as [|c s IH]; intros n H; simpl; [reflexivity|].
  simpl in H. destruct (N.eqb_spec n 0) as [->|Hn]; [lia|].
  f_equal. apply IH. lia.
Qed.

Lemma takeChars_length (n : N) (s : string) :
  (N.of_nat (String.length (takeChars n s)) <= n)%N.
Proof.
  revert n. induction s as [|c s IH]; intros n; simpl; [lia|].
  destruct (N.eqb_spec n 0) as [->|Hn]; simpl; [lia|].
  specialize (IH (N.pred n)). lia.
Qed.

Lemma takeChars_idem (n : N) (s : string) :
  takeChars n (takeChars n s) = takeChars n s.
Proof. apply takeChars_all, takeChars_length. Qed.

(** Lower-casing neither makes nor removes white space, so it commutes
    with trimming. *)
Lemma isWhiteSpace_toLowerChar (c : ascii) :
  isWhiteSpace (toLowerChar c) = isWhiteSpace c.
Proof.
  unfold toLowerChar, isWhiteSpace, charCode.
  destruct ((65 <=? N_of_ascii c) && (N_of_ascii c <=? 90))%N eqn:E; [|reflexivity].
  apply andb_prop in E. destruct E as [E1 E2].
  apply N.leb_le in E1. apply N.leb_le in E2.
  rewrite N_ascii_embedding by lia.
  repeat match goal with
         | |- context [(?a <=? ?b)%N] => destruct (N.leb_spec a b)
         | |- context [(?a =? ?b)%N] => destruct (N.eqb_spec a b)
         end; simpl; try reflexivity; lia.
Qed.

Lemma trimStart_toLowerCase (s : string) :
  trimStart (toLowerCase s) = toLowerCase (trimStart s).
Proof.
  induction s as [|c s IH]; simpl; [reflexivity|].
  rewrite isWhiteSpace_toLowerChar.
  destruct (isWhiteSpace c); [exact IH|reflexivity].
Qed.

Lemma toLowerCase_empty (s : string) :
  (toLowerCase s =? "")%string = (s =? "")%string.
Proof. destruct s; reflexivity. Qed.

Lemma trimEnd_toLowerCase (s : string) :
  trimEnd (toLowerCase s) = toLowerCase (trimEnd s).
Proof.
  induction s as [|c s IH]; simpl; [reflexivity|].
  rewrite isWhiteSpace_toLowerChar, IH, toLowerCase_empty.
  destruct (isWhiteSpace c && (trimEnd s =? "")%string); reflexivity.
Qed.

Lemma trim_toLowerCase (s : string) :
  trim (toLowerCase s) = toLowerCase (trim s).
Proof.
  unfold trim. now rewrite trimStart_toLowerCase, trimEnd_toLowerCase.
Qed.

(** On an owner without surrounding white space the engine's ownership
    test is the plain comparison of the two lower-cased names. *)
Lemma isOwner_untrimmed (owner username : string) :
  trim owner = owner ->
  isOwner owner (toLowerCase username) =
  (toLowerCase owner =? toLowerCase username)%string.
Proof.
  intros H. unfold isOwner. now rewrite trim_toLowerCase, H.
Qed.

(** ** The scoring engine *)

Section ScoringFacts.

Variable dateTime : string -> option Z.
Variable now : Z.

(** The score reads the repository and its enrichment, never a score
    computed before. *)
Lemma computeScore_ext (u : string) (r1 r2 : EnrichedRepoData) :
  repo r1 = repo r2 -> enrichedData r1 = enrichedData r2 ->
  computeScore dateTime now u r1 = computeScore dateTime now u r2.
Proof.
  intros Hr He. unfold computeScore. now rewrite Hr, He.
Qed.

Lemma scoreRepo_ext (u : string) (r1 r2 : EnrichedRepoData) :
  repo r1 = repo r2 -> enrichedData r1 = enrichedData r2 ->
  scoreRepo dateTime now u r1 = scoreRepo dateTime now u r2.
Proof.
  intros Hr He. unfold scoreRepo, withScore.
  now rewrite (computeScore_ext u r1 r2 Hr He), Hr, He.
Qed.

Lemma scoreRepo_idem (u : string) (r : EnrichedRepoData) :
  scoreRepo dateTime now u (scoreRepo dateTime now u r) = scoreRepo dateTime now u r.
Proof. apply scoreRepo_ext; reflexivity. Qed.

Lemma In_insertByScore (a x : EnrichedRepoData) (l : list EnrichedRepoData) :
  In a (insertByScore x l) <-> a = x \/ In a l.
Proof.
  induction l as [|y l IH]; simpl.
  - intuition congruence.
  - destruct (sortKey y <=? sortKey x); simpl.
    + intuition congruence.
    + rewrite IH. intuition congruence.
Qed.

Lemma In_sortByScore (a : EnrichedRepoData) (l : list EnrichedRepoData) :
  In a (sortByScore l) <-> In a l.
Proof.
  induction l as [|x l IH]; simpl; [tauto|].
  rewrite In_insertByScore, IH. intuition congruence.
Qed.

(** The entries of the result: the scored entries the filter keeps. *)
Lemma scoreAndSortRepos_In (repos : list EnrichedRepoData) (username : string)
    (x : EnrichedRepoData) :
  In x (scoreAndSortRepos dateTime now repos username) <->
  exists r, In r repos /\ x = scoreRepo dateTime now (toLowerCase username) r /\
            keepScored (toLowerCase username) x = true.
Proof.
  unfold scoreAndSortRepos.
  rewrite In_sortByScore, filter_In, in_map_iff. split.
  - intros [[r [Hx Hr]] Hk]. exists r. auto.
  - intros [r [Hr [Hx Hk]]]. split; [exists r|]; auto.
Qed.

(** The filter drops every entry whose score is below -1000. *)
Lemma keepScored_sentinel (u : string) (r : EnrichedRepoData) (s : Z) :
  calculatedScore r = Some s -> s < -1000 -> keepScored u r = false.
Proof.
  intros Hs Hlt. unfold keepScored. rewrite Hs. simpl.
  destruct (Z.ltb_spec s (-1000)); [reflexivity|lia].
Qed.

(** The gating block on a repository of another owner without commits
    of the user. *)
Lemma computeScore_gated (u : string) (r : EnrichedRepoData) (d : EnrichedData) :
  hasSeparator (full_name (repo r)) = true ->
  enrichedData r = Some d ->
  isOwner (ownerPart (full_name (repo r))) u = false ->
  numberOr0 (userCommitCount d) = 0 ->
  computeScore dateTime now u r = -9999.
Proof.
  intros Hsep Hd Hown Hc. unfold computeScore.
  rewrite split_short_iff, Hsep, Hd. cbn [negb].
  unfold ownerPart in Hown. rewrite Hown, Hc. reflexivity.
Qed.

(** The fallback score of an own repository that is not a fork. *)
Lemma fallbackScore_own (r : GitHubRepo) :
  fork r = false -> 20 <= fallbackScore dateTime now r true.
Proof.
  intros Hf. unfold fallbackScore. rewrite Hf.
  destruct (negb (private r) && (numberOr0 (stargazers_count r) >? 10));
    destruct (numberOr0 (forks_count r) >? 5);
    destruct (daysBelow (daysSinceUpdate dateTime now r) 90); simpl; lia.
Qed.

Lemma computeScore_malformed (u : string) (r : EnrichedRepoData) :
  hasSeparator (full_name (repo r)) = false -> computeScore dateTime now u r = 0.
Proof.
  intros H. unfold computeScore. now rewrite split_short_iff, H.
Qed.

Lemma isOwn_malformed (u : string) (r : EnrichedRepoData) :
  hasSeparator (full_name (repo r)) = false -> isOwn u r = false.
Proof.
  intros H. unfold isOwn. now rewrite split_long_iff, H.
Qed.

End ScoringFacts.

(** *** The stable sort *)

Lemma insertByScore_sorted (x : EnrichedRepoData) (l : list EnrichedRepoData) :
  Sorted byScoreDesc l -> Sorted byScoreDesc (insertByScore x l).
Proof.
  induction l as [|y l IH]; intros Hs; simpl.
  - repeat constructor.
  - destruct (Z.leb_spec (sortKey y) (sortKey x)) as [Hle|Hgt].
    + constructor; [exact Hs|]. constructor. exact Hle.
    + apply Sorted_inv in Hs. destruct Hs as [Hs Hhd].
      constructor; [now apply IH|].
      destruct l as [|z l]; simpl.
      * constructor. unfold byScoreDesc. lia.
      * destruct (sortKey z <=? sortKey x).
        -- constructor. unfold byScoreDesc. lia.
        -- constructor. now inversion Hhd.
Qed.

Lemma sortByScore_sorted (l : list EnrichedRepoData) :
  Sorted byScoreDesc (sortByScore l).
Proof.
  induction l as [|x l IH]; simpl; [constructor|].
  now apply insertByScore_sorted.
Qed.

(** Sorting leaves a list alone that is in descending order already. *)
Lemma sortByScore_fixed (l : list EnrichedRepoData) :
  Sorted byScoreDesc l -> sortByScore l = l.
Proof.
  induction l as [|x l IH]; intros Hs; simpl; [reflexivity|].
  apply Sorted_inv in Hs. destruct Hs as [Hs Hhd].
  rewrite (IH Hs). destruct l as [|y l]; simpl; [reflexivity|].
  inversion Hhd as [|? ? Hxy]; subst. unfold byScoreDesc in Hxy.
  destruct (Z.leb_spec (sortKey y) (sortKey x)); [reflexivity|lia].
Qed.

Lemma filter_fixed {A : Type} (f : A -> bool) (l : list A) :
  (forall x, In x l -> f x = true) -> filter f l = l.
Proof.
  induction l as [|x l IH]; intros H; simpl; [reflexivity|].
  rewrite (H x (or_introl eq_refl)). f_equal. apply IH.
  intros y Hy. apply H. now right.
Qed.

Lemma map_fixed {A : Type} (f : A -> A) (l : list A) :
  (forall x, In x l -> f x = x) -> map f l = l.
Proof.
  induction l as [|x l IH]; intros H; simpl; [reflexivity|].
  rewrite (H x (or_introl eq_refl)). f_equal. apply IH.
  intros y Hy. apply H. now right.
Qed.

(** *** The claims about the scoring engine *)

(** C1. A repository in the input of [scoreAndSortRepos] that has an
    enrichment record, whose owner part of [full_name], lower-cased and
    trimmed as the engine compares it, differs from the lower-cased
    username, and whose [userCommitCount] is 0, is given the sentinel
    score -9999 and is absent from the returned list, whatever its
    stars, forks, commits, README or other signals: its scored entry is
    not in the list, and no entry of the list carries its repository data
    and enrichment. *)
Theorem non_owned_zero_commits_excluded
    (dateTime : string -> option Z) (now : Z)
    (repos : list EnrichedRepoData) (username : string)
    (r : EnrichedRepoData) (d : EnrichedData) :
  In r repos ->
  hasSeparator (full_name (repo r)) = true ->
  enrichedData r = Some d ->
  trim (toLowerCase (ownerPart (full_name (repo r)))) <> toLowerCase username ->
  userCommitCount d = Some 0 ->
  calculatedScore (scoreRepo dateTime now (toLowerCase username) r) = Some (-9999) /\
  ~ In (scoreRepo dateTime now (toLowerCase username) r)
       (scoreAndSortRepos dateTime now repos username) /\
  (forall x, In x (scoreAndSortRepos dateTime now repos username) ->
             ~ (repo x = repo r /\ enrichedData x = enrichedData r)).
Proof.
  intros _ Hsep Hd Hown Hc.
  assert (Hscore : computeScore dateTime now (toLowerCase username) r = -9999).
  { apply (computeScore_gated dateTime now _ r d); auto.
    - unfold isOwner. now apply String.eqb_neq.
    - now rewrite Hc. }
  assert (Hall : forall x, In x (scoreAndSortRepos dateTime now repos username) ->
                           ~ (repo x = repo r /\ enrichedData x = enrichedData r)).
  { intros x Hx [Hr He]. apply scoreAndSortRepos_In in Hx.
    destruct Hx as [r' [_ [Hx Hk]]].
    assert (Hs : calculatedScore x = Some (-9999)).
    { rewrite Hx. unfold scoreRepo, withScore. simpl. f_equal.
      rewrite <- Hscore. apply computeScore_ext.
      - rewrite Hx in Hr. exact Hr.
      - rewrite Hx in He. exact He. }
    rewrite (keepScored_sentinel _ x (-9999) Hs) in Hk by lia. discriminate. }
  split; [|split].
  - unfold scoreRepo, withScore. simpl. now rewrite Hscore.
  - intros Hin. apply (Hall _ Hin). split; reflexivity.
  - exact Hall.
Qed.

(** C2. A repository whose owner part, as the engine compares it, equals
    the lower-cased username, that is not a fork and has no enrichment
    record, gets a fallback score of at least 20 and is in the returned
    list, whatever its stars (zero included) and its other fields: no
    commit count can exclude it. *)
Theorem owned_non_fork_without_enrichment_included
    (dateTime : string -> option Z) (now : Z)
    (repos : list EnrichedRepoData) (username : string) (r : EnrichedRepoData) :
  In r repos ->
  hasSeparator (full_name (repo r)) = true ->
  trim (toLowerCase (ownerPart (full_name (repo r)))) = toLowerCase username ->
  fork (repo r) = false ->
  enrichedData r = None ->
  (exists s, calculatedScore (scoreRepo dateTime now (toLowerCase username) r) = Some s /\
             20 <= s) /\
  In (scoreRepo dateTime now (toLowerCase username) r)
     (scoreAndSortRepos dateTime now repos username).
Proof.
  intros Hin Hsep Hown Hfork Hnone.
  assert (Hscore : 20 <= computeScore dateTime now (toLowerCase username) r).
  { unfold computeScore. rewrite split_short_iff, Hsep, Hnone. cbn [negb].
    fold (ownerPart (full_name (repo r))).
    unfold isOwner. rewrite Hown, String.eqb_refl.
    now apply fallbackScore_own. }
  split.
  - exists (computeScore dateTime now (toLowerCase username) r). split; [reflexivity|exact Hscore].
  - apply scoreAndSortRepos_In. exists r. split; [exact Hin|]. split; [reflexivity|].
    unfold keepScored, scoreRepo, withScore. simpl.
    destruct (Z.ltb_spec (computeScore dateTime now (toLowerCase username) r) (-1000)); [lia|].
    destruct (Z.gtb_spec (computeScore dateTime now (toLowerCase username) r) 0); [reflexivity|lia].
Qed.

(** C9. Idempotence: scoring the result of [scoreAndSortRepos] again, for
    the same username and at the same time, returns the same list: the
    same entries with the same scores in the same order. *)
Theorem scoreAndSortRepos_idempotent
    (dateTime : string -> option Z) (now : Z)
    (repos : list EnrichedRepoData) (username : string) :
  scoreAndSortRepos dateTime now (scoreAndSortRepos dateTime now repos username) username
  = scoreAndSortRepos dateTime now repos username.
Proof.
  assert (Hin := scoreAndSortRepos_In dateTime now repos username).
  remember (scoreAndSortRepos dateTime now repos username) as out eqn:Hout.
  assert (Hsorted : Sorted byScoreDesc out).
  { rewrite Hout. unfold scoreAndSortRepos. apply sortByScore_sorted. }
  unfold scoreAndSortRepos at 1.
  rewrite map_fixed, filter_fixed, sortByScore_fixed; auto.
  - intros x Hx. apply Hin in Hx. now destruct Hx as [r [_ [_ Hk]]].
  - intros x Hx. apply Hin in Hx. destruct Hx as [r [_ [Hx _]]].
    rewrite Hx. apply scoreRepo_idem.
Qed.

(** C10. An entry whose [full_name] has no '/' is handled without an
    error: its score is 0, the filter's ownership test is false for it, the
    filter rejects it and it is not in the returned list. *)
Theorem malformed_full_name_removed
    (dateTime : string -> option Z) (now : Z)
    (repos : list EnrichedRepoData) (username : string) (r : EnrichedRepoData) :
  In r repos ->
  hasSeparator (full_name (repo r)) = false ->
  calculatedScore (scoreRepo dateTime now (toLowerCase username) r) = Some 0 /\
  isOwn (toLowerCase username) (scoreRepo dateTime now (toLowerCase username) r) = false /\
  keepScored (toLowerCase username) (scoreRepo dateTime now (toLowerCase username) r) = false /\
  ~ In (scoreRepo dateTime now (toLowerCase username) r)
       (scoreAndSortRepos dateTime now repos username).
Proof.
  intros _ Hsep.
  assert (Hs : calculatedScore (scoreRepo dateTime now (toLowerCase username) r) = Some 0).
  { unfold scoreRepo, withScore. simpl. now rewrite computeScore_malformed. }
  assert (Ho : isOwn (toLowerCase username)
                 (scoreRepo dateTime now (toLowerCase username) r) = false).
  { apply isOwn_malformed. exact Hsep. }
  assert (Hk : keepScored (toLowerCase username)
                 (scoreRepo dateTime now (toLowerCase username) r) = false).
  { unfold keepScored. rewrite Hs, Ho. reflexivity. }
  repeat split; auto.
  intros Hin. apply scoreAndSortRepos_In in Hin.
  destruct Hin as [r' [_ [Hx Hk']]]. rewrite Hk in Hk'. discriminate.
Qed.

Lemma non_owned_zero_commits_excluded_witness :
  calculatedScore (scoreRepo sampleDateTime sampleNow (toLowerCase "alice") orgRepoNoCommits)
  = Some (-9999) /\
  ~ In (scoreRepo sampleDateTime sampleNow (toLowerCase "alice") orgRepoNoCommits)
       (scoreAndSortRepos sampleDateTime sampleNow [orgRepoNoCommits; ownRepoPlain] "alice") /\
  (forall x, In x (scoreAndSortRepos sampleDateTime sampleNow
                     [orgRepoNoCommits; ownRepoPlain] "alice") ->
             ~ (repo x = repo orgRepoNoCommits /\
                enrichedData x = enrichedData orgRepoNoCommits)).
Proof.
  apply (non_owned_zero_commits_excluded sampleDateTime sampleNow
           [orgRepoNoCommits; ownRepoPlain] "alice" orgRepoNoCommits (sampleData 0 500)).
  - simpl. left. reflexivity.
  - reflexivity.
  - reflexivity.
  - vm_compute. discriminate.
  - reflexivity.
Defined.

Lemma owned_non_fork_without_enrichment_included_witness :
  (exists s, calculatedScore (scoreRepo sampleDateTime sampleNow (toLowerCase "Alice") ownRepoPlain)
             = Some s /\ 20 <= s) /\
  In (scoreRepo sampleDateTime sampleNow (toLowerCase "Alice") ownRepoPlain)
     (scoreAndSortRepos sampleDateTime sampleNow [orgRepoNoCommits; ownRepoPlain] "Alice").
Proof.
  apply (owned_non_fork_without_enrichment_included sampleDateTime sampleNow
           [orgRepoNoCommits; ownRepoPlain] "Alice" ownRepoPlain).
  - simpl. right. left. reflexivity.
  - reflexivity.
  - reflexivity.
  - reflexivity.
  - reflexivity.
Defined.

Lemma malformed_full_name_removed_witness :
  calculatedScore (scoreRepo sampleDateTime sampleNow (toLowerCase "alice") malformedRepo)
  = Some 0 /\
  isOwn (toLowerCase "alice")
        (scoreRepo sampleDateTime sampleNow (toLowerCase "alice") malformedRepo) = false /\
  keepScored (toLowerCase "alice")
        (scoreRepo sampleDateTime sampleNow (toLowerCase "alice") malformedRepo) = false /\
  ~ In (scoreRepo sampleDateTime sampleNow (toLowerCase "alice") malformedRepo)
       (scoreAndSortRepos sampleDateTime sampleNow [malformedRepo; ownRepoPlain] "alice").
Proof.
  apply (malformed_full_name_removed sampleDateTime sampleNow
           [malformedRepo; ownRepoPlain] "alice" malformedRepo).
  - simpl. left. reflexivity.
  - reflexivity.
Defined.

(** *** The penalty tiers on integers *)

Lemma Qltb_true_iff (x y : Q) : Qltb x y = true <-> (x < y)%Q.
Proof.
  unfold Qltb. rewrite negb_true_iff. split.
  - intros H. apply Qnot_le_lt. intros Hle. apply Qle_bool_iff in Hle. congruence.
  - intros H. destruct (Qle_bool y x) eqn:E; [|reflexivity].
    apply Qle_bool_iff in E. exfalso. apply (Qlt_not_le _ _ H E).
Qed.

Lemma quotient_lt (u t a b : Z) :
  0 < t -> 0 < b ->
  (inject_Z u / inject_Z t < a # Z.to_pos b)%Q <-> u * b < a * t.
Proof.
  intros Ht Hb. destruct t as [|p|p]; try lia.
  unfold Qlt, Qdiv, Qmult, Qinv, inject_Z. simpl.
  rewrite Z2Pos.id by lia. lia.
Qed.

(** Below a threshold [a/b] under 1, the test of the capped ratio of [u]
    to [t] is the comparison of the cross products. *)
Lemma ratio_below (u t a : Z) (b : positive) :
  0 <= u -> 0 < t -> 0 < a -> a < Z.pos b ->
  Qltb (contributionRatio u t) (a # b) = (u * Z.pos b <? a * t).
Proof.
  intros Hu Ht Ha Hab. apply eq_true_iff_eq.
  rewrite Z.ltb_lt. unfold contributionRatio.
  destruct (Z.gtb_spec t 0) as [Hg|Hg]; [|lia].
  destruct (Z.geb_spec u 0) as [Hg'|Hg']; [|lia]. simpl.
  rewrite Qltb_true_iff, Q.min_lt_iff.
  rewrite <- (quotient_lt u t a (Z.pos b)) by lia. simpl.
  split; [intros [H|H]; [exact H|]|intros H; now left].
  unfold Qlt in H. simpl in H. lia.
Qed.

(** The tiers of the gate for a repository of another owner with [t > 0]
    commits in all: every test is strict. *)
Lemma contributionGate_non_owned (isFork : bool) (u t s : Z) :
  0 < t ->
  contributionGate false isFork u (contributionRatio u t) s =
  if u =? 0 then ReturnSentinel
  else if u <? 3 then Continue (s - 300)
  else if (u <? 10) || (10 * u <? t) then Continue (s - 200)
  else if (u <? 20) || (4 * u <? t) then Continue (s - 100)
  else Continue s.
Proof.
  intros Ht. unfold contributionGate. cbn [negb].
  destruct (Z.eqb_spec u 0) as [H0|H0]; [reflexivity|].
  destruct (Z.ltb_spec u 3) as [H3|H3]; [reflexivity|].
  rewrite !ratio_below by lia.
  replace (u * Z.pos 10 <? 1 * t) with (10 * u <? t) by (f_equal; lia).
  replace (u * Z.pos 100 <? 25 * t) with (4 * u <? t).
  - reflexivity.
  - apply eq_true_iff_eq. rewrite !Z.ltb_lt. lia.
Qed.

(** The boundary of C3 on the code: with 10 of 100 commits the ratio is
    exactly 1/10, neither [userCommits < 10] nor [ratio < 0.1] holds, and
    the gate takes 100 from the score, not 200; the whole score of the
    sample repository is -100 + 10 + 30 - 20. *)
Lemma ratio_at_boundary_is_not_penalised_by_200 :
  contributionRatio 10 100 == 1 # 10 /\
  contributionGate false false 10 (contributionRatio 10 100) 0 = Continue (-100) /\
  contributionGate false false 10 (contributionRatio 10 100) 0 <> Continue (-200) /\
  computeScore sampleDateTime sampleNow (toLowerCase "alice") orgRepoTenOfHundred = -80.
Proof.
  repeat split; try reflexivity. vm_compute. discriminate.
Qed.

(** C3, as the code has it. For a repository of another owner whose
    enrichment has [userCommitCount = 10] and [commitCount = 100], the
    ratio is exactly 0.1 and the tests of the -200 tier, which are strict,
    fail; the tier applied is the next one, "fewer than 20 commits or less
    than 25%", which takes 100: the score is the sum of the signals from
    -100. *)
Theorem ratio_at_boundary_penalised_by_100
    (dateTime : string -> option Z) (now : Z) (username : string)
    (r : EnrichedRepoData) (d : EnrichedData) :
  hasSeparator (full_name (repo r)) = true ->
  enrichedData r = Some d ->
  trim (toLowerCase (ownerPart (full_name (repo r)))) <> toLowerCase username ->
  userCommitCount d = Some 10 ->
  commitCount d = Some 100 ->
  contributionGate false (fork (repo r)) 10 (contributionRatio 10 100) 0 = Continue (-100) /\
  computeScore dateTime now (toLowerCase username) r
  = signalScore dateTime now (repo r) d false 10 100 (-100).
Proof.
  intros Hsep Hd Hown Hu Ht. split; [reflexivity|].
  unfold computeScore. rewrite split_short_iff, Hsep, Hd. cbn [negb].
  fold (ownerPart (full_name (repo r))).
  assert (Ho : isOwner (ownerPart (full_name (repo r))) (toLowerCase username) = false).
  { unfold isOwner. now apply String.eqb_neq. }
  rewrite Ho, Hu, Ht. reflexivity.
Qed.

Lemma ratio_at_boundary_penalised_by_100_witness :
  contributionGate false (fork (repo orgRepoTenOfHundred)) 10 (contributionRatio 10 100) 0
  = Continue (-100) /\
  computeScore sampleDateTime sampleNow (toLowerCase "alice") orgRepoTenOfHundred
  = signalScore sampleDateTime sampleNow (repo orgRepoTenOfHundred) (sampleData 10 100)
                false 10 100 (-100).
Proof.
  apply (ratio_at_boundary_penalised_by_100 sampleDateTime sampleNow "alice"
           orgRepoTenOfHundred (sampleData 10 100)).
  - reflexivity.
  - reflexivity.
  - vm_compute. discriminate.
  - reflexivity.
  - reflexivity.
Defined.

(** ** The relevance pre-filter *)

Lemma hasSeparator_empty (s : string) :
  (s =? "")%string = true -> hasSeparator s = false.
Proof. intros H. apply String.eqb_eq in H. now subst. Qed.

(** The callback of the filter rejects exactly the three kinds of entry. *)
Lemma isUserRelevant_false_iff (u : string) (r : GitHubRepo) :
  isUserRelevant u r = false <-> removedByPrefilter u r.
Proof.
  unfold isUserRelevant, removedByPrefilter.
  destruct (full_name r =? "")%string eqn:Hempty.
  - apply hasSeparator_empty in Hempty. tauto.
  - rewrite split_short_iff.
    destruct (hasSeparator (full_name r)); cbn [negb]; [|tauto].
    destruct (isOwnRepo u r), (fork r); cbn [negb andb];
      try (split; [discriminate|intros [H|[[H _]|[H _]]]; discriminate]).
    + destruct (Z.ltb_spec (numberOr0 (stargazers_count r)) 20);
        destruct (Z.ltb_spec (numberOr0 (forks_count r)) 10); cbn [andb];
        (split; [intros H1; try discriminate; right; right; repeat split; lia
                |intros [H1|[[_ H1]|[_ [_ [H1 H2]]]]]; try discriminate; try reflexivity; lia]).
    + split; [intros _; right; left; split; reflexivity|reflexivity].
Qed.

(** C8. The pre-filter of [fetchAllRepos] removes exactly the entries
    whose [full_name] has no separator, the forks that are not the user's,
    and the user's own forks with fewer than 20 stars and fewer than 10
    forks. An own fork with at least 20 stars or at least 10 forks is
    kept, and so is every repository of the user that is not a fork,
    whatever its stars, forks and other activity. *)
Theorem prefilter_removes_exactly (username : string) :
  (forall repos r,
     In r (userRelevantRepos repos username) <->
     In r (uniqueRepos repos) /\ ~ removedByPrefilter (trim username) r) /\
  (forall r,
     hasSeparator (full_name r) = true ->
     isOwnRepo (trim username) r = true -> fork r = true ->
     20 <= numberOr0 (stargazers_count r) \/ 10 <= numberOr0 (forks_count r) ->
     isUserRelevant (trim username) r = true) /\
  (forall r,
     hasSeparator (full_name r) = true ->
     isOwnRepo (trim username) r = true -> fork r = false ->
     isUserRelevant (trim username) r = true).
Proof.
  split; [|split].
  - intros repos r. unfold userRelevantRepos. rewrite filter_In.
    rewrite <- isUserRelevant_false_iff.
    destruct (isUserRelevant (trim username) r); intuition congruence.
  - intros r Hsep Hown Hfork Hact.
    destruct (isUserRelevant (trim username) r) eqn:E; [reflexivity|].
    apply isUserRelevant_false_iff in E.
    destruct E as [E|[[_ E]|[_ [_ [E1 E2]]]]]; try congruence. lia.
  - intros r Hsep Hown Hfork.
    destruct (isUserRelevant (trim username) r) eqn:E; [reflexivity|].
    apply isUserRelevant_false_iff in E.
    destruct E as [E|[[E _]|[E _]]]; congruence.
Qed.

(** ** The enrichment orchestrator *)

Lemma sliceTo_firstn {A : Type} (n : Z) (a : list A) :
  0 <= n -> sliceTo n a = firstn (Z.to_nat n) a.
Proof.
  intros H. unfold sliceTo. destruct (Z.ltb_spec n 0); [lia|reflexivity].
Qed.

(** The default of C7 on the code: without a [limit], ten of fifteen
    repositories are enriched, where a limit of 20 enriches all fifteen.
    A negative limit counts from the end, as [slice] does: with -1,
    fourteen are enriched. *)
Lemma default_limit_is_not_20 :
  List.length (enrichRepoData plainEnrich "token" fifteenRepos "alice" None) = 10%nat /\
  List.length (enrichRepoData plainEnrich "token" fifteenRepos "alice" (Some 20)) = 15%nat /\
  List.length (enrichRepoData plainEnrich "token" fifteenRepos "alice" (Some (-1))) = 14%nat /\
  enrichRepoData plainEnrich "token" fifteenRepos "alice" None
  <> enrichRepoData plainEnrich "token" fifteenRepos "alice" (Some 20).
Proof.
  split; [reflexivity|]. split; [reflexivity|]. split; [reflexivity|].
  intros H. apply (f_equal (@List.length EnrichedRepoData)) in H.
  vm_compute in H. discriminate.
Qed.

(** C7, as the code has it. The [limit] parameter defaults to 10; the
    application passes 20. For a limit that is not negative, the
    repositories enriched are the first [limit] of the input, in order,
    and no other. *)
Theorem enrichRepoData_limit
    (enrichOne : string -> string -> GitHubRepo -> EnrichedRepoData)
    (token username : string) (repos : list GitHubRepo) (limit : Z) :
  0 <= limit ->
  enrichRepoData enrichOne token repos username None
  = map (enrichOne token username) (firstn 10 repos) /\
  appEnrichedRepos enrichOne token repos username
  = map (enrichOne token username) (firstn 20 repos) /\
  enrichRepoData enrichOne token repos username (Some limit)
  = map (enrichOne token username) (firstn (Z.to_nat limit) repos) /\
  Z.of_nat (List.length (enrichRepoData enrichOne token repos username (Some limit)))
  <= limit.
Proof.
  intros H. unfold appEnrichedRepos, enrichRepoData.
  repeat split; try reflexivity.
  - now rewrite sliceTo_firstn.
  - rewrite sliceTo_firstn, length_map, length_firstn by exact H. lia.
Qed.

Lemma enrichRepoData_limit_witness :
  enrichRepoData plainEnrich "token" fifteenRepos "alice" None
  = map (plainEnrich "token" "alice") (firstn 10 fifteenRepos) /\
  appEnrichedRepos plainEnrich "token" fifteenRepos "alice"
  = map (plainEnrich "token" "alice") (firstn 20 fifteenRepos) /\
  enrichRepoData plainEnrich "token" fifteenRepos "alice" (Some 3)
  = map (plainEnrich "token" "alice") (firstn (Z.to_nat 3) fifteenRepos) /\
  Z.of_nat (List.length (enrichRepoData plainEnrich "token" fifteenRepos "alice" (Some 3)))
  <= 3.
Proof.
  apply (enrichRepoData_limit plainEnrich "token" "alice" fifteenRepos 3). lia.
Defined.

(** ** The content fetcher *)

(** C5, where the code fails it. [fetchFileContent] wraps the decoding in
    a [try] whose [catch (decodeError)] returns [null], as every other
    failure path does; but [base64Decode] catches the failure of [atob]
    itself and returns the empty string, so that [catch] never sees it.
    On a payload whose content is "%%%", which [atob] rejects, the fetcher
    returns the empty string, not [null]. *)
Lemma undecodable_content_yields_empty_string :
  atob (removeNewlines "%%%") = None /\
  fetchFileContent (Browser atob) undecodableUpstream
                   "token" "alice" "x" "README.md" None None
  = Ok (Some EmptyString) /\
  fetchFileContent (Browser atob) undecodableUpstream
                   "token" "alice" "x" "README.md" None None
  <> Ok None.
Proof.
  split; [reflexivity|]. split; [reflexivity|]. vm_compute. discriminate.
Qed.

Section ContentFetcherFacts.

Variable env : Base64Env.
Variable upstream : string -> Upstream.
Variables token owner_ repo_ path : string.
Variables timeoutMs maxSizeBytes : option Z.

Let u : Upstream := upstream (contentsUrl owner_ repo_ path).
Let result : Outcome (option string) :=
  fetchFileContent env upstream token owner_ repo_ path timeoutMs maxSizeBytes.

Ltac open_fetch :=
  unfold result, fetchFileContent, fetchWithTimeout, responseJson, contentReplace,
         tryCatch, bind; fold u.

Lemma fetch_never_throws : exists r, result = Ok r.
Proof.
  open_fetch.
  destruct (timeoutOr5000 timeoutMs <=? latencyMs u); [eauto|].
  destruct (response u) as [e|ok body]; [eauto|].
  destruct ok; cbn [negb]; [|eauto].
  destruct body as [e| |d]; [eauto|eauto|].
  destruct (match data_size d with Some sz => _ | None => false end); [eauto|].
  destruct (isTruthyContent (data_content d) && _); [|eauto].
  destruct (data_content d); [eauto|idtac|eauto].
  destruct (strlen _ >? _); eauto.
Qed.

Lemma fetch_timeout : timeoutOr5000 timeoutMs <= latencyMs u -> result = Ok None.
Proof.
  intros H. open_fetch.
  destruct (Z.leb_spec (timeoutOr5000 timeoutMs) (latencyMs u)); [reflexivity|lia].
Qed.

Lemma fetch_rejected (e : Error) : response u = Rejects e -> result = Ok None.
Proof.
  intros H. open_fetch. rewrite H.
  destruct (timeoutOr5000 timeoutMs <=? latencyMs u); reflexivity.
Qed.

Lemma fetch_not_ok (body : JsonBody) :
  response u = Responds false body -> result = Ok None.
Proof.
  intros H. open_fetch. rewrite H.
  destruct (timeoutOr5000 timeoutMs <=? latencyMs u); reflexivity.
Qed.

Lemma fetch_bad_json (ok : bool) (e : Error) :
  response u = Responds ok (JsonRejects e) -> result = Ok None.
Proof.
  intros H. open_fetch. rewrite H.
  destruct (timeoutOr5000 timeoutMs <=? latencyMs u); destruct ok; reflexivity.
Qed.

(** Every string the fetcher returns is the whole decoded content of an
    accepted payload and no longer than the ceiling. *)
Lemma fetch_returns_whole (s : string) :
  result = Ok (Some s) ->
  exists d c,
    response u = Responds true (JsonData d) /\
    data_content d = TextContent c /\
    s = base64Decode env (removeNewlines c) /\
    strlen s <= maxSizeOr1MB maxSizeBytes /\
    (forall sz, data_size d = Some sz -> sz <= maxSizeOr1MB maxSizeBytes).
Proof.
  open_fetch.
  destruct (timeoutOr5000 timeoutMs <=? latencyMs u); [discriminate|].
  destruct (response u) as [e|ok body]; [discriminate|].
  destruct ok; [|discriminate]. cbn [negb].
  destruct body as [e| |d]; [discriminate|discriminate|].
  destruct (data_size d) as [sz|] eqn:Hsz.
  - destruct (Z.eqb_spec sz 0) as [Hz|Hz]; cbn [negb andb].
    + destruct (isTruthyContent (data_content d) && _); [|discriminate].
      destruct (data_content d) as [|c|] eqn:Hc; [discriminate|idtac|discriminate].
      destruct (Z.gtb_spec (strlen (base64Decode env (removeNewlines c)))
                           (maxSizeOr1MB maxSizeBytes)); [discriminate|].
      intros Hres. injection Hres as <-. exists d, c. rewrite Hsz.
      repeat split; auto. intros sz' Hsz'. injection Hsz' as <-.
      subst sz. pose proof (Nat2Z.is_nonneg
        (String.length (base64Decode env (removeNewlines c)))).
      unfold strlen in *. lia.
    + destruct (Z.gtb_spec sz (maxSizeOr1MB maxSizeBytes)); [discriminate|].
      destruct (isTruthyContent (data_content d) && _); [|discriminate].
      destruct (data_content d) as [|c|] eqn:Hc; [discriminate|idtac|discriminate].
      destruct (Z.gtb_spec (strlen (base64Decode env (removeNewlines c)))
                           (maxSizeOr1MB maxSizeBytes)); [discriminate|].
      intros Hres. injection Hres as <-. exists d, c. rewrite Hsz.
      repeat split; auto. intros sz' Hsz'. injection Hsz' as <-. lia.
  - destruct (isTruthyContent (data_content d) && _); [|discriminate].
    destruct (data_content d) as [|c|] eqn:Hc; [discriminate|idtac|discriminate].
    destruct (Z.gtb_spec (strlen (base64Decode env (removeNewlines c)))
                         (maxSizeOr1MB maxSizeBytes)); [discriminate|].
    intros Hres. injection Hres as <-. exists d, c.
    repeat split; auto. intros sz' Hsz'. congruence.
Qed.

Lemma fetch_null_json (ok : bool) :
  response u = Responds ok JsonNull -> result = Ok None.
Proof.
  intros H. open_fetch. rewrite H.
  destruct (timeoutOr5000 timeoutMs <=? latencyMs u); destruct ok; reflexivity.
Qed.

Lemma fetch_declared_size_exceeds (ok : bool) (d : ContentsPayload) (sz : Z) :
  response u = Responds ok (JsonData d) ->
  data_size d = Some sz -> maxSizeOr1MB maxSizeBytes < sz ->
  result = Ok None.
Proof.
  intros H Hsz Hgt. open_fetch. rewrite H.
  destruct (timeoutOr5000 timeoutMs <=? latencyMs u); [reflexivity|].
  destruct ok; [|reflexivity]. cbn [negb]. rewrite Hsz.
  destruct (Z.eqb_spec sz 0) as [Hz|Hz]; cbn [negb andb].
  - destruct (isTruthyContent (data_content d) && _); [|reflexivity].
    destruct (data_content d) as [|c|]; [reflexivity|idtac|reflexivity].
    pose proof (Nat2Z.is_nonneg (String.length (base64Decode env (removeNewlines c)))).
    destruct (Z.gtb_spec (strlen (base64Decode env (removeNewlines c)))
                         (maxSizeOr1MB maxSizeBytes)); [reflexivity|].
    unfold strlen in *. lia.
  - destruct (Z.gtb_spec sz (maxSizeOr1MB maxSizeBytes)); [reflexivity|lia].
Qed.

Lemma fetch_decoded_size_exceeds (ok : bool) (d : ContentsPayload) (c : string) :
  response u = Responds ok (JsonData d) ->
  data_content d = TextContent c ->
  maxSizeOr1MB maxSizeBytes < strlen (base64Decode env (removeNewlines c)) ->
  result = Ok None.
Proof.
  intros H Hc Hgt. open_fetch. rewrite H.
  destruct (timeoutOr5000 timeoutMs <=? latencyMs u); [reflexivity|].
  destruct ok; [|reflexivity]. cbn [negb].
  destruct (match data_size d with Some sz => _ | None => false end); [reflexivity|].
  destruct (isTruthyContent (data_content d) && _); [|reflexivity].
  rewrite Hc.
  destruct (Z.gtb_spec (strlen (base64Decode env (removeNewlines c)))
                       (maxSizeOr1MB maxSizeBytes)); [reflexivity|lia].
Qed.

Lemma base64Decode_failure (str : string) :
  decoderThrows env str -> base64Decode env str = EmptyString.
Proof.
  unfold decoderThrows, base64Decode. destruct env as [f|f|]; intros H.
  - now rewrite H.
  - contradiction.
  - reflexivity.
Qed.

(** The same failure in general: a payload that passes the size checks
    and whose content, not empty, the decoder cannot decode comes back as
    the empty string. *)
Lemma fetch_decode_failure (d : ContentsPayload) (c : string) :
  latencyMs u < timeoutOr5000 timeoutMs ->
  response u = Responds true (JsonData d) ->
  (forall sz, data_size d = Some sz -> sz <= maxSizeOr1MB maxSizeBytes) ->
  data_content d = TextContent c ->
  c <> EmptyString ->
  data_encoding d = Some "base64" ->
  decoderThrows env (removeNewlines c) ->
  0 <= maxSizeOr1MB maxSizeBytes ->
  result = Ok (Some EmptyString).
Proof.
  intros Hlat H Hsz Hc Hne He Hfail Hmax. open_fetch. rewrite H.
  destruct (Z.leb_spec (timeoutOr5000 timeoutMs) (latencyMs u)); [lia|].
  cbn [negb]. rewrite Hc, He. cbn [isTruthyContent].
  destruct (String.eqb_spec c EmptyString) as [Hce|_]; [contradiction|].
  cbn [negb andb].
  rewrite (base64Decode_failure _ Hfail).
  assert (Hin : match data_size d with
                | Some sz => negb (sz =? 0) && (sz >? maxSizeOr1MB maxSizeBytes)
                | None => false
                end = false).
  { destruct (data_size d) as [sz|]; [|reflexivity].
    specialize (Hsz sz eq_refl).
    destruct (Z.gtb_spec sz (maxSizeOr1MB maxSizeBytes)); [lia|].
    now rewrite andb_false_r. }
  rewrite Hin.
  replace ("base64" =? "base64")%string with true by reflexivity.
  destruct (Z.gtb_spec (strlen EmptyString) (maxSizeOr1MB maxSizeBytes)) as [Hg|Hg];
    [|reflexivity].
  unfold strlen in Hg. simpl in Hg. lia.
Qed.

(** X30. [fetchFileContent] never throws. A response that is not 2xx, a
    rejected request, a timeout, a body that is not JSON or is [null], a
    declared size above [maxSizeBytes] and a decoded length above
    [maxSizeBytes] all yield [null]. A string that is returned is the
    whole decoded content of a 2xx payload, never a truncation, and is no
    longer than [maxSizeBytes]. *)
Theorem fetchFileContent_fail_open :
  (exists r, result = Ok r) /\
  (timeoutOr5000 timeoutMs <= latencyMs u -> result = Ok None) /\
  (forall e, response u = Rejects e -> result = Ok None) /\
  (forall body, response u = Responds false body -> result = Ok None) /\
  (forall ok e, response u = Responds ok (JsonRejects e) -> result = Ok None) /\
  (forall ok, response u = Responds ok JsonNull -> result = Ok None) /\
  (forall ok d sz,
     response u = Responds ok (JsonData d) -> data_size d = Some sz ->
     maxSizeOr1MB maxSizeBytes < sz -> result = Ok None) /\
  (forall ok d c,
     response u = Responds ok (JsonData d) -> data_content d = TextContent c ->
     maxSizeOr1MB maxSizeBytes < strlen (base64Decode env (removeNewlines c)) ->
     result = Ok None) /\
  (forall s,
     result = Ok (Some s) ->
     exists d c,
       response u = Responds true (JsonData d) /\
       data_content d = TextContent c /\
       s = base64Decode env (removeNewlines c) /\
       strlen s <= maxSizeOr1MB maxSizeBytes /\
       (forall sz, data_size d = Some sz -> sz <= maxSizeOr1MB maxSizeBytes)).
Proof.
  split; [exact fetch_never_throws|].
  split; [exact fetch_timeout|].
  split; [exact fetch_rejected|].
  split; [exact fetch_not_ok|].
  split; [exact fetch_bad_json|].
  split; [exact fetch_null_json|].
  split; [exact fetch_declared_size_exceeds|].
  split; [exact fetch_decoded_size_exceeds|].
  exact fetch_returns_whole.
Qed.

End ContentFetcherFacts.

(** ** The manifest parsers *)

Lemma uniqueFrom_spec (a seen : list string) :
  NoDup (uniqueFrom seen a) /\
  (forall x, In x (uniqueFrom seen a) -> ~ In x seen).
Proof.
  revert seen. induction a as [|x a IH]; intros seen; simpl.
  - split; [constructor|intros ? []].
  - destruct (existsb (String.eqb x) seen) eqn:E.
    + apply IH.
    + destruct (IH (x :: seen)) as [Hnd Hnot]. split.
      * constructor; [|exact Hnd].
        intros Hin. apply (Hnot x Hin). now left.
      * intros y [<-|Hy].
        -- intros Hin. assert (existsb (String.eqb x) seen = true).
           { apply existsb_exists. exists x. split; [exact Hin|apply String.eqb_refl]. }
           congruence.
        -- intros Hin. apply (Hnot y Hy). now right.
Qed.

Lemma unique_NoDup (a : list string) : NoDup (unique a).
Proof. apply uniqueFrom_spec. Qed.

Lemma firstn_NoDup {A : Type} (n : nat) (l : list A) :
  NoDup l -> NoDup (firstn n l).
Proof.
  intros H. rewrite <- (firstn_skipn n l) in H.
  now apply NoDup_app_remove_r in H.
Qed.

(** The tail of every parser that collects into a set:
    [[...new Set(deps)].slice(0, 100)]. *)
Lemma set_slice_bounded (deps : list string) :
  NoDup (sliceTo 100 (unique deps)) /\
  (List.length (sliceTo 100 (unique deps)) <= 100)%nat.
Proof.
  rewrite sliceTo_firstn by lia. split.
  - apply firstn_NoDup, unique_NoDup.
  - rewrite length_firstn. change (Z.to_nat 100) with 100%nat. lia.
Qed.

Ltac parser_bounded :=
  match goal with
  | |- context [rejected ?c ?n] =>
      destruct (rejected c n); [split; [constructor|simpl; lia]|apply set_slice_bounded]
  end.

(** The parsers that end in a set are deduplicated and capped at 100. *)
Lemma set_parsers_bounded (content : string) :
  (NoDup (parseGoMod content) /\ (List.length (parseGoMod content) <= 100)%nat) /\
  (NoDup (parseCargoToml content) /\ (List.length (parseCargoToml content) <= 100)%nat) /\
  (NoDup (parsePomXml content) /\ (List.length (parsePomXml content) <= 100)%nat) /\
  (NoDup (parseBuildGradle content) /\ (List.length (parseBuildGradle content) <= 100)%nat) /\
  (NoDup (parseGemfile content) /\ (List.length (parseGemfile content) <= 100)%nat) /\
  (NoDup (parseCMakeLists content) /\ (List.length (parseCMakeLists content) <= 100)%nat) /\
  (NoDup (parseSetupPy content) /\ (List.length (parseSetupPy content) <= 100)%nat) /\
  (NoDup (parsePyprojectToml content) /\
   (List.length (parsePyprojectToml content) <= 100)%nat).
Proof.
  unfold parseGoMod, parseCargoToml, parsePomXml, parseBuildGradle, parseGemfile,
         parseCMakeLists, parseSetupPy, parsePyprojectToml.
  repeat (split; [parser_bounded|]). parser_bounded.
Qed.

Lemma flat_map_length_le {A B : Type} (f : A -> list B) (l : list A) :
  (forall x, (List.length (f x) <= 1)%nat) ->
  (List.length (flat_map f l) <= List.length l)%nat.
Proof.
  intros H. induction l as [|x l IH]; simpl; [lia|].
  rewrite length_app. specialize (H x). lia.
Qed.

Lemma filter_length_le {A : Type} (f : A -> bool) (l : list A) :
  (List.length (filter f l) <= List.length l)%nat.
Proof.
  induction l as [|x l IH]; simpl; [lia|]. destruct (f x); simpl; lia.
Qed.

(** [parseRequirementsTxt] is capped: it reads 500 lines at most. *)
Lemma parseRequirementsTxt_capped (content : string) :
  (List.length (parseRequirementsTxt content) <= 500)%nat.
Proof.
  unfold parseRequirementsTxt. destruct (rejected content 100000); [simpl; lia|].
  etransitivity; [apply flat_map_length_le|].
  - intros [p|]; [|simpl; lia]. destruct (_ && _); simpl; lia.
  - rewrite length_map. etransitivity; [apply filter_length_le|].
    rewrite length_map, sliceTo_firstn, length_firstn by lia.
    change (Z.to_nat 500) with 500%nat. lia.
Qed.

(** C4 on the code. [parseRequirementsTxt], unlike the parsers beside it,
    does not collect into a set: a file that names [flask] on two lines
    yields [flask] twice. *)
Theorem parseRequirementsTxt_keeps_duplicates :
  parseRequirementsTxt duplicatedRequirements = ["flask"; "flask"] /\
  ~ NoDup (parseRequirementsTxt duplicatedRequirements).
Proof.
  assert (H : parseRequirementsTxt duplicatedRequirements = ["flask"; "flask"])
    by reflexivity.
  split; [exact H|]. rewrite H. intros Hnd.
  inversion Hnd as [|? ? Hnot _]; subst. apply Hnot. now left.
Qed.

(** ** The README analyzer *)

(** The truncation of [parseReadme] keeps the first 50,000 characters. *)
Lemma truncatedContent_takeChars (content : string) :
  (if strlen content >? 50000 then takeChars (Z.to_N 50000) content else content)
  = takeChars 50000%N content.
Proof.
  destruct (Z.gtb_spec (strlen content) 50000) as [H|H]; [reflexivity|].
  symmetry. apply takeChars_all. unfold strlen in H. lia.
Qed.

(** The three fields computed from [lower] read the first 50,000
    characters only. *)
Lemma parseReadme_truncated_fields (c1 c2 : string) :
  takeChars 50000%N c1 = takeChars 50000%N c2 ->
  projectType (parseReadme c1) = projectType (parseReadme c2) /\
  hasDemo (parseReadme c1) = hasDemo (parseReadme c2) /\
  hasDocs (parseReadme c1) = hasDocs (parseReadme c2).
Proof.
  intros H. unfold parseReadme. cbv zeta. cbn [projectType hasDemo hasDocs].
  rewrite !truncatedContent_takeChars, H. repeat split.
Qed.

(** C6 on the code. [hasMetrics], [complexity] and [mentions] are computed
    from the whole text: a README and its first 50,000 characters, which
    agree on those characters, are analysed differently. *)
Theorem parseReadme_reads_past_the_truncation :
  takeChars 50000%N longReadme = takeChars 50000%N (takeChars 50000%N longReadme) /\
  parseReadme longReadme
  = mkAnalysis false false ["react"] "application" true complex /\
  parseReadme (takeChars 50000%N longReadme)
  = mkAnalysis false false [] "application" false simple.
Proof.
  split; [symmetry; apply takeChars_idem|].
  split; vm_compute; reflexivity.
Qed.

(** ** The definitions at work *)

(** The engine on five entries: the sentinel and the malformed entry are
    dropped, the rest is in descending order of score, and the two entries
    with score 30 keep the order of the input. *)
Example scoreAndSortRepos_sample :
  map (fun r => (full_name (repo r), calculatedScore r))
      (scoreAndSortRepos sampleDateTime sampleNow
         [orgRepoNoCommits; ownRepoPlain; malformedRepo; orgRepoFortyOfFifty;
          ownRepoStarred] "Alice")
  = [("alice/w", Some 60); ("alice/x", Some 30); ("org/z", Some 30)].
Proof. reflexivity. Qed.

Example parseGoMod_sample : parseGoMod sampleGoMod = ["gin"; "text"].
Proof. reflexivity. Qed.

Example parseReadme_sample :
  parseReadme sampleReadme
  = mkAnalysis false true ["react"; "react"; "node.js"; "c++"; "rest api"]
               "api" true complex.
Proof. reflexivity. Qed.

Example fetchFileContent_sample :
  fetchFileContent (Browser atob) hiUpstream "token" "alice" "x" "README.md" None None
  = Ok (Some "hi") /\
  fetchFileContent (Browser atob) hiUpstream "token" "alice" "x" "README.md" (Some 100) None
  = Ok None /\
  fetchFileContent (Browser atob) hiUpstream "token" "alice" "x" "README.md" None (Some 1)
  = Ok None.
Proof. repeat split; reflexivity. Qed.

(** * Further properties of the code *)

(** ** The scoring engine: order, stability, what is kept *)

Lemma byScoreDesc_trans : Relations_1.Transitive byScoreDesc.
Proof. intros a b c Hab Hbc. unfold byScoreDesc in *. lia. Qed.

(** X1. The list [scoreAndSortRepos] returns is in descending order of
    score: every entry scores at least as much as every entry after it. *)
Theorem scoreAndSortRepos_descending
    (dateTime : string -> option Z) (now : Z)
    (repos : list EnrichedRepoData) (username : string) :
  StronglySorted (fun a b => sortKey b <= sortKey a)
                 (scoreAndSortRepos dateTime now repos username).
Proof.
  apply (Sorted_StronglySorted byScoreDesc_trans).
  unfold scoreAndSortRepos. apply sortByScore_sorted.
Qed.

Lemma insertByScore_stable (k : Z) (x : EnrichedRepoData) (l : list EnrichedRepoData) :
  filter (fun r => sortKey r =? k) (insertByScore x l)
  = filter (fun r => sortKey r =? k) (x :: l).
Proof.
  induction l as [|y l IH]; [reflexivity|].
  cbn [insertByScore].
  destruct (Z.leb_spec (sortKey y) (sortKey x)) as [Hle|Hgt]; [reflexivity|].
  cbn [filter] in *. rewrite IH.
  destruct (Z.eqb_spec (sortKey x) k), (Z.eqb_spec (sortKey y) k);
    try reflexivity. lia.
Qed.

Lemma sortByScore_stable (k : Z) (l : list EnrichedRepoData) :
  filter (fun r => sortKey r =? k) (sortByScore l)
  = filter (fun r => sortKey r =? k) l.
Proof.
  induction l as [|x l IH]; [reflexivity|].
  cbn [sortByScore]. rewrite insertByScore_stable. cbn [filter].
  now rewrite IH.
Qed.

(** X2. The sort is stable: the entries of the result that share a score
    stand in the order in which the input had them. *)
Theorem scoreAndSortRepos_stable
    (dateTime : string -> option Z) (now : Z)
    (repos : list EnrichedRepoData) (username : string) (k : Z) :
  filter (fun r => sortKey r =? k) (scoreAndSortRepos dateTime now repos username)
  = filter (fun r => sortKey r =? k)
      (filter (keepScored (toLowerCase username))
              (map (scoreRepo dateTime now (toLowerCase username)) repos)).
Proof. unfold scoreAndSortRepos. apply sortByScore_stable. Qed.

(** The filter on a freshly scored entry, in terms of its score. *)
Lemma keepScored_scored (dateTime : string -> option Z) (now : Z)
    (u : string) (r : EnrichedRepoData) :
  keepScored u (scoreRepo dateTime now u r) = true <->
  0 < computeScore dateTime now u r \/
  (computeScore dateTime now u r = 0 /\ isOwn u r = true).
Proof.
  unfold keepScored, scoreRepo, withScore. cbn [calculatedScore scoreLt scoreGt scoreGe].
  change (isOwn u (mkEnriched (repo r) (Some (computeScore dateTime now u r))
                              (enrichedData r))) with (isOwn u r).
  set (s := computeScore dateTime now u r).
  destruct (Z.ltb_spec s (-1000)), (Z.gtb_spec s 0), (Z.geb_spec s 0),
    (isOwn u r); cbn [orb andb]; split; intros Hres; try discriminate;
    try reflexivity; try lia; destruct Hres as [Hres|[Hres Hres']];
    try discriminate; lia.
Qed.

Lemma scoreAndSortRepos_In_score (dateTime : string -> option Z) (now : Z)
    (repos : list EnrichedRepoData) (username : string) (x : EnrichedRepoData) :
  In x (scoreAndSortRepos dateTime now repos username) <->
  exists r, In r repos /\
            x = scoreRepo dateTime now (toLowerCase username) r /\
            (0 < computeScore dateTime now (toLowerCase username) r \/
             (computeScore dateTime now (toLowerCase username) r = 0 /\
              isOwn (toLowerCase username) r = true)).
Proof.
  rewrite scoreAndSortRepos_In. split.
  - intros [r [Hr [Hx Hk]]]. exists r. repeat split; auto.
    rewrite Hx in Hk. now apply keepScored_scored in Hk.
  - intros [r [Hr [Hx Hk]]]. exists r. repeat split; auto.
    rewrite Hx. now apply keepScored_scored.
Qed.

(** X3. What the engine keeps: an entry is returned exactly when its score
    is positive, or is zero and the repository is the user's. An entry of
    another owner that scores exactly zero is dropped, and no returned
    entry has a negative score. *)
Theorem scoreAndSortRepos_keeps
    (dateTime : string -> option Z) (now : Z)
    (repos : list EnrichedRepoData) (username : string) :
  (forall x,
     In x (scoreAndSortRepos dateTime now repos username) <->
     exists r, In r repos /\
               x = scoreRepo dateTime now (toLowerCase username) r /\
               (0 < computeScore dateTime now (toLowerCase username) r \/
                (computeScore dateTime now (toLowerCase username) r = 0 /\
                 isOwn (toLowerCase username) r = true))) /\
  (forall x, In x (scoreAndSortRepos dateTime now repos username) ->
             exists s, calculatedScore x = Some s /\ 0 <= s).
Proof.
  split; [intros x; apply scoreAndSortRepos_In_score|].
  intros x Hx. apply scoreAndSortRepos_In_score in Hx.
  destruct Hx as [r [_ [Hx Hk]]].
  exists (computeScore dateTime now (toLowerCase username) r). split.
  - now rewrite Hx.
  - lia.
Qed.

(** X4. The engine never reads a score computed before: whatever
    [calculatedScore] the input entries carry, the result is the same. *)
Theorem scoreAndSortRepos_ignores_old_scores
    (dateTime : string -> option Z) (now : Z)
    (repos : list EnrichedRepoData) (username : string)
    (old : EnrichedRepoData -> option Z) :
  scoreAndSortRepos dateTime now
    (map (fun r => mkEnriched (repo r) (old r) (enrichedData r)) repos) username
  = scoreAndSortRepos dateTime now repos username.
Proof.
  unfold scoreAndSortRepos. rewrite map_map.
  rewrite (map_ext _ (scoreRepo dateTime now (toLowerCase username)));
    [reflexivity|].
  intros r. apply scoreRepo_ext; reflexivity.
Qed.

(** X5. The user's own fork that has an enrichment record and no commit of
    the user is given the sentinel -9999 and is not returned. *)
Theorem own_fork_zero_commits_excluded
    (dateTime : string -> option Z) (now : Z)
    (repos : list EnrichedRepoData) (username : string)
    (r : EnrichedRepoData) (d : EnrichedData) :
  hasSeparator (full_name (repo r)) = true ->
  enrichedData r = Some d ->
  isOwner (ownerPart (full_name (repo r))) (toLowerCase username) = true ->
  fork (repo r) = true ->
  numberOr0 (userCommitCount d) = 0 ->
  computeScore dateTime now (toLowerCase username) r = -9999 /\
  ~ In (scoreRepo dateTime now (toLowerCase username) r)
       (scoreAndSortRepos dateTime now repos username).
Proof.
  intros Hsep Hd Hown Hfork Hc.
  assert (Hs : computeScore dateTime now (toLowerCase username) r = -9999).
  { unfold computeScore. rewrite split_short_iff, Hsep, Hd. cbn [negb].
    fold (ownerPart (full_name (repo r))). rewrite Hown, Hfork, Hc. reflexivity. }
  split; [exact Hs|].
  intros Hin. apply scoreAndSortRepos_In_score in Hin.
  destruct Hin as [r' [_ [Hx Hk]]].
  assert (Heq : computeScore dateTime now (toLowerCase username) r'
                = computeScore dateTime now (toLowerCase username) r).
  { apply (f_equal calculatedScore) in Hx. unfold scoreRepo, withScore in Hx.
    cbn in Hx. congruence. }
  lia.
Qed.

(** X6. Without an enrichment record a fork scores exactly 0, whatever
    its stars, forks and date: the penalty of 200 outweighs every fallback
    bonus. It is returned exactly when the user owns it. *)
Theorem fork_without_enrichment_scores_zero
    (dateTime : string -> option Z) (now : Z)
    (repos : list EnrichedRepoData) (username : string) (r : EnrichedRepoData) :
  In r repos ->
  hasSeparator (full_name (repo r)) = true ->
  enrichedData r = None ->
  fork (repo r) = true ->
  computeScore dateTime now (toLowerCase username) r = 0 /\
  (In (scoreRepo dateTime now (toLowerCase username) r)
      (scoreAndSortRepos dateTime now repos username) <->
   isOwner (ownerPart (full_name (repo r))) (toLowerCase username) = true).
Proof.
  intros Hin Hsep Hnone Hfork.
  assert (Hs : computeScore dateTime now (toLowerCase username) r = 0).
  { unfold computeScore. rewrite split_short_iff, Hsep, Hnone. cbn [negb].
    unfold fallbackScore. rewrite Hfork.
    destruct (negb (private (repo r)) && (numberOr0 (stargazers_count (repo r)) >? 10));
      destruct (numberOr0 (forks_count (repo r)) >? 5);
      destruct (daysBelow (daysSinceUpdate dateTime now (repo r)) 90);
      destruct (isOwner _ _); reflexivity. }
  split; [exact Hs|].
  assert (Hown : isOwn (toLowerCase username) r
                 = isOwner (ownerPart (full_name (repo r))) (toLowerCase username)).
  { unfold isOwn. now rewrite split_long_iff, Hsep. }
  rewrite <- Hown. split.
  - intros Hx. apply scoreAndSortRepos_In_score in Hx.
    destruct Hx as [r' [_ [Hx Hk]]].
    assert (Hr : repo r' = repo r) by (apply (f_equal repo) in Hx; cbn in Hx; congruence).
    assert (He : enrichedData r' = enrichedData r)
      by (apply (f_equal enrichedData) in Hx; cbn in Hx; congruence).
    rewrite (computeScore_ext dateTime now _ r' r Hr He), Hs in Hk.
    destruct Hk as [Hk|[_ Hk]]; [lia|].
    unfold isOwn in *. now rewrite <- Hr.
  - intros Ho. apply scoreAndSortRepos_In_score. exists r. repeat split; auto.
Qed.

(** ** The contribution ratio and the penalty tiers *)

(** X7. The contribution ratio is always between 0 and 1, whatever the two
    counts are; it is 1 as soon as the user's commits reach the total, and
    also when the total is 0 and the user has commits. *)
Theorem contributionRatio_range (userCommits totalCommits : Z) :
  (0 <= contributionRatio userCommits totalCommits)%Q /\
  (contributionRatio userCommits totalCommits <= 1)%Q /\
  (0 < totalCommits -> totalCommits <= userCommits ->
   (contributionRatio userCommits totalCommits == 1)%Q) /\
  (totalCommits = 0 -> 0 < userCommits ->
   (contributionRatio userCommits totalCommits == 1)%Q).
Proof.
  unfold contributionRatio.
  destruct (Z.gtb_spec totalCommits 0) as [Ht|Ht];
    destruct (Z.geb_spec userCommits 0) as [Hu|Hu]; cbn [andb].
  - assert (Hq : (0 <= inject_Z userCommits / inject_Z totalCommits)%Q).
    { destruct totalCommits as [|p|p]; try lia.
      unfold Qle, Qdiv, Qmult, Qinv, inject_Z. simpl. lia. }
    repeat split.
    + apply Q.min_glb; [exact Hq|discriminate].
    + apply Q.le_min_r.
    + intros _ Hle. apply Q.min_r.
      destruct totalCommits as [|p|p]; try lia.
      unfold Qle, Qdiv, Qmult, Qinv, inject_Z. simpl. lia.
    + lia.
  - destruct (Z.eqb_spec totalCommits 0); [lia|]. cbn [andb].
    repeat split; try discriminate; lia.
  - destruct (Z.eqb_spec totalCommits 0) as [H0|H0];
      destruct (Z.gtb_spec userCommits 0); cbn [andb];
      repeat split; try discriminate; try reflexivity; lia.
  - destruct (Z.eqb_spec totalCommits 0) as [H0|H0];
      destruct (Z.gtb_spec userCommits 0); cbn [andb];
      repeat split; try discriminate; try reflexivity; lia.
Qed.

(** X8. The gate for a repository of another owner, on whole numbers of
    commits with a positive total: no commit gives the sentinel, fewer
    than 3 costs 300, fewer than 10 or a share under one tenth costs 200,
    fewer than 20 or a share under one quarter costs 100, and every
    comparison is strict. *)
Theorem penalty_tiers_on_integers (isFork : bool) (userCommits totalCommits score : Z) :
  0 < totalCommits ->
  contributionGate false isFork userCommits
                   (contributionRatio userCommits totalCommits) score =
  if userCommits =? 0 then ReturnSentinel
  else if userCommits <? 3 then Continue (score - 300)
  else if (userCommits <? 10) || (10 * userCommits <? totalCommits)
       then Continue (score - 200)
  else if (userCommits <? 20) || (4 * userCommits <? totalCommits)
       then Continue (score - 100)
  else Continue score.
Proof. apply contributionGate_non_owned. Qed.

Lemma penalty_tiers_on_integers_witness :
  contributionGate false false 12 (contributionRatio 12 121) 0 =
  if 12 =? 0 then ReturnSentinel
  else if 12 <? 3 then Continue (0 - 300)
  else if (12 <? 10) || (10 * 12 <? 121) then Continue (0 - 200)
  else if (12 <? 20) || (4 * 12 <? 121) then Continue (0 - 100)
  else Continue 0.
Proof. apply (penalty_tiers_on_integers false 12 121 0). lia. Defined.

(** ** The deduplication and the pre-filter of [fetchAllRepos] *)

Lemma mapSet_In (k : Z) (v : GitHubRepo) (m : list (Z * GitHubRepo)) (p : Z * GitHubRepo) :
  In p (mapSet k v m) -> p = (k, v) \/ In p m.
Proof.
  induction m as [|[k' v'] m IH]; simpl.
  - intros [H|[]]. now left.
  - destruct (k =? k'); simpl.
    + intros [H|H]; auto.
    + intros [H|H]; auto. destruct (IH H); auto.
Qed.

Lemma mapSet_fresh (k : Z) (v : GitHubRepo) (m : list (Z * GitHubRepo)) :
  ~ In k (map fst m) -> mapSet k v m = (m ++ [(k, v)])%list.
Proof.
  induction m as [|[k' v'] m IH]; simpl; [reflexivity|].
  intros H. destruct (Z.eqb_spec k k') as [->|Hne]; [tauto|].
  f_equal. apply IH. tauto.
Qed.

Lemma mapSet_keys (k : Z) (v : GitHubRepo) (m : list (Z * GitHubRepo)) :
  map fst (mapSet k v m)
  = if existsb (Z.eqb k) (map fst m) then map fst m else (map fst m ++ [k])%list.
Proof.
  induction m as [|[k' v'] m IH]; simpl; [reflexivity|].
  destruct (Z.eqb_spec k k') as [->|Hne]; simpl; [reflexivity|].
  rewrite IH. destruct (existsb (Z.eqb k) (map fst m)); reflexivity.
Qed.

Lemma mapSet_NoDup (k : Z) (v : GitHubRepo) (m : list (Z * GitHubRepo)) :
  NoDup (map fst m) -> NoDup (map fst (mapSet k v m)).
Proof.
  intros H. rewrite mapSet_keys.
  destruct (existsb (Z.eqb k) (map fst m)) eqn:E; [exact H|].
  apply NoDup_app; [exact H|repeat constructor; intros []|].
  intros x Hx [Hk|[]]. subst x.
  assert (existsb (Z.eqb k) (map fst m) = true); [|congruence].
  apply existsb_exists. exists k. split; [exact Hx|apply Z.eqb_refl].
Qed.

Lemma mapSet_has (k : Z) (v : GitHubRepo) (m : list (Z * GitHubRepo)) :
  In (k, v) (mapSet k v m).
Proof.
  induction m as [|[k' v'] m IH]; simpl; [now left|].
  destruct (k =? k'); simpl; auto.
Qed.

Lemma mapSet_keeps (k : Z) (v : GitHubRepo) (m : list (Z * GitHubRepo))
    (p : Z * GitHubRepo) :
  fst p <> k -> In p m -> In p (mapSet k v m).
Proof.
  intros Hne. induction m as [|[k' v'] m IH]; simpl; [tauto|].
  intros [<-|H].
  - simpl in Hne. destruct (Z.eqb_spec k k'); [congruence|]. now left.
  - destruct (k =? k'); simpl; auto.
Qed.

Lemma repoMapFrom_inv (repos : list GitHubRepo) (m : list (Z * GitHubRepo)) :
  NoDup (map fst m) -> (forall p, In p m -> id (snd p) = fst p) ->
  NoDup (map fst (repoMapFrom m repos)) /\
  (forall p, In p (repoMapFrom m repos) -> id (snd p) = fst p) /\
  (forall p, In p (repoMapFrom m repos) -> In p m \/ In (snd p) repos) /\
  (forall r, In r repos -> In (id r) (map fst (repoMapFrom m repos))) /\
  (forall k, In k (map fst m) -> In k (map fst (repoMapFrom m repos))).
Proof.
  revert m. induction repos as [|x repos IH]; intros m Hnd Hwf.
  - simpl. repeat split; auto. intros r [].
  - assert (Hnd' : NoDup (map fst (mapSet (id x) x m))) by now apply mapSet_NoDup.
    assert (Hwf' : forall p, In p (mapSet (id x) x m) -> id (snd p) = fst p).
    { intros p Hp. apply mapSet_In in Hp. destruct Hp as [->|Hp]; auto. }
    destruct (IH _ Hnd' Hwf') as [H1 [H2 [H3 [H4 H5]]]].
    unfold repoMapFrom in *. cbn [fold_left]. repeat split; auto.
    + intros p Hp. destruct (H3 p Hp) as [Hm|Hr]; [|right; now right].
      apply mapSet_In in Hm. destruct Hm as [->|Hm]; [right; now left|now left].
    + intros r [<-|Hr]; [|now apply H4].
      apply H5. apply in_map_iff. exists (id x, x). split; [reflexivity|apply mapSet_has].
    + intros k Hk. apply H5. rewrite mapSet_keys.
      destruct (existsb (Z.eqb k) (map fst m)) eqn:E.
      * destruct (existsb (Z.eqb (id x)) (map fst m)); [exact Hk|].
        apply in_or_app. now left.
      * destruct (existsb (Z.eqb (id x)) (map fst m)); [exact Hk|].
        apply in_or_app. now left.
Qed.

Lemma repoMapFrom_last (repos : list GitHubRepo) (m : list (Z * GitHubRepo))
    (r : GitHubRepo) :
  In (id r, r) m -> (forall y, In y repos -> id y <> id r) ->
  In (id r, r) (repoMapFrom m repos).
Proof.
  revert m. induction repos as [|x repos IH]; intros m Hin Hlast; [exact Hin|].
  unfold repoMapFrom in *. cbn [fold_left]. apply IH.
  - apply mapSet_keeps; [|exact Hin]. simpl. intros Heq.
    apply (Hlast x); [now left|congruence].
  - intros y Hy. apply Hlast. now right.
Qed.

Lemma repoMapFrom_app (l1 l2 : list GitHubRepo) (m : list (Z * GitHubRepo)) :
  repoMapFrom m (l1 ++ l2) = repoMapFrom (repoMapFrom m l1) l2.
Proof. unfold repoMapFrom. apply fold_left_app. Qed.

Lemma map_id_snd (m : list (Z * GitHubRepo)) :
  (forall p, In p m -> id (snd p) = fst p) -> map id (map snd m) = map fst m.
Proof.
  intros H. rewrite map_map. apply map_ext_in. exact H.
Qed.

Lemma uniqueRepos_NoDup_ids (repos : list GitHubRepo) :
  NoDup (map id (uniqueRepos repos)).
Proof.
  unfold uniqueRepos. fold (repoMapFrom [] repos).
  destruct (repoMapFrom_inv repos [] (NoDup_nil _) (fun p (H : In p []) => match H with end))
    as [H1 [H2 _]].
  rewrite (map_id_snd _ H2). exact H1.
Qed.

(** X9. The deduplication by [id]: the ids of [uniqueRepos] are distinct,
    every entry comes from the input, every id of the input is kept, and
    for a repeated id the last entry of the input wins. *)
Theorem uniqueRepos_by_id (repos : list GitHubRepo) :
  NoDup (map id (uniqueRepos repos)) /\
  (forall r, In r (uniqueRepos repos) -> In r repos) /\
  (forall r, In r repos -> In (id r) (map id (uniqueRepos repos))) /\
  (forall l1 r l2,
     repos = (l1 ++ r :: l2)%list -> (forall y, In y l2 -> id y <> id r) ->
     In r (uniqueRepos repos)).
Proof.
  unfold uniqueRepos. fold (repoMapFrom [] repos).
  destruct (repoMapFrom_inv repos [] (NoDup_nil _) (fun p (H : In p []) => match H with end))
    as [H1 [H2 [H3 [H4 _]]]].
  repeat split.
  - rewrite (map_id_snd _ H2). exact H1.
  - intros r Hr. apply in_map_iff in Hr. destruct Hr as [p [<- Hp]].
    destruct (H3 p Hp) as [[]|Hr]. exact Hr.
  - intros r Hr. rewrite (map_id_snd _ H2). now apply H4.
  - intros l1 r l2 -> Hlast. apply in_map_iff. exists (id r, r). split; [reflexivity|].
    rewrite repoMapFrom_app. cbn [fold_left repoMapFrom].
    change (fold_left (fun m item => mapSet (id item) item m) l2
              (mapSet (id r) r (repoMapFrom [] l1)))
      with (repoMapFrom (mapSet (id r) r (repoMapFrom [] l1)) l2).
    apply repoMapFrom_last; [apply mapSet_has|exact Hlast].
Qed.

Lemma repoMapFrom_distinct (repos : list GitHubRepo) (m : list (Z * GitHubRepo)) :
  NoDup (map fst m ++ map id repos) ->
  repoMapFrom m repos = (m ++ map (fun r => (id r, r)) repos)%list.
Proof.
  revert m. induction repos as [|x repos IH]; intros m Hnd.
  - simpl. now rewrite app_nil_r.
  - unfold repoMapFrom in *. cbn [fold_left map].
    assert (Hfresh : ~ In (id x) (map fst m)).
    { intros Hin. apply NoDup_remove_2 in Hnd. apply Hnd.
      apply in_or_app. now left. }
    rewrite (mapSet_fresh _ _ _ Hfresh), IH.
    + now rewrite <- app_assoc.
    + rewrite map_app. cbn [map fst]. rewrite <- app_assoc. exact Hnd.
Qed.

Lemma uniqueRepos_distinct (repos : list GitHubRepo) :
  NoDup (map id repos) -> uniqueRepos repos = repos.
Proof.
  intros Hnd. unfold uniqueRepos. fold (repoMapFrom [] repos).
  rewrite repoMapFrom_distinct by exact Hnd.
  cbn [app]. rewrite map_map. cbn [snd]. apply map_id.
Qed.

Lemma NoDup_map_filter {A B : Type} (g : A -> B) (f : A -> bool) (l : list A) :
  NoDup (map g l) -> NoDup (map g (filter f l)).
Proof.
  induction l as [|x l IH]; intros Hnd; [constructor|].
  cbn [map] in Hnd. inversion Hnd as [|? ? Hnot Hnd']; subst.
  cbn [filter]. destruct (f x); [|now apply IH].
  cbn [map]. constructor; [|now apply IH].
  intros Hin. apply Hnot. apply in_map_iff in Hin.
  destruct Hin as [y [Hy Hin]]. apply filter_In in Hin.
  apply in_map_iff. exists y. tauto.
Qed.

Lemma filter_idem {A : Type} (f : A -> bool) (l : list A) :
  filter f (filter f l) = filter f l.
Proof.
  apply filter_fixed. intros x Hx. now apply filter_In in Hx.
Qed.

Lemma trimStart_idem (s : string) : trimStart (trimStart s) = trimStart s.
Proof.
  induction s as [|c s IH]; [reflexivity|]. cbn [trimStart].
  destruct (isWhiteSpace c) eqn:E; [exact IH|].
  cbn [trimStart]. now rewrite E.
Qed.

Lemma trimEnd_idem (s : string) : trimEnd (trimEnd s) = trimEnd s.
Proof.
  induction s as [|c s IH]; [reflexivity|]. cbn [trimEnd].
  destruct (isWhiteSpace c) eqn:Ec; cbn [andb].
  - destruct (String.eqb_spec (trimEnd s) "") as [He|Hne]; [reflexivity|].
    cbn [trimEnd]. rewrite Ec, IH. cbn [andb].
    destruct (String.eqb_spec (trimEnd s) ""); [contradiction|reflexivity].
  - cbn [trimEnd]. rewrite Ec, IH. reflexivity.
Qed.

(** Trimming the end leaves the start as it is. *)
Lemma trimStart_trimEnd (s : string) :
  trimStart (trimEnd s) = trimEnd (trimStart s).
Proof.
  induction s as [|c s IH]; [reflexivity|]. cbn [trimEnd trimStart].
  destruct (isWhiteSpace c) eqn:Ec; cbn [andb].
  - destruct (String.eqb_spec (trimEnd s) "") as [He|Hne].
    + cbn [trimStart]. rewrite <- IH, He. reflexivity.
    + cbn [trimStart]. rewrite Ec. exact IH.
  - cbn [trimStart trimEnd]. rewrite Ec. cbn [andb]. reflexivity.
Qed.

Lemma trim_idem (s : string) : trim (trim s) = trim s.
Proof.
  unfold trim. rewrite trimStart_trimEnd, trimStart_idem, trimEnd_idem. reflexivity.
Qed.

(** X10. The relevance pre-filter is idempotent: filtering the list that
    [fetchAllRepos] returned once more, for the same user, changes
    nothing. *)
Theorem userRelevantRepos_idempotent (repos : list GitHubRepo) (username : string) :
  userRelevantRepos (userRelevantRepos repos username) username
  = userRelevantRepos repos username.
Proof.
  unfold userRelevantRepos.
  rewrite uniqueRepos_distinct.
  - apply filter_idem.
  - apply NoDup_map_filter. apply uniqueRepos_NoDup_ids.
Qed.

(** ** The pipeline of [App.tsx] *)

Lemma insertByScore_length (x : EnrichedRepoData) (l : list EnrichedRepoData) :
  List.length (insertByScore x l) = S (List.length l).
Proof.
  induction l as [|y l IH]; [reflexivity|]. cbn [insertByScore].
  destruct (sortKey y <=? sortKey x); cbn [List.length]; [reflexivity|].
  now rewrite IH.
Qed.

Lemma sortByScore_length (l : list EnrichedRepoData) :
  List.length (sortByScore l) = List.length l.
Proof.
  induction l as [|x l IH]; [reflexivity|]. cbn [sortByScore].
  rewrite insertByScore_length. cbn [List.length]. now rewrite IH.
Qed.

(** X11. The application enriches with a limit of 20 and scores what it
    enriched: however many repositories the listing returned, at most 20
    entries reach the ranked list, and every one of them is the scored
    enrichment of one of the first 20 repositories of the listing. *)
Theorem app_pipeline_at_most_20
    (dateTime : string -> option Z) (now : Z)
    (enrichOne : string -> string -> GitHubRepo -> EnrichedRepoData)
    (token login : string) (repos : list GitHubRepo) :
  (List.length (scoreAndSortRepos dateTime now
                  (appEnrichedRepos enrichOne token repos login) login) <= 20)%nat /\
  (forall x,
     In x (scoreAndSortRepos dateTime now
             (appEnrichedRepos enrichOne token repos login) login) ->
     exists r, In r (firstn 20 repos) /\
               x = scoreRepo dateTime now (toLowerCase login)
                     (enrichOne token login r)).
Proof.
  unfold appEnrichedRepos, enrichRepoData. rewrite sliceTo_firstn by lia.
  change (Z.to_nat 20) with 20%nat. split.
  - unfold scoreAndSortRepos. rewrite sortByScore_length.
    etransitivity; [apply filter_length_le|].
    rewrite !length_map, length_firstn. lia.
  - intros x Hx. apply scoreAndSortRepos_In in Hx.
    destruct Hx as [e [He [Hx _]]]. apply in_map_iff in He.
    destruct He as [r [<- Hr]]. exists r. auto.
Qed.

(** ** The manifest parsers: what an entry can be *)

Lemma uniqueFrom_In (a seen : list string) (x : string) :
  In x (uniqueFrom seen a) -> In x a.
Proof.
  revert seen. induction a as [|y a IH]; intros seen; simpl; [tauto|].
  destruct (existsb (String.eqb y) seen).
  - intros H. right. now apply (IH seen).
  - intros [H|H]; [now left|right; now apply (IH (y :: seen))].
Qed.

Lemma firstn_subset {A : Type} (n : nat) (l : list A) (x : A) :
  In x (firstn n l) -> In x l.
Proof.
  revert l. induction n as [|n IH]; intros [|y l]; simpl; try tauto.
  intros [H|H]; [now left|right; now apply IH].
Qed.

Lemma sliceTo_In {A : Type} (n : Z) (l : list A) (x : A) :
  In x (sliceTo n l) -> In x l.
Proof.
  unfold sliceTo. destruct (n <? 0); apply firstn_subset.
Qed.

Lemma set_slice_In (deps : list string) (x : string) :
  In x (sliceTo 100 (unique deps)) -> In x deps.
Proof.
  intros H. apply sliceTo_In in H. now apply uniqueFrom_In in H.
Qed.

(** No part of [s.split(sep)] holds the separator. *)
Lemma split_parts (sep : ascii) (s : string) :
  Forall (fun part => existsb (Ascii.eqb sep) (list_ascii_of_string part) = false)
         (split sep s).
Proof.
  induction s as [|c s IH]; cbn [split].
  - repeat constructor.
  - destruct (Ascii.eqb c sep) eqn:E.
    + constructor; [reflexivity|exact IH].
    + pose proof (split_nonempty sep s) as Hne.
      destruct (split sep s) as [|p ps]; [contradiction|].
      inversion IH as [|? ? Hp Hps]; subst. constructor; [|exact Hps].
      cbn [list_ascii_of_string existsb]. rewrite Ascii.eqb_sym, E. exact Hp.
Qed.

Lemma last_In {A : Type} (l : list A) (d : A) : l <> [] -> In (last l d) l.
Proof.
  induction l as [|x l IH]; [congruence|]. intros _.
  destruct l as [|y l]; [now left|]. right. apply IH. discriminate.
Qed.

(** X12. [parseGoMod] returns at most 100 entries, all different; every
    entry is the last segment of a module path: it is not empty, is
    shorter than 50 characters and holds no '/'. *)
Theorem parseGoMod_entries (content : string) :
  NoDup (parseGoMod content) /\
  (List.length (parseGoMod content) <= 100)%nat /\
  (forall x, In x (parseGoMod content) ->
             x <> EmptyString /\ strlen x < 50 /\ hasSeparator x = false).
Proof.
  unfold parseGoMod. destruct (rejected content 100000).
  - split; [constructor|]. split; [simpl; lia|]. intros x [].
  - split; [apply set_slice_bounded|]. split; [apply set_slice_bounded|].
    intros x Hx. apply set_slice_In in Hx. apply in_flat_map in Hx.
    destruct Hx as [line [_ Hx]].
    destruct (matchFirst reRequire line) as [m|]; [|destruct Hx].
    destruct (negb (last (split "/" (capture 1 m)) "" =? "")%string
              && (strlen (last (split "/" (capture 1 m)) "") <? 50)) eqn:E;
      [|destruct Hx].
    destruct Hx as [<-|[]]. apply andb_prop in E. destruct E as [E1 E2].
    repeat split.
    + intros He. rewrite He in E1. discriminate.
    + now apply Z.ltb_lt.
    + pose proof (split_parts "/" (capture 1 m)) as Hparts.
      rewrite Forall_forall in Hparts. apply Hparts.
      apply last_In. apply split_nonempty.
Qed.

Lemma cargoLine_short (lines : list string) (st : bool * list string) :
  Forall (fun x => strlen x < 50) (snd st) ->
  Forall (fun x => strlen x < 50) (snd (fold_left cargoLine lines st)).
Proof.
  revert st. induction lines as [|line lines IH]; intros st H; [exact H|].
  cbn [fold_left]. apply IH. destruct st as [inDeps deps]. unfold cargoLine.
  destruct (test reDependencies line || test reDevDependencies line); [exact H|].
  destruct (test reSection line); [exact H|].
  destruct inDeps; [|exact H].
  destruct (matchFirst reCargoKey line) as [m|]; [|exact H].
  destruct (Z.ltb_spec (strlen (capture 1 m)) 50); [|exact H].
  cbn [snd] in *. apply Forall_app. split; [exact H|]. now repeat constructor.
Qed.

Ltac entry_cases H :=
  repeat match type of H with
         | In _ (match ?m with Some _ => _ | None => _ end) => destruct m
         | In _ (if ?c then _ else _) => let E := fresh "E" in destruct c eqn:E
         | In _ [] => destruct H
         | In _ [_] => destruct H as [<-|[]]
         end.

Ltac cond_facts :=
  repeat match goal with
         | E : (_ && _) = true |- _ => apply andb_prop in E; destruct E
         | E : (_ <? _) = true |- _ => apply Z.ltb_lt in E
         | E : (_ >? _) = true |- _ => apply Z.gtb_lt in E
         end.

(** X13. Each of the seven other parsers that collect into a set returns
    at most 100 entries, all different, and every entry is shorter than
    50 characters; an entry of [parsePomXml] holds no '$' and an entry of
    [parsePyprojectToml] has at least two characters. *)
Theorem set_parsers_entries (content : string) :
  (forall parse,
     In parse [parseCargoToml; parsePomXml; parseBuildGradle; parseGemfile;
               parseCMakeLists; parseSetupPy; parsePyprojectToml] ->
     NoDup (parse content) /\ (List.length (parse content) <= 100)%nat /\
     (forall x, In x (parse content) -> strlen x < 50)) /\
  (forall x, In x (parsePomXml content) -> includes "$" x = false) /\
  (forall x, In x (parsePyprojectToml content) -> 1 < strlen x).
Proof.
  pose proof (set_parsers_bounded content) as [_ [Hc [Hp [Hg [Hgem [Hcm [Hs Ht]]]]]]].
  split; [|split].
  - intros parse Hin. cbn [In] in Hin.
    destruct Hin as [<-|[<-|[<-|[<-|[<-|[<-|[<-|[]]]]]]]];
      (split; [tauto|]); (split; [tauto|]); intros x Hx.
    + unfold parseCargoToml in Hx. destruct (rejected content 100000); [destruct Hx|].
      apply set_slice_In in Hx.
      pose proof (cargoLine_short (split newline content) (false, [])
                    (Forall_nil _)) as Hall.
      rewrite Forall_forall in Hall. now apply Hall.
    + unfold parsePomXml in Hx. destruct (rejected content 500000); [destruct Hx|].
      apply set_slice_In in Hx. apply in_flat_map in Hx. destruct Hx as [m [_ Hx]].
      entry_cases Hx. cond_facts. assumption.
    + unfold parseBuildGradle in Hx. destruct (rejected content 200000); [destruct Hx|].
      apply set_slice_In in Hx. apply in_flat_map in Hx. destruct Hx as [m [_ Hx]].
      entry_cases Hx. cond_facts. assumption.
    + unfold parseGemfile in Hx. destruct (rejected content 100000); [destruct Hx|].
      apply set_slice_In in Hx. apply in_flat_map in Hx. destruct Hx as [m [_ Hx]].
      entry_cases Hx. cond_facts. assumption.
    + unfold parseCMakeLists in Hx. destruct (rejected content 200000); [destruct Hx|].
      apply set_slice_In in Hx. apply in_flat_map in Hx. destruct Hx as [m [_ Hx]].
      entry_cases Hx. cond_facts. assumption.
    + unfold parseSetupPy in Hx. destruct (rejected content 100000); [destruct Hx|].
      apply set_slice_In in Hx.
      destruct (matchFirst reInstallRequires content) as [req|]; [|destruct Hx].
      apply in_flat_map in Hx. destruct Hx as [m [_ Hx]].
      entry_cases Hx. cond_facts. assumption.
    + unfold parsePyprojectToml in Hx. destruct (rejected content 100000); [destruct Hx|].
      apply set_slice_In in Hx. apply in_flat_map in Hx. destruct Hx as [m [_ Hx]].
      entry_cases Hx. cond_facts. assumption.
  - intros x Hx. unfold parsePomXml in Hx.
    destruct (rejected content 500000); [destruct Hx|].
    apply set_slice_In in Hx. apply in_flat_map in Hx. destruct Hx as [m [_ Hx]].
    entry_cases Hx. cond_facts.
    destruct (includes "$" (capture 1 m)); [discriminate|reflexivity].
  - intros x Hx. unfold parsePyprojectToml in Hx.
    destruct (rejected content 100000); [destruct Hx|].
    apply set_slice_In in Hx. apply in_flat_map in Hx. destruct Hx as [m [_ Hx]].
    entry_cases Hx. cond_facts. lia.
Qed.

(** ** The leading identifier of a requirements line *)

Lemma dropWhileChars_length (p : ascii -> bool) (s : string) :
  (String.length (dropWhileChars p s) <= String.length s)%nat.
Proof.
  induction s as [|c s IH]; simpl; [lia|]. destruct (p c); simpl; lia.
Qed.

Lemma consumed_dropWhileChars (p : ascii -> bool) (s : string) :
  consumed s (dropWhileChars p s) = takeWhileChars p s.
Proof.
  unfold consumed. induction s as [|c s IH]; [reflexivity|].
  cbn [dropWhileChars takeWhileChars]. destruct (p c).
  - pose proof (dropWhileChars_length p s) as Hle.
    replace (String.length (String c s) - String.length (dropWhileChars p s))%nat
      with (S (String.length s - String.length (dropWhileChars p s)))
      by (cbn [String.length]; lia).
    cbn [substring]. now rewrite IH.
  - now rewrite Nat.sub_diag.
Qed.

(** A greedy run under a continuation that accepts anything stops where
    the class stops. *)
Lemma run_Many_total (p : ascii -> bool) (caps : list string) (k : Cont)
    (f : string -> MatchState) (s : string) :
  (forall prev rest, k prev rest caps = Some (f rest)) ->
  forall prev, run (Many p) prev s caps k = Some (f (dropWhileChars p s)).
Proof.
  intros Hk. induction s as [|c s IH]; intros prev.
  - cbn. apply Hk.
  - cbn [dropWhileChars]. cbn [run]. destruct (p c) eqn:E.
    + specialize (IH (Some c)). cbn [run] in IH. rewrite IH. reflexivity.
    + apply Hk.
Qed.

Lemma attempt_rePackageName (s : string) :
  attempt rePackageName None s =
  match leadingName s with
  | Some n => Some (dropWhileChars isNameChar s, [n])
  | None => None
  end.
Proof.
  unfold attempt, rePackageName, Some1, leadingName. cbn [run].
  destruct s as [|c s]; [reflexivity|].
  cbn [takeWhileChars dropWhileChars]. destruct (isNameChar c) eqn:E; [|reflexivity].
  cbn [String.eqb].
  pose proof (run_Many_total isNameChar []
    (fun (prev' : option ascii) (s' : string) (caps' : list string) =>
       Some (s', (caps' ++ [consumed (String c s) s'])%list))
    (fun rest => (rest, [consumed (String c s) rest])) s
    (fun _ _ => eq_refl) (Some c)) as Hrun.
  cbn [run] in Hrun. rewrite Hrun. do 3 f_equal.
  pose proof (consumed_dropWhileChars isNameChar (String c s)) as Hc.
  cbn [dropWhileChars takeWhileChars] in Hc. rewrite E in Hc. exact Hc.
Qed.

Lemma searchFrom_Start_later (g : Re) (s : string) (c : ascii) :
  searchFrom (Cat Start g) (Some c) s = None.
Proof.
  revert c. induction s as [|c' s IH]; intros c; cbn [searchFrom attempt run].
  - reflexivity.
  - apply IH.
Qed.

(** The regular expression of [parseRequirementsTxt] takes the leading run
    of name characters of a line, and fails when there is none. *)
Lemma matchFirst_rePackageName (line : string) :
  option_map (capture 1) (matchFirst rePackageName line) = leadingName line.
Proof.
  unfold matchFirst. destruct line as [|c s].
  - reflexivity.
  - cbn [searchFrom]. rewrite attempt_rePackageName.
    destruct (leadingName (String c s)) as [n|] eqn:E.
    + reflexivity.
    + unfold rePackageName. now rewrite searchFrom_Start_later.
Qed.

Lemma takeWhileChars_all (p : ascii -> bool) (s : string) :
  allChars p (takeWhileChars p s) = true.
Proof.
  unfold allChars. induction s as [|c s IH]; [reflexivity|].
  cbn [takeWhileChars]. destruct (p c) eqn:E; [|reflexivity].
  cbn [list_ascii_of_string forallb]. now rewrite E, IH.
Qed.

(** X14. [parseRequirementsTxt] returns at most 500 entries. Every entry
    is the leading run of the characters [a-zA-Z0-9_-] of one of the first
    500 lines, trimmed: it is made of those characters only, is not empty
    and is shorter than 100 characters. A line that starts with '#' or
    with any other character outside the class gives no entry. *)
Theorem parseRequirementsTxt_entries (content : string) :
  (List.length (parseRequirementsTxt content) <= 500)%nat /\
  (forall x, In x (parseRequirementsTxt content) ->
     (exists line, In line (sliceTo 500 (split newline content)) /\
                   x = takeWhileChars isNameChar (trim line)) /\
     allChars isNameChar x = true /\ 0 < strlen x < 100) /\
  (forall line, leadingName line = None ->
     option_map (capture 1) (matchFirst rePackageName line) = None).
Proof.
  split; [apply parseRequirementsTxt_capped|]. split.
  - intros x Hx. unfold parseRequirementsTxt in Hx.
    destruct (rejected content 100000); [destruct Hx|].
    apply in_flat_map in Hx. destruct Hx as [pkg [Hpkg Hx]].
    apply in_map_iff in Hpkg. destruct Hpkg as [line [Hm Hline]].
    rewrite matchFirst_rePackageName in Hm.
    apply filter_In in Hline. destruct Hline as [Hline _].
    apply in_map_iff in Hline. destruct Hline as [raw [<- Hraw]].
    unfold leadingName in Hm.
    destruct (takeWhileChars isNameChar (trim raw) =? "")%string; subst pkg;
      [destruct Hx|].
    destruct ((strlen (takeWhileChars isNameChar (trim raw)) >? 0)
              && (strlen (takeWhileChars isNameChar (trim raw)) <? 100)) eqn:E;
      [|destruct Hx].
    destruct Hx as [<-|[]]. apply andb_prop in E. destruct E as [E1 E2].
    apply Z.gtb_lt in E1. apply Z.ltb_lt in E2.
    repeat split; try assumption.
    + exists raw. split; [exact Hraw|reflexivity].
    + apply takeWhileChars_all.
  - intros line H. now rewrite matchFirst_rePackageName.
Qed.

(** ** The README analyzer: the shape of its result *)

Lemma toLowerChar_idem (c : ascii) : toLowerChar (toLowerChar c) = toLowerChar c.
Proof.
  unfold toLowerChar at 2 3. unfold charCode.
  destruct ((65 <=? N_of_ascii c) && (N_of_ascii c <=? 90))%N eqn:E; [|unfold toLowerChar, charCode; now rewrite E].
  apply andb_prop in E. destruct E as [E1 E2].
  apply N.leb_le in E1. apply N.leb_le in E2.
  unfold toLowerChar, charCode. rewrite N_ascii_embedding by lia.
  destruct (N.leb_spec (N_of_ascii c + 32) 90); [lia|].
  now rewrite andb_false_r.
Qed.

Lemma toLowerCase_idem (s : string) : toLowerCase (toLowerCase s) = toLowerCase s.
Proof.
  induction s as [|c s IH]; [reflexivity|]. cbn [toLowerCase].
  now rewrite toLowerChar_idem, IH.
Qed.

(** X15. Whatever the text, [parseReadme] names one of seven project
    types, and its [mentions] are at most 50 entries, each in lower case
    and of 2 to 49 characters. *)
Theorem parseReadme_shape (content : string) :
  In (projectType (parseReadme content))
     ["application"; "library"; "api"; "cli-tool"; "dashboard"; "mobile-app"; "website"] /\
  (List.length (mentions (parseReadme content)) <= 50)%nat /\
  (forall m, In m (mentions (parseReadme content)) ->
             toLowerCase m = m /\ 1 < strlen m < 50).
Proof.
  unfold parseReadme. cbv zeta. cbn [projectType mentions]. split; [|split].
  - destruct (test reWebsite _); [cbn; tauto|].
    destruct (test reMobile _); [cbn; tauto|].
    destruct (test reDashboard _); [cbn; tauto|].
    destruct (test reCli _); [cbn; tauto|].
    destruct (test reApi _); [cbn; tauto|].
    destruct (test reLibrary _); cbn; tauto.
  - rewrite sliceTo_firstn by lia. rewrite length_firstn.
    change (Z.to_nat 50) with 50%nat. lia.
  - intros m Hm. apply sliceTo_In in Hm. apply filter_In in Hm.
    destruct Hm as [Hm Hlen]. apply in_map_iff in Hm. destruct Hm as [raw [<- _]].
    apply andb_prop in Hlen. destruct Hlen as [H1 H2].
    apply Z.gtb_lt in H1. apply Z.ltb_lt in H2.
    split; [apply toLowerCase_idem|lia].
Qed.

Lemma takeChars_app (n : N) (s extra : string) :
  (n <= N.of_nat (String.length s))%N ->
  takeChars n (s ++ extra) = takeChars n s.
Proof.
  revert n. induction s as [|c s IH]; intros n H.
  - cbn [String.length] in H. assert (n = 0%N) by lia. subst.
    destruct extra; reflexivity.
  - cbn [append takeChars]. destruct (N.eqb_spec n 0); [reflexivity|].
    f_equal. apply IH. cbn [String.length] in H. lia.
Qed.

(** X16. What stands after the first 50,000 characters of a README never
    changes its project type, nor its demo and documentation flags. *)
Theorem parseReadme_tail_ignored (content extra : string) :
  50000 <= strlen content ->
  projectType (parseReadme (content ++ extra)) = projectType (parseReadme content) /\
  hasDemo (parseReadme (content ++ extra)) = hasDemo (parseReadme content) /\
  hasDocs (parseReadme (content ++ extra)) = hasDocs (parseReadme content).
Proof.
  intros H. apply parseReadme_truncated_fields.
  apply takeChars_app. unfold strlen in H. lia.
Qed.

(** ** The contributor aggregate *)

Lemma sum_from (l : list (option Contributor)) (a : Z) :
  fold_left (fun sum c => sum + contributionsOf c) l a
  = a + totalContributions l.
Proof.
  unfold totalContributions. revert a.
  induction l as [|x l IH]; intros a; cbn [fold_left]; [lia|].
  rewrite IH, (IH (0 + contributionsOf x)). lia.
Qed.

Lemma totalContributions_cons (x : option Contributor) (l : list (option Contributor)) :
  totalContributions (x :: l) = contributionsOf x + totalContributions l.
Proof.
  unfold totalContributions at 1. cbn [fold_left]. now rewrite sum_from.
Qed.

Lemma totalContributions_app (l1 l2 : list (option Contributor)) :
  totalContributions (l1 ++ l2) = totalContributions l1 + totalContributions l2.
Proof.
  induction l1 as [|x l1 IH]; [reflexivity|].
  cbn [app]. rewrite !totalContributions_cons, IH. lia.
Qed.

Lemma totalContributions_bounds (l : list (option Contributor)) :
  Forall (fun c => 0 <= contributionsOf c) l ->
  0 <= totalContributions l /\
  (forall x, In x l -> contributionsOf x <= totalContributions l).
Proof.
  induction 1 as [|y l Hy Hl [IH0 IH]].
  - split; [reflexivity|intros x []].
  - rewrite totalContributions_cons. split; [lia|].
    intros x [<-|Hx]; [lia|]. specialize (IH x Hx). lia.
Qed.

Section CommitCountFacts.

Variable contributorsPage : string -> string -> Z -> ContributorsUpstream.

(** Everything the loop returns was in the list at its start or on a
    page of the endpoint. *)
Lemma collectContributors_from_pages (P : option Contributor -> Prop)
    (owner_ repo_ : string) (username : option string) (timeoutMs : Z) :
  (forall page ok cs,
     contributorsResponse (contributorsPage owner_ repo_ page)
     = ContributorsResponds ok (ContributorsArray cs) -> Forall P cs) ->
  forall pagesLeft page elapsed acc res,
    Forall P acc ->
    collectContributors contributorsPage owner_ repo_ username timeoutMs
                        pagesLeft page elapsed acc = Ok res ->
    Forall P res.
Proof.
  intros Hpages. induction pagesLeft as [|n IH]; intros page elapsed acc res Hacc Hres.
  - cbn in Hres. now injection Hres as <-.
  - cbn [collectContributors] in Hres.
    destruct (timeoutMs <=? elapsed + _); [discriminate|].
    destruct (contributorsResponse (contributorsPage owner_ repo_ page))
      as [e|ok body] eqn:Hresp; [discriminate|].
    destruct ok; cbn [negb] in Hres; [|now injection Hres as <-].
    destruct body as [e| |cs]; [discriminate|now injection Hres as <-|].
    destruct (List.length cs =? 0)%nat; [now injection Hres as <-|].
    assert (Hall : Forall P (acc ++ cs)).
    { apply Forall_app. split; [exact Hacc|]. eapply Hpages. exact Hresp. }
    unfold bind in Hres.
    destruct (match username with Some name => _ | None => Ok false end)
      as [found|e]; [|discriminate].
    destruct (found && (List.length cs <? 100)%nat); [now injection Hres as <-|].
    destruct (List.length cs <? 100)%nat; [now injection Hres as <-|].
    eapply IH; eassumption.
Qed.

(** X17. When no contributor has a negative count, [fetchCommitCount]
    never attributes more commits to the user than it counts in all, and
    neither number is negative. *)
Theorem fetchCommitCount_user_within_total
    (token owner_ repo_ : string) (username : option string)
    (timeoutMs : option Z) (d : CommitData) :
  (forall page ok cs c n,
     contributorsResponse (contributorsPage owner_ repo_ page)
     = ContributorsResponds ok (ContributorsArray cs) ->
     In (Some c) cs -> contributions c = Some n -> 0 <= n) ->
  fetchCommitCount contributorsPage token owner_ repo_ username timeoutMs = Ok d ->
  0 <= userContributions d <= total d.
Proof.
  intros Hnonneg Hres. unfold fetchCommitCount, tryCatch, bind in Hres.
  destruct (collectContributors _ _ _ _ _ _ _ _ _) as [res|e] eqn:Hc;
    [|injection Hres as <-; cbn; lia].
  assert (Hall : Forall (fun c => 0 <= contributionsOf c) res).
  { eapply collectContributors_from_pages; [|constructor|exact Hc].
    intros page ok cs Hresp. apply Forall_forall. intros [c|] Hin; [|cbn; lia].
    cbn. destruct (contributions c) as [n|] eqn:En; [|cbn; lia].
    cbn. eapply Hnonneg; eassumption. }
  destruct (totalContributions_bounds res Hall) as [H0 Hle].
  destruct (List.length res =? 0)%nat; injection Hres as <-; cbn [userContributions total];
    [lia|].
  destruct username as [name|]; [|lia].
  destruct (truthy (Some name) && (0 <? strlen (trim name))); [|lia].
  destruct (find (loginIs (trim (toLowerCase name))) res) as [c|] eqn:Hf.
  - apply find_some in Hf. destruct Hf as [Hin _].
    rewrite Forall_forall in Hall. split; [now apply Hall|now apply Hle].
  - cbn. lia.
Qed.

End CommitCountFacts.

(** The loop reads pages 1 to 3 and no other. *)
Lemma collectContributors_three_pages
    (f g : string -> string -> Z -> ContributorsUpstream)
    (owner_ repo_ : string) (username : option string) (timeoutMs : Z) :
  (forall page, 1 <= page <= 3 -> f owner_ repo_ page = g owner_ repo_ page) ->
  forall pagesLeft page elapsed acc,
    page + Z.of_nat pagesLeft = 4 -> 1 <= page ->
    collectContributors f owner_ repo_ username timeoutMs pagesLeft page elapsed acc
    = collectContributors g owner_ repo_ username timeoutMs pagesLeft page elapsed acc.
Proof.
  intros Hfg. induction pagesLeft as [|n IH]; intros page elapsed acc Hsum Hpage;
    [reflexivity|].
  cbn [collectContributors]. rewrite (Hfg page) by lia.
  destruct (timeoutMs <=? _); [reflexivity|].
  destruct (contributorsResponse _) as [e|ok body]; [reflexivity|].
  destruct (negb ok); [reflexivity|].
  destruct body as [e| |cs]; try reflexivity.
  destruct (List.length cs =? 0)%nat; [reflexivity|].
  unfold bind. destruct (match username with Some name => _ | None => Ok false end);
    [|reflexivity].
  destruct (_ && _); [reflexivity|].
  destruct (List.length cs <? 100)%nat; [reflexivity|].
  apply IH; lia.
Qed.

(** X18. [fetchCommitCount] asks for three pages of contributors at most:
    two upstreams that agree on pages 1, 2 and 3 give the same totals,
    whatever stands on later pages. *)
Theorem fetchCommitCount_three_pages
    (f g : string -> string -> Z -> ContributorsUpstream)
    (token owner_ repo_ : string) (username : option string) (timeoutMs : option Z) :
  (forall page, 1 <= page <= 3 -> f owner_ repo_ page = g owner_ repo_ page) ->
  fetchCommitCount f token owner_ repo_ username timeoutMs
  = fetchCommitCount g token owner_ repo_ username timeoutMs.
Proof.
  intros Hfg. unfold fetchCommitCount.
  rewrite (collectContributors_three_pages f g owner_ repo_ username _ Hfg); [reflexivity| |];
    cbn; lia.
Qed.

Lemma someLogin_no_null (target : string) (cs : list (option Contributor)) :
  Forall (fun c => c <> None) cs -> exists b, someLogin target cs = Ok b.
Proof.
  induction 1 as [|[c|] cs Hc _ IH]; cbn [someLogin]; [eauto| |congruence].
  destruct (match contributor_login c with Some l => _ | None => false end); eauto.
Qed.

(** X19. A failure on the second page of contributors, after a full first
    page: a response that is not 2xx ends the loop and the totals of the
    first page are returned; a rejected request or the expiry of the
    timer discards the first page too and the result is [{0, 0}]. *)
Theorem fetchCommitCount_second_page_failure
    (contributorsPage : string -> string -> Z -> ContributorsUpstream)
    (token owner_ repo_ : string) (username : option string) (timeoutMs : option Z)
    (latency1 : Z) (firstPage : list (option Contributor)) :
  contributorsPage owner_ repo_ 1
  = mkContributorsUpstream latency1 (ContributorsResponds true (ContributorsArray firstPage)) ->
  List.length firstPage = 100%nat ->
  Forall (fun c => c <> None) firstPage ->
  latency1 < match timeoutMs with Some t => t | None => 10000 end ->
  let second := contributorsPage owner_ repo_ 2 in
  let timeout := match timeoutMs with Some t => t | None => 10000 end in
  let result := fetchCommitCount contributorsPage token owner_ repo_ username timeoutMs in
  (forall body,
     contributorsResponse second = ContributorsResponds false body ->
     latency1 + contributorsLatencyMs second < timeout ->
     exists d, result = Ok d /\ total d = totalContributions firstPage) /\
  (forall e,
     contributorsResponse second = ContributorsRequestRejects e ->
     result = Ok (mkCommitData 0 0)) /\
  (timeout <= latency1 + contributorsLatencyMs second ->
   result = Ok (mkCommitData 0 0)).
Proof.
  intros H1 Hlen Hnull Hlat second timeout result.
  assert (Hloop :
    collectContributors contributorsPage owner_ repo_ username timeout 3 1 0 []
    = collectContributors contributorsPage owner_ repo_ username timeout 2 2 latency1
        firstPage).
  { cbn [collectContributors]. rewrite H1.
    cbn [contributorsLatencyMs contributorsResponse negb].
    destruct (Z.leb_spec timeout (0 + latency1)); [unfold timeout in *; lia|].
    rewrite Hlen. cbn [Nat.eqb Nat.ltb Nat.leb andb app].
    replace (0 + latency1) with latency1 by lia.
    change (1 + 1 + 1) with 3. change (1 + 1) with 2. change (2 + 1) with 3.
    destruct username as [name|]; [|reflexivity].
    destruct (truthy (Some name)); [|reflexivity].
    destruct (someLogin_no_null (toLowerCase name) firstPage Hnull) as [b Hb].
    rewrite Hb. cbn [bind]. rewrite andb_false_r. reflexivity. }
  assert (Hne : (List.length firstPage =? 0)%nat = false) by now rewrite Hlen.
  unfold result, fetchCommitCount. fold timeout. rewrite Hloop.
  cbn [collectContributors]. fold second.
  split; [|split].
  - intros body Hresp Ht. rewrite Hresp.
    destruct (Z.leb_spec timeout (latency1 + contributorsLatencyMs second)); [lia|].
    cbn [negb bind tryCatch]. rewrite Hne. eexists. split; reflexivity.
  - intros e Hresp. rewrite Hresp.
    destruct (timeout <=? latency1 + contributorsLatencyMs second); reflexivity.
  - intros Ht.
    destruct (Z.leb_spec timeout (latency1 + contributorsLatencyMs second)); [reflexivity|lia].
Qed.

(** ** The repository listing *)

(** X20. Whatever the upstream answers, a list that [fetchAllRepos]
    returns has no two entries with one id, every entry has an owner and
    a name in [full_name], and every fork in it is the user's own and has
    at least 20 stars or at least 10 forks. *)
Theorem fetchAllRepos_result
    (userReposPage : string -> Z -> ReposResponse)
    (publicReposPage : string -> string -> Z -> ReposResponse)
    (token username : string) (repos : list GitHubRepo) :
  fetchAllRepos userReposPage publicReposPage token username = Value repos ->
  NoDup (map id repos) /\
  (forall r, In r repos ->
     hasSeparator (full_name r) = true /\
     (fork r = true ->
      isOwnRepo (trim username) r = true /\
      (20 <= numberOr0 (stargazers_count r) \/ 10 <= numberOr0 (forks_count r)))).
Proof.
  unfold fetchAllRepos. destruct (_ || _); [discriminate|].
  destruct (collectRepos _ _ _ _ _ _ _) as [raw|msg]; [|discriminate].
  intros H. injection H as <-. split.
  - unfold userRelevantRepos. apply NoDup_map_filter, uniqueRepos_NoDup_ids.
  - intros r Hr. unfold userRelevantRepos in Hr. apply filter_In in Hr.
    destruct Hr as [_ Hr].
    assert (Hnot : ~ removedByPrefilter (trim username) r).
    { intros Hrem. apply isUserRelevant_false_iff in Hrem. congruence. }
    unfold removedByPrefilter in Hnot.
    destruct (hasSeparator (full_name r)); [|tauto]. split; [reflexivity|].
    intros Hfork. destruct (isOwnRepo (trim username) r); [|tauto].
    split; [reflexivity|].
    destruct (Z.le_gt_cases 20 (numberOr0 (stargazers_count r))); [now left|].
    destruct (Z.le_gt_cases 10 (numberOr0 (forks_count r))); [now right|].
    exfalso. apply Hnot. right. right. repeat split; auto; lia.
Qed.

(** X21. Failures of the listing. With a token and a username, a network
    error or a rate-limit answer (403 or 429) on the first page is thrown
    to the caller; the same failure on the second page, after a full
    first page, is not: the first page is filtered and returned. *)
Theorem fetchAllRepos_failures
    (userReposPage : string -> Z -> ReposResponse)
    (publicReposPage : string -> string -> Z -> ReposResponse)
    (token username : string) :
  token <> EmptyString -> username <> EmptyString ->
  let result := fetchAllRepos userReposPage publicReposPage token username in
  (userReposPage (trim token) 1 = ReposNetworkError ->
   result = Raise "Network error: Unable to fetch repositories. Please check your internet connection.") /\
  (forall status body,
     userReposPage (trim token) 1 = ReposStatus status body ->
     status = 403 \/ status = 429 ->
     result = Raise "GitHub API Rate Limit Exceeded. Please try again later.") /\
  (forall status data,
     userReposPage (trim token) 1 = ReposStatus status (ReposArray data) ->
     statusOk status = true -> (100 <= List.length data)%nat ->
     (userReposPage (trim token) 2 = ReposNetworkError \/
      exists status2 body2,
        userReposPage (trim token) 2 = ReposStatus status2 body2 /\
        (status2 = 403 \/ status2 = 429)) ->
     result = Value (userRelevantRepos data username)).
Proof.
  intros Htok Huser result. unfold result, fetchAllRepos.
  apply String.eqb_neq in Htok. apply String.eqb_neq in Huser.
  rewrite Htok, Huser. cbn [orb]. unfold MAX_PAGES.
  split; [|split].
  - intros H. cbn [collectRepos]. rewrite H. reflexivity.
  - intros status body H Hs. cbn [collectRepos]. rewrite H.
    destruct Hs as [-> | ->]; reflexivity.
  - intros status data H Hok Hlen Hsecond.
    cbn [collectRepos]. rewrite H, Hok.
    assert (Hs : (status =? 403) || (status =? 429) = false).
    { unfold statusOk in Hok. apply andb_prop in Hok. destruct Hok as [Ha Hb].
      apply Z.leb_le in Ha. apply Z.leb_le in Hb.
      destruct (Z.eqb_spec status 403); [lia|].
      destruct (Z.eqb_spec status 429); [lia|reflexivity]. }
    rewrite Hs. unfold takePage, REPOS_PER_PAGE.
    destruct (Nat.eqb_spec (List.length data) 0); [lia|].
    destruct (Nat.ltb_spec (List.length data) 100); [lia|].
    cbn [negb app]. change (1 + 1) with 2.
    assert (Hpos : (0 <? List.length data)%nat = true) by (apply Nat.ltb_lt; lia).
    destruct Hsecond as [H2|[status2 [body2 [H2 Hs2]]]]; rewrite H2.
    + now rewrite Hpos.
    + destruct Hs2 as [-> | ->]; cbn [Z.eqb orb]; now rewrite Hpos.
Qed.

Lemma collectRepos_pages
    (u1 u2 : string -> Z -> ReposResponse)
    (p1 p2 : string -> string -> Z -> ReposResponse)
    (trimmedToken trimmedUsername : string) :
  (forall page, 1 <= page <= 3 -> u1 trimmedToken page = u2 trimmedToken page) ->
  p1 trimmedToken trimmedUsername 1 = p2 trimmedToken trimmedUsername 1 ->
  forall pagesLeft page repos,
    page + Z.of_nat pagesLeft = 4 -> 1 <= page ->
    collectRepos u1 p1 trimmedToken trimmedUsername pagesLeft page repos
    = collectRepos u2 p2 trimmedToken trimmedUsername pagesLeft page repos.
Proof.
  intros Hu Hp. induction pagesLeft as [|n IH]; intros page repos Hsum Hpage;
    [reflexivity|].
  cbn [collectRepos]. rewrite (Hu page) by lia.
  destruct (u2 trimmedToken page) as [|status body]; [reflexivity|].
  destruct (_ || _); [reflexivity|].
  destruct (statusOk status).
  - destruct (takePage repos body) as [repos' more].
    destruct more; [apply IH; lia|reflexivity].
  - destruct (Z.eqb_spec page 1) as [->|Hne]; [|reflexivity].
    rewrite Hp. destruct (p2 trimmedToken trimmedUsername 1) as [|ps pb]; [reflexivity|].
    destruct (statusOk ps); [|reflexivity].
    destruct (takePage repos pb) as [repos' more].
    destruct more; [apply IH; lia|reflexivity].
Qed.

(** X22. [fetchAllRepos] reads three pages of the user's repositories at
    most, and the public endpoint for the first page only: two upstreams
    that agree on those requests give the same result. *)
Theorem fetchAllRepos_requests
    (u1 u2 : string -> Z -> ReposResponse)
    (p1 p2 : string -> string -> Z -> ReposResponse)
    (token username : string) :
  (forall page, 1 <= page <= 3 -> u1 (trim token) page = u2 (trim token) page) ->
  p1 (trim token) (trim username) 1 = p2 (trim token) (trim username) 1 ->
  fetchAllRepos u1 p1 token username = fetchAllRepos u2 p2 token username.
Proof.
  intros Hu Hp. unfold fetchAllRepos.
  destruct (_ || _); [reflexivity|].
  rewrite (collectRepos_pages u1 u2 p1 p2 _ _ Hu Hp); [reflexivity| |];
    unfold MAX_PAGES; cbn; lia.
Qed.

(** ** The JSON-based parsers *)

Lemma objectKeys_orElse (v : option Json) :
  exists keys, objectKeys (orElse v (JObject [])) = Ok keys.
Proof.
  unfold orElse. destruct v as [x|]; [|cbn; eauto].
  destruct (truthyJson (Some x)) eqn:E; [|cbn; eauto].
  destruct x; try discriminate; cbn; eauto.
Qed.

Lemma sliceTo_length {A : Type} (n : Z) (l : list A) :
  0 <= n -> (List.length (sliceTo n l) <= Z.to_nat n)%nat.
Proof.
  intros Hn. rewrite sliceTo_firstn by exact Hn. rewrite length_firstn. lia.
Qed.

(** X23. [parsePackageJson] returns a result exactly when the content is
    not empty, has at most 500,000 characters and parses to an object or
    an array, whatever the fields of that object hold; every other content
    gives [null]. The result lists at most 200 dependencies, 200
    development dependencies and 50 scripts, and its description has at
    most 500 characters. *)
Theorem parsePackageJson_result (jsonParse : string -> option Json) (content : string) :
  match parsePackageJson jsonParse content with
  | Some p =>
      rejected content 500000 = false /\
      (exists pkg, jsonParse content = Some pkg /\ isObject pkg = true) /\
      (List.length (dependencies p) <= 200)%nat /\
      (List.length (devDependencies p) <= 200)%nat /\
      (List.length (scripts p) <= 50)%nat /\
      (forall d, pkg_description p = Some d -> strlen d <= 500)
  | None =>
      rejected content 500000 = true \/ jsonParse content = None \/
      exists pkg, jsonParse content = Some pkg /\ isObject pkg = false
  end.
Proof.
  unfold parsePackageJson, parseJson.
  destruct (rejected content 500000); [now left|].
  destruct (jsonParse content) as [pkg|]; cbn [bind]; [|right; now left].
  destruct (isObject pkg) eqn:Hobj; cbn [negb]; [|right; right; eauto].
  destruct (objectKeys_orElse (getField pkg "dependencies")) as [deps ->].
  destruct (objectKeys_orElse (getField pkg "devDependencies")) as [devDeps ->].
  destruct (objectKeys_orElse (getField pkg "scripts")) as [names ->].
  cbn [bind dependencies devDependencies scripts pkg_description].
  split; [reflexivity|]. split; [eauto|].
  split; [apply (sliceTo_length 200); lia|].
  split; [apply (sliceTo_length 200); lia|].
  split; [apply (sliceTo_length 50); lia|].
  intros d Hd. destruct (getField pkg "description") as [[| | |s| |]|]; try discriminate.
  injection Hd as <-. pose proof (takeChars_length 500 s). unfold strlen. lia.
Qed.

(** A pattern without groups hands the captures on as they are. *)
Lemma run_groupFree (r : Re) :
  groupFree r = true ->
  forall prev s caps k st,
    run r prev s caps k = Some st -> exists prev' s', k prev' s' caps = Some st.
Proof.
  induction r as [|p|a IHa b IHb|a IHa b IHb|a IHa|p|p| | | |a IHa];
    intros Hg prev s caps k st H; cbn [run] in H; cbn [groupFree] in Hg.
  - eauto.
  - destruct s as [|c s]; [discriminate|]. destruct (p c); [eauto|discriminate].
  - apply andb_prop in Hg. destruct Hg as [Ha Hb].
    apply (IHa Ha) in H. destruct H as [p1 [s1 H]]. now apply (IHb Hb) in H.
  - apply andb_prop in Hg. destruct Hg as [Ha Hb].
    destruct (run a prev s caps k) eqn:E.
    + injection H as <-. now apply (IHa Ha) in E.
    + now apply (IHb Hb) in H.
  - destruct (run a prev s caps k) eqn:E.
    + injection H as <-. now apply (IHa Hg) in E.
    + eauto.
  - revert prev H. induction s as [|c s IHs]; intros prev H; [eauto|].
    destruct (p c); [|eauto].
    match type of H with
    | match ?m with Some _ => _ | None => _ end = _ => destruct m eqn:E
    end; [|eauto].
    injection H as <-. now apply IHs in E.
  - revert prev H. induction s as [|c s IHs]; intros prev H.
    + destruct (k prev "" caps) eqn:E; [injection H as <-; eauto|discriminate].
    + destruct (k prev (String c s) caps) eqn:E; [injection H as <-; eauto|].
      destruct (p c); [|discriminate]. now apply IHs in H.
  - destruct (xorb _ _); [eauto|discriminate].
  - destruct prev; [discriminate|eauto].
  - destruct prev as [c|]; [|eauto]. destruct (isLineTerminator c); [eauto|discriminate].
  - discriminate.
Qed.

(** What a match of the import pattern captures. *)
Lemma attempt_reImport (prev : option ascii) (s rest : string) (caps : list string) :
  attempt reImport prev s = Some (rest, caps) ->
  exists w, caps = [w] /\ allChars isWordChar w = true.
Proof.
  unfold attempt, reImport. cbn [seqOf run]. intros H.
  apply (run_groupFree (Or (lit "import") (lit "from")) eq_refl) in H.
  destruct H as [p1 [s1 H]].
  apply (run_groupFree (Some1 isWhiteSpace) eq_refl) in H.
  destruct H as [p2 [s2 H]].
  unfold Some1 in H. cbn [run] in H.
  destruct s2 as [|c s2]; [discriminate|].
  destruct (isWordChar c) eqn:E; [|discriminate].
  pose proof (run_Many_total isWordChar []
    (fun (prev' : option ascii) (s' : string) (caps' : list string) =>
       Some (s', (caps' ++ [consumed (String c s2) s'])%list))
    (fun rest => (rest, [consumed (String c s2) rest])) s2
    (fun _ _ => eq_refl) (Some c)) as Hrun.
  cbn [run] in Hrun. rewrite Hrun in H. injection H as _ <-.
  eexists. split; [reflexivity|].
  pose proof (consumed_dropWhileChars isWordChar (String c s2)) as Hc.
  cbn [dropWhileChars takeWhileChars] in Hc. rewrite E in Hc. rewrite Hc.
  pose proof (takeWhileChars_all isWordChar (String c s2)) as Hall.
  cbn [takeWhileChars] in Hall. now rewrite E in Hall.
Qed.

Lemma matchAllFrom_In (r : Re) (m : Match) (s : string) :
  forall skip prev,
    In m (matchAllFrom r skip prev s) ->
    exists prev' s' rest, attempt r prev' s' = Some (rest, snd m).
Proof.
  induction s as [|c s IH]; intros skip prev H.
  - destruct skip; cbn [matchAllFrom] in H; [|destruct H].
    destruct (attempt r prev "") as [[rest caps]|] eqn:E; [|destruct H].
    destruct H as [<-|[]]. cbn [snd]. eauto.
  - destruct skip; cbn [matchAllFrom] in H; [|now apply IH in H].
    destruct (attempt r prev (String c s)) as [[rest caps]|] eqn:E.
    + destruct H as [<-|H]; [cbn [snd]; eauto|now apply IH in H].
    + now apply IH in H.
Qed.

Lemma sourceImports_entries (source x : string) :
  In x (sourceImports source) ->
  x <> EmptyString /\ strlen x < 50 /\ allChars isWordChar x = true.
Proof.
  unfold sourceImports. intros H. apply in_flat_map in H.
  destruct H as [m [Hm H]].
  destruct (negb (capture 1 m =? "")%string && (strlen (capture 1 m) <? 50)) eqn:E;
    [|destruct H].
  destruct H as [<-|[]]. apply andb_prop in E. destruct E as [E1 E2].
  split; [intros He; rewrite He in E1; discriminate|].
  split; [now apply Z.ltb_lt|].
  apply matchAllFrom_In in Hm. destruct Hm as [prev' [s' [rest Hm]]].
  apply attempt_reImport in Hm. destruct Hm as [w [Hw Hall]].
  unfold capture. rewrite Hw. exact Hall.
Qed.

Lemma cellImports_entries (jsonParse_numberToString : Q -> string)
    (P : string -> Prop) (cells : list Json) :
  (forall source x, In x (sourceImports source) -> P x) ->
  forall imports found,
    Forall P imports ->
    cellImports jsonParse_numberToString cells imports = Ok found ->
    Forall P found.
Proof.
  intros HP. induction cells as [|cell cells IH]; intros imports found Hall H.
  - cbn [cellImports] in H. injection H as <-. exact Hall.
  - cbn [cellImports] in H.
    destruct (cellSource jsonParse_numberToString cell) as [[source|]|e];
      cbn [bind] in H; [| |discriminate].
    + apply IH in H; [exact H|]. apply Forall_app. split; [exact Hall|].
      apply Forall_forall. intros x Hx. now apply (HP source).
    + now apply IH in H.
Qed.

(** X24. The imports [parseJupyterNotebook] returns are all different and
    at most 100; each one is a non-empty run of the characters
    [a-zA-Z0-9_], shorter than 50 characters. A notebook for which no
    import is returned is flagged neither as machine learning nor as data
    science. *)
Theorem parseJupyterNotebook_entries (jsonParse : string -> option Json)
    (numberToString : Q -> string) (content : string) :
  NoDup (imports (parseJupyterNotebook jsonParse numberToString content)) /\
  (List.length (imports (parseJupyterNotebook jsonParse numberToString content))
   <= 100)%nat /\
  (forall x, In x (imports (parseJupyterNotebook jsonParse numberToString content)) ->
             x <> EmptyString /\ strlen x < 50 /\ allChars isWordChar x = true) /\
  (imports (parseJupyterNotebook jsonParse numberToString content) = [] ->
   isML (parseJupyterNotebook jsonParse numberToString content) = false /\
   notebook_isDataScience (parseJupyterNotebook jsonParse numberToString content)
   = false).
Proof.
  assert (Hempty : NoDup (@nil string) /\ (List.length (@nil string) <= 100)%nat /\
                   (forall x, In x (@nil string) ->
                      x <> EmptyString /\ strlen x < 50 /\
                      allChars isWordChar x = true) /\
                   (@nil string = [] -> false = false /\ false = false)).
  { split; [constructor|]. split; [simpl; lia|]. split; [intros x []|auto]. }
  unfold parseJupyterNotebook.
  destruct (rejected content 5000000); [exact Hempty|].
  destruct (parseJson jsonParse content) as [notebook|e]; cbn [bind]; [|exact Hempty].
  destruct (match notebook with JNull => Throw _ | _ => Ok _ end) as [v|e];
    cbn [bind]; [|exact Hempty].
  destruct (iterate v) as [cells|e]; cbn [bind]; [|exact Hempty].
  destruct (cellImports numberToString cells []) as [found|e] eqn:Hfound;
    cbn [bind]; [|exact Hempty].
  cbn [imports isML notebook_isDataScience].
  split; [apply set_slice_bounded|]. split; [apply set_slice_bounded|]. split.
  - intros x Hx. apply set_slice_In in Hx.
    pose proof (cellImports_entries numberToString
                  (fun x => x <> EmptyString /\ strlen x < 50 /\
                            allChars isWordChar x = true)
                  cells sourceImports_entries [] found (Forall_nil _) Hfound) as Hall.
    rewrite Forall_forall in Hall. now apply Hall.
  - intros Hnil. destruct (unique found) as [|y l]; [split; reflexivity|].
    discriminate.
Qed.

Lemma cellImports_null (numberToString : Q -> string) (cells : list Json) :
  In JNull cells ->
  forall imports, exists e, cellImports numberToString cells imports = Throw e.
Proof.
  induction cells as [|cell cells IH]; intros Hin imports; [destruct Hin|].
  cbn [cellImports].
  destruct (cellSource numberToString cell) as [[source|]|e] eqn:E; cbn [bind].
  - destruct Hin as [->|Hin]; [discriminate|]. now apply IH.
  - destruct Hin as [->|Hin]; [discriminate|]. now apply IH.
  - eauto.
Qed.

(** X25. A [null] among the cells of a notebook voids the whole analysis:
    reading its [cell_type] throws, so the imports of all the other cells
    are dropped and both flags are false. *)
Theorem parseJupyterNotebook_null_cell (jsonParse : string -> option Json)
    (numberToString : Q -> string) (content : string) (notebook : Json)
    (cells : list Json) :
  jsonParse content = Some notebook ->
  getField notebook "cells" = Some (JArray cells) ->
  In JNull cells ->
  parseJupyterNotebook jsonParse numberToString content = mkNotebookData [] false false.
Proof.
  intros Hparse Hcells Hnull. unfold parseJupyterNotebook, parseJson.
  destruct (rejected content 5000000); [reflexivity|].
  rewrite Hparse. cbn [bind].
  destruct notebook; try discriminate. rewrite Hcells. cbn [orElse truthyJson iterate bind].
  destruct (cellImports_null numberToString cells Hnull []) as [e ->]. reflexivity.
Qed.

(** ** The enrichment of one repository *)

Lemma fetchCommitCount_never_throws
    (contributorsPage : string -> string -> Z -> ContributorsUpstream)
    (token owner_ repo_ : string) (username : option string) (timeoutMs : option Z) :
  exists c, fetchCommitCount contributorsPage token owner_ repo_ username timeoutMs = Ok c.
Proof.
  unfold fetchCommitCount, tryCatch.
  destruct (collectContributors _ _ _ _ _ _ _ _ _) as [all|e]; cbn [bind]; [|eauto].
  destruct (List.length all =? 0)%nat; eauto.
Qed.

Lemma fetchLanguages_never_throws
    (languagesEndpoint : string -> string -> LanguagesUpstream)
    (token owner_ repo_ : string) (timeoutMs : option Z) :
  exists l, fetchLanguages languagesEndpoint token owner_ repo_ timeoutMs = Ok l.
Proof.
  unfold fetchLanguages, tryCatch.
  destruct (timeoutOr5000 timeoutMs <=? _); [eauto|].
  destruct (languagesResponse _) as [e|ok body]; [eauto|].
  destruct ok; cbn [negb]; [|eauto]. destruct body; eauto.
Qed.

Lemma fetchWhen_never_throws (env : Base64Env) (upstream : string -> Upstream)
    (wanted : bool) (token owner_ repo_ path : string)
    (timeoutMs maxSizeBytes : option Z) :
  exists f, fetchWhen env upstream wanted token owner_ repo_ path timeoutMs maxSizeBytes
            = Ok f.
Proof.
  unfold fetchWhen. destruct wanted; [apply fetch_never_throws|eauto].
Qed.

Ltac settle_core :=
  repeat match goal with
         | |- context [bind (fetchFileContent ?e ?u ?t ?o ?n ?p ?a ?b) _] =>
             let f := fresh "file" in
             let H := fresh "Hfile" in
             destruct (fetch_never_throws e u t o n p a b) as [f H];
             rewrite H; cbn [bind]
         | |- context [bind (fetchCommitCount ?c ?t ?o ?n ?u ?a) _] =>
             let f := fresh "fetchedCommits" in
             let H := fresh "Hcommits" in
             destruct (fetchCommitCount_never_throws c t o n u a) as [f H];
             rewrite H; cbn [bind]
         | |- context [bind (fetchLanguages ?l ?t ?o ?n ?a) _] =>
             let f := fresh "fetchedLanguages" in
             let H := fresh "Hlanguages" in
             destruct (fetchLanguages_never_throws l t o n a) as [f H];
             rewrite H; cbn [bind]
         end.

Ltac settle_fetches :=
  settle_core;
  repeat match goal with
         | |- context [bind (fetchWhen ?e ?u ?w ?t ?o ?n ?p ?a ?b) _] =>
             let f := fresh "file" in
             let H := fresh "Hfile" in
             destruct (fetchWhen_never_throws e u w t o n p a b) as [f H];
             rewrite H; cbn [bind]
         end.

Lemma fetchFileContent_ext (env : Base64Env) (upstream upstream' : string -> Upstream)
    (token owner_ repo_ path : string) (timeoutMs maxSizeBytes : option Z) :
  upstream (contentsUrl owner_ repo_ path) = upstream' (contentsUrl owner_ repo_ path) ->
  fetchFileContent env upstream token owner_ repo_ path timeoutMs maxSizeBytes =
  fetchFileContent env upstream' token owner_ repo_ path timeoutMs maxSizeBytes.
Proof.
  intros H. unfold fetchFileContent, fetchWithTimeout. now rewrite H.
Qed.

Lemma hasLanguage_false (keys triggers : list string) :
  (forall k, In k keys -> ~ In k triggers) ->
  forall t, In t triggers -> hasLanguage keys t = false.
Proof.
  intros Hnone t Ht. unfold hasLanguage.
  destruct (existsb (String.eqb t) keys) eqn:E; [|reflexivity].
  apply existsb_exists in E. destruct E as [k [Hk E]].
  apply String.eqb_eq in E. subst k. now destruct (Hnone t Hk).
Qed.

Lemma indexOf_lower (v : string) (a : list string) : -1 <= indexOf v a.
Proof.
  induction a as [|x a IH]; cbn [indexOf]; [lia|].
  destruct (x =? v)%string; [lia|]. destruct (Z.ltb_spec (indexOf v a) 0); lia.
Qed.

Lemma indexOf_In (v : string) (a : list string) : In v a -> 0 <= indexOf v a.
Proof.
  induction a as [|x a IH]; [intros []|]. intros Hin. cbn [indexOf].
  destruct (String.eqb_spec x v) as [Hx|Hx]; [lia|].
  destruct Hin as [Hin|Hin]; [contradiction|]. specialize (IH Hin).
  destruct (Z.ltb_spec (indexOf v a) 0); lia.
Qed.

Lemma indexOf_app (v : string) (pre a : list string) :
  ~ In v pre -> In v a ->
  indexOf v (pre ++ a) = Z.of_nat (List.length pre) + indexOf v a.
Proof.
  intros Hpre Ha. induction pre as [|x pre IH]; [cbn; lia|].
  cbn [app indexOf List.length].
  destruct (String.eqb_spec x v) as [Hx|Hx]; [subst; destruct Hpre; now left|].
  rewrite IH by (intros H; apply Hpre; now right).
  pose proof (indexOf_In v a Ha).
  destruct (Z.ltb_spec (Z.of_nat (List.length pre) + indexOf v a) 0); lia.
Qed.

Lemma filterFirstFrom_index (whole a : list string) (x : string) :
  forall i, In x (filterFirstFrom whole i a) -> i <= indexOf x whole.
Proof.
  induction a as [|v a IH]; intros i H; [destruct H|].
  cbn [filterFirstFrom] in H.
  destruct (Z.eqb_spec (indexOf v whole) i) as [Hi|Hi].
  - destruct H as [<-|H]; [lia|]. apply IH in H. lia.
  - apply IH in H. lia.
Qed.

Lemma filterFirstFrom_NoDup (whole a : list string) :
  forall i, NoDup (filterFirstFrom whole i a).
Proof.
  induction a as [|v a IH]; intros i; cbn [filterFirstFrom]; [constructor|].
  destruct (Z.eqb_spec (indexOf v whole) i) as [Hi|Hi]; [|apply IH].
  constructor; [|apply IH]. intros Hin. apply filterFirstFrom_index in Hin. lia.
Qed.

Lemma filterFirstFrom_keeps (x : string) (a : list string) :
  forall pre, In x a -> ~ In x pre ->
    In x (filterFirstFrom (pre ++ a) (Z.of_nat (List.length pre)) a).
Proof.
  induction a as [|v a IH]; intros pre Ha Hpre; [destruct Ha|].
  cbn [filterFirstFrom].
  destruct (String.eqb_spec v x) as [Hv|Hv].
  - subst v. rewrite (indexOf_app x pre (x :: a) Hpre (or_introl eq_refl)).
    cbn [indexOf]. rewrite String.eqb_refl, Z.add_0_r, Z.eqb_refl. now left.
  - destruct Ha as [Ha|Ha]; [contradiction|].
    assert (Hnext : In x (filterFirstFrom ((pre ++ [v]) ++ a)
                            (Z.of_nat (List.length (pre ++ [v]))) a)).
    { apply IH; [exact Ha|]. rewrite in_app_iff. intros [H|[H|[]]]; auto. }
    rewrite <- app_assoc in Hnext. cbn [app] in Hnext.
    rewrite length_app in Hnext. cbn [List.length] in Hnext.
    replace (Z.of_nat (List.length pre + 1)) with (Z.of_nat (List.length pre) + 1)
      in Hnext by lia.
    destruct (indexOf v (pre ++ v :: a) =? Z.of_nat (List.length pre));
      [now right|exact Hnext].
Qed.

Lemma filterFirst_NoDup (a : list string) : NoDup (filterFirst a).
Proof. apply filterFirstFrom_NoDup. Qed.

Lemma filterFirst_In (a : list string) (x : string) : In x a -> In x (filterFirst a).
Proof.
  intros H. apply (filterFirstFrom_keeps x a [] H). intros [].
Qed.

Section RepoEnrichmentFacts.

Variable env : Base64Env.
Variable upstream : string -> Upstream.
Variable contributorsPage : string -> string -> Z -> ContributorsUpstream.
Variable languagesEndpoint : string -> string -> LanguagesUpstream.
Variable jsonParse : string -> option Json.
Variable numberToString : Q -> string.
Variables token username : string.

Lemma enrichRepo_commits (r : GitHubRepo) :
  hasSeparator (full_name r) = true ->
  exists d commitData,
    enrichRepo env upstream contributorsPage languagesEndpoint jsonParse numberToString
               token username r = mkEnriched r None (Some d) /\
    fetchCommitCount contributorsPage token (ownerPart (full_name r))
                     (repoNamePart (full_name r)) (Some username) None = Ok commitData /\
    commitCount d = Some (total commitData) /\
    userCommitCount d = Some (userContributions commitData).
Proof.
  intros Hsep. unfold enrichRepo. rewrite split_short_iff, Hsep. cbn [negb].
  fold (ownerPart (full_name r)). fold (repoNamePart (full_name r)).
  settle_fetches. eexists. exists fetchedCommits. repeat split.
Qed.


(** X26. The callback of [enrichRepoData] returns the repository it was
    given, without a score. The enriched data is missing exactly when
    [full_name] has no '/': for a well-formed name no failure of a
    request, of a decoding or of a parser leaves the repository without
    enriched data. *)
Theorem enrichRepo_enriched (r : GitHubRepo) :
  repo (enrichRepo env upstream contributorsPage languagesEndpoint jsonParse
                   numberToString token username r) = r /\
  calculatedScore (enrichRepo env upstream contributorsPage languagesEndpoint jsonParse
                              numberToString token username r) = None /\
  (enrichedData (enrichRepo env upstream contributorsPage languagesEndpoint jsonParse
                            numberToString token username r) = None <->
   hasSeparator (full_name r) = false).
Proof.
  destruct (hasSeparator (full_name r)) eqn:Hsep.
  - destruct (enrichRepo_commits r Hsep) as [d [c [-> _]]].
    cbn [repo calculatedScore enrichedData]. repeat split; discriminate.
  - unfold enrichRepo. rewrite split_short_iff, Hsep.
    cbn [negb repo calculatedScore enrichedData]. repeat split; reflexivity.
Qed.


(** X27. The enriched data of a repository: [detectedTechnologies] has no
    entry twice and holds every Python dependency, every dependency and
    development dependency of the package.json and every technology the
    README mentions; [languageCount] is the number of languages; and a
    repository flagged as machine learning has the project type
    'ml-project', whatever the README says. *)
Theorem enrichRepo_technologies (r : GitHubRepo) (d : EnrichedData) :
  enrichedData (enrichRepo env upstream contributorsPage languagesEndpoint jsonParse
                           numberToString token username r) = Some d ->
  exists techs,
    detectedTechnologies d = Some techs /\ NoDup techs /\
    (forall x, In x (pythonDependencies d) -> In x techs) /\
    (forall p x, packageJson d = Some p ->
                 In x (dependencies p ++ devDependencies p) -> In x techs) /\
    (forall rd x, readme d = Some rd -> In x (techMentions rd) -> In x techs) /\
    languageCount d = Some (Z.of_nat (List.length (languages d))) /\
    (isMLProject d = true ->
     exists rd, readme d = Some rd /\ readme_projectType rd = "ml-project").
Proof.
  unfold enrichRepo. destruct (List.length (split "/" (full_name r)) <? 2)%nat;
    [discriminate|].
  settle_fetches. cbn [enrichedData]. intros Hd. injection Hd as <-.
  cbn [detectedTechnologies pythonDependencies packageJson readme languageCount
       languages isMLProject].
  eexists. split; [reflexivity|]. split; [apply filterFirst_NoDup|].
  split; [|split; [|split; [|split]]].
  - intros x Hx. apply filterFirst_In. rewrite !in_app_iff in *. tauto.
  - intros p x Hp Hx. apply filterFirst_In. rewrite Hp. rewrite !in_app_iff in *. tauto.
  - intros rd x Hrd Hx. injection Hrd as <-. cbn [techMentions] in Hx.
    apply filterFirst_In. rewrite !in_app_iff. tauto.
  - now rewrite length_map.
  - intros Hml. eexists. split; [reflexivity|]. cbn [readme_projectType].
    now rewrite Hml.
Qed.

(** X28. When none of the languages GitHub reports for a repository is
    Go, Rust, Java, Ruby, C, C++, CMake, Python or Jupyter Notebook,
    whatever their case, no file of the second group is requested: the
    enrichment depends on the contents endpoint through package.json,
    requirements.txt, README.md and readme.md only. *)
Theorem enrichRepo_core_files_only (upstream' : string -> Upstream) (r : GitHubRepo)
    (langs : list (string * Z)) :
  fetchLanguages languagesEndpoint token (ownerPart (full_name r))
                 (repoNamePart (full_name r)) None = Ok langs ->
  (forall l, In l (map fst langs) -> ~ In (toLowerCase l) secondGroupLanguages) ->
  (forall path, In path ["package.json"; "requirements.txt"; "README.md"; "readme.md"] ->
     upstream (contentsUrl (ownerPart (full_name r)) (repoNamePart (full_name r)) path)
     = upstream' (contentsUrl (ownerPart (full_name r)) (repoNamePart (full_name r)) path)) ->
  enrichRepo env upstream contributorsPage languagesEndpoint jsonParse numberToString
             token username r =
  enrichRepo env upstream' contributorsPage languagesEndpoint jsonParse numberToString
             token username r.
Proof.
  intros Hlang Hnone Hcore.
  assert (Hoff : forall t, In t secondGroupLanguages ->
                   hasLanguage (map toLowerCase (map fst langs)) t = false).
  { apply hasLanguage_false. intros k Hk. apply in_map_iff in Hk.
    destruct Hk as [l [<- Hl]]. now apply Hnone. }
  unfold enrichRepo. destruct (List.length (split "/" (full_name r)) <? 2)%nat;
    [reflexivity|].
  fold (ownerPart (full_name r)). fold (repoNamePart (full_name r)).
  rewrite (fetchFileContent_ext env upstream upstream' token _ _ "package.json")
    by (apply Hcore; cbn; tauto).
  rewrite (fetchFileContent_ext env upstream upstream' token _ _ "requirements.txt")
    by (apply Hcore; cbn; tauto).
  rewrite (fetchFileContent_ext env upstream upstream' token _ _ "README.md")
    by (apply Hcore; cbn; tauto).
  rewrite (fetchFileContent_ext env upstream upstream' token _ _ "readme.md")
    by (apply Hcore; cbn; tauto).
  rewrite Hlang. settle_core. unfold fetchWhen.
  rewrite !Hoff by (cbn; tauto). reflexivity.
Qed.

End RepoEnrichmentFacts.

(** X29. Enrichment followed by scoring: a repository of another account
    for which [fetchCommitCount] reports no contribution of the user (the
    user is not among the contributors listed, or the request failed or
    timed out) is not among the repositories [scoreAndSortRepos] returns,
    whatever its stars, its README and its dependencies. *)
Theorem unlisted_contributor_excluded
    (dateTime : string -> option Z) (now : Z)
    (env : Base64Env) (upstream : string -> Upstream)
    (contributorsPage : string -> string -> Z -> ContributorsUpstream)
    (languagesEndpoint : string -> string -> LanguagesUpstream)
    (jsonParse : string -> option Json) (numberToString : Q -> string)
    (token username : string) (repos : list GitHubRepo) (limit : option Z)
    (r : GitHubRepo) (totalCommits : Z) :
  hasSeparator (full_name r) = true ->
  isOwner (ownerPart (full_name r)) (toLowerCase username) = false ->
  fetchCommitCount contributorsPage token (ownerPart (full_name r))
                   (repoNamePart (full_name r)) (Some username) None
  = Ok (mkCommitData totalCommits 0) ->
  forall e,
    In e (scoreAndSortRepos dateTime now
            (enrichRepoData
               (enrichRepo env upstream contributorsPage languagesEndpoint jsonParse
                           numberToString)
               token repos username limit)
            username) ->
    repo e <> r.
Proof.
  intros Hsep Hown Hcommits e He Hr.
  apply scoreAndSortRepos_In_score in He. destruct He as [x [Hx [-> Hscore]]].
  unfold enrichRepoData in Hx. apply in_map_iff in Hx. destruct Hx as [r' [<- _]].
  destruct (enrichRepo_commits env upstream contributorsPage languagesEndpoint
              jsonParse numberToString token username r Hsep)
    as [d [c [Heq [Hc [_ Huser]]]]].
  rewrite Hcommits in Hc. injection Hc as <-. cbn [userContributions] in Huser.
  cbn [scoreRepo withScore repo] in Hr.
  assert (Hr' : r' = r).
  { destruct (hasSeparator (full_name r')) eqn:Hsep'.
    - destruct (enrichRepo_commits env upstream contributorsPage languagesEndpoint
                  jsonParse numberToString token username r' Hsep') as [d' [c' [Heq' _]]].
      rewrite Heq' in Hr. exact Hr.
    - unfold enrichRepo in Hr. rewrite split_short_iff, Hsep' in Hr. exact Hr. }
  subst r'.
  rewrite (computeScore_gated dateTime now (toLowerCase username) _ d) in Hscore.
  - lia.
  - rewrite Heq. exact Hsep.
  - rewrite Heq. reflexivity.
  - rewrite Heq. exact Hown.
  - rewrite Huser. reflexivity.
Qed.

(** ** The further properties at concrete inputs *)

Lemma own_fork_zero_commits_excluded_witness :
  computeScore sampleDateTime sampleNow (toLowerCase "alice") ownForkNoCommits = -9999 /\
  ~ In (scoreRepo sampleDateTime sampleNow (toLowerCase "alice") ownForkNoCommits)
       (scoreAndSortRepos sampleDateTime sampleNow [ownForkNoCommits; ownRepoPlain] "alice").
Proof.
  apply (own_fork_zero_commits_excluded sampleDateTime sampleNow
           [ownForkNoCommits; ownRepoPlain] "alice" ownForkNoCommits (sampleData 0 500));
    reflexivity.
Defined.

Lemma fork_without_enrichment_scores_zero_witness :
  computeScore sampleDateTime sampleNow (toLowerCase "alice") ownForkPlain = 0 /\
  (In (scoreRepo sampleDateTime sampleNow (toLowerCase "alice") ownForkPlain)
      (scoreAndSortRepos sampleDateTime sampleNow [ownForkPlain] "alice") <->
   isOwner (ownerPart (full_name (repo ownForkPlain))) (toLowerCase "alice") = true).
Proof.
  apply (fork_without_enrichment_scores_zero sampleDateTime sampleNow
           [ownForkPlain] "alice" ownForkPlain).
  - simpl. left. reflexivity.
  - reflexivity.
  - reflexivity.
  - reflexivity.
Defined.

Lemma parseReadme_tail_ignored_witness :
  projectType (parseReadme (repeatString (Z.to_nat 50000) "a" ++ " website docs demo"))
  = projectType (parseReadme (repeatString (Z.to_nat 50000) "a")) /\
  hasDemo (parseReadme (repeatString (Z.to_nat 50000) "a" ++ " website docs demo"))
  = hasDemo (parseReadme (repeatString (Z.to_nat 50000) "a")) /\
  hasDocs (parseReadme (repeatString (Z.to_nat 50000) "a" ++ " website docs demo"))
  = hasDocs (parseReadme (repeatString (Z.to_nat 50000) "a")).
Proof.
  apply (parseReadme_tail_ignored (repeatString (Z.to_nat 50000) "a") " website docs demo").
  vm_compute. discriminate.
Defined.

Lemma sampleContributors_nonnegative :
  forall (page : Z) (ok : bool) (cs : list (option Contributor)) (c : Contributor) (n : Z),
    contributorsResponse (sampleContributorsPage "org" "y" page)
    = ContributorsResponds ok (ContributorsArray cs) ->
    In (Some c) cs -> contributions c = Some n -> 0 <= n.
Proof.
  intros page ok cs c n H Hin Hn. unfold sampleContributorsPage in H.
  destruct (page =? 1); cbn in H; [|discriminate].
  injection H as _ <-. unfold hundredContributors in Hin.
  destruct Hin as [Hc|Hc].
  - injection Hc as <-. cbn in Hn. injection Hn as <-. lia.
  - apply repeat_spec in Hc. injection Hc as ->. cbn in Hn. injection Hn as <-. lia.
Defined.

Lemma fetchCommitCount_user_within_total_witness :
  fetchCommitCount sampleContributorsPage "token" "org" "y" (Some "alice") None
  = Ok (mkCommitData 304 7) /\
  0 <= userContributions (mkCommitData 304 7) <= total (mkCommitData 304 7).
Proof.
  assert (H : fetchCommitCount sampleContributorsPage "token" "org" "y" (Some "alice") None
              = Ok (mkCommitData 304 7)) by reflexivity.
  split; [exact H|].
  exact (fetchCommitCount_user_within_total sampleContributorsPage "token" "org" "y"
           (Some "alice") None (mkCommitData 304 7) sampleContributors_nonnegative H).
Defined.

Lemma fetchCommitCount_three_pages_witness :
  fetchCommitCount sampleContributorsPage "token" "org" "y" (Some "alice") None
  = fetchCommitCount longerContributorsPage "token" "org" "y" (Some "alice") None.
Proof.
  apply (fetchCommitCount_three_pages sampleContributorsPage longerContributorsPage).
  intros page Hpage. unfold longerContributorsPage.
  destruct (Z.eqb_spec page 4); [lia|reflexivity].
Defined.

Lemma hundredContributors_no_null : Forall (fun c => c <> None) hundredContributors.
Proof.
  unfold hundredContributors. constructor; [discriminate|].
  apply Forall_forall. intros x Hx. apply repeat_spec in Hx. subst. discriminate.
Defined.

Lemma fetchCommitCount_second_page_failure_witness :
  let second := sampleContributorsPage "org" "y" 2 in
  let timeout := 10000 in
  let result := fetchCommitCount sampleContributorsPage "token" "org" "y" (Some "alice") None in
  (forall body,
     contributorsResponse second = ContributorsResponds false body ->
     50 + contributorsLatencyMs second < timeout ->
     exists d, result = Ok d /\ total d = totalContributions hundredContributors) /\
  (forall e,
     contributorsResponse second = ContributorsRequestRejects e ->
     result = Ok (mkCommitData 0 0)) /\
  (timeout <= 50 + contributorsLatencyMs second ->
   result = Ok (mkCommitData 0 0)).
Proof.
  apply (fetchCommitCount_second_page_failure sampleContributorsPage "token" "org" "y"
           (Some "alice") None 50 hundredContributors).
  - reflexivity.
  - reflexivity.
  - exact hundredContributors_no_null.
  - lia.
Defined.

Lemma fetchAllRepos_result_witness :
  NoDup (map id (userRelevantRepos hundredRepos "alice")) /\
  (forall r, In r (userRelevantRepos hundredRepos "alice") ->
     hasSeparator (full_name r) = true /\
     (fork r = true ->
      isOwnRepo (trim "alice") r = true /\
      (20 <= numberOr0 (stargazers_count r) \/ 10 <= numberOr0 (forks_count r)))).
Proof.
  apply (fetchAllRepos_result sampleUserReposPage samplePublicReposPage "token" "alice"
           (userRelevantRepos hundredRepos "alice")).
  vm_compute. reflexivity.
Defined.

Lemma fetchAllRepos_failures_witness :
  let result := fetchAllRepos sampleUserReposPage samplePublicReposPage "token" "alice" in
  (sampleUserReposPage (trim "token") 1 = ReposNetworkError ->
   result = Raise "Network error: Unable to fetch repositories. Please check your internet connection.") /\
  (forall status body,
     sampleUserReposPage (trim "token") 1 = ReposStatus status body ->
     status = 403 \/ status = 429 ->
     result = Raise "GitHub API Rate Limit Exceeded. Please try again later.") /\
  (forall status data,
     sampleUserReposPage (trim "token") 1 = ReposStatus status (ReposArray data) ->
     statusOk status = true -> (100 <= List.length data)%nat ->
     (sampleUserReposPage (trim "token") 2 = ReposNetworkError \/
      exists status2 body2,
        sampleUserReposPage (trim "token") 2 = ReposStatus status2 body2 /\
        (status2 = 403 \/ status2 = 429)) ->
     result = Value (userRelevantRepos data "alice")).
Proof.
  apply (fetchAllRepos_failures sampleUserReposPage samplePublicReposPage "token" "alice");
    discriminate.
Defined.

Lemma fetchAllRepos_requests_witness :
  fetchAllRepos sampleUserReposPage samplePublicReposPage "token" "alice"
  = fetchAllRepos longerUserReposPage samplePublicReposPage "token" "alice".
Proof.
  apply (fetchAllRepos_requests sampleUserReposPage longerUserReposPage
           samplePublicReposPage samplePublicReposPage "token" "alice").
  - intros page Hpage. unfold longerUserReposPage.
    destruct (Z.eqb_spec page 4); [lia|reflexivity].
  - reflexivity.
Defined.

Example parsePackageJson_sample :
  parsePackageJson sampleJsonParse samplePackageText
  = Some (mkPackageJson ["react"] [] ["build"] None).
Proof. vm_compute. reflexivity. Qed.

(** Both names of a [from m import n] line are taken as imports. *)
Example parseJupyterNotebook_sample :
  parseJupyterNotebook sampleJsonParse sampleNumberToString sampleNotebookText
  = mkNotebookData ["torch"; "pandas"; "DataFrame"] true true.
Proof. vm_compute. reflexivity. Qed.

Example enrichRepo_sample :
  enrichRepo (Browser atob) sampleFilesUpstream sampleContributorsPage
             sampleLanguagesEndpoint sampleJsonParse sampleNumberToString
             "token" "alice" octoSite
  = mkEnriched octoSite None (Some octoSiteEnrichment).
Proof. vm_compute. reflexivity. Qed.

Lemma parseJupyterNotebook_null_cell_witness :
  parseJupyterNotebook sampleJsonParse sampleNumberToString nullCellNotebookText
  = mkNotebookData [] false false.
Proof.
  apply (parseJupyterNotebook_null_cell sampleJsonParse sampleNumberToString
           nullCellNotebookText nullCellNotebook
           [JObject [("cell_type", JString "code"); ("source", JString "import torch")];
            JNull]).
  - vm_compute. reflexivity.
  - reflexivity.
  - simpl. tauto.
Defined.

Lemma enrichRepo_technologies_witness :
  exists techs,
    detectedTechnologies octoSiteEnrichment = Some techs /\ NoDup techs /\
    (forall x, In x (pythonDependencies octoSiteEnrichment) -> In x techs) /\
    (forall p x, packageJson octoSiteEnrichment = Some p ->
                 In x (dependencies p ++ devDependencies p) -> In x techs) /\
    (forall rd x, readme octoSiteEnrichment = Some rd ->
                  In x (techMentions rd) -> In x techs) /\
    languageCount octoSiteEnrichment
    = Some (Z.of_nat (List.length (languages octoSiteEnrichment))) /\
    (isMLProject octoSiteEnrichment = true ->
     exists rd, readme octoSiteEnrichment = Some rd /\
                readme_projectType rd = "ml-project").
Proof.
  apply (enrichRepo_technologies (Browser atob) sampleFilesUpstream
           sampleContributorsPage sampleLanguagesEndpoint sampleJsonParse
           sampleNumberToString "token" "alice" octoSite octoSiteEnrichment).
  vm_compute. reflexivity.
Defined.

Lemma enrichRepo_core_files_only_witness :
  enrichRepo (Browser atob) sampleFilesUpstream sampleContributorsPage
             sampleLanguagesEndpoint sampleJsonParse sampleNumberToString
             "token" "alice" octoSite
  = enrichRepo (Browser atob) goModUpstream sampleContributorsPage
               sampleLanguagesEndpoint sampleJsonParse sampleNumberToString
               "token" "alice" octoSite.
Proof.
  apply (enrichRepo_core_files_only (Browser atob) sampleFilesUpstream
           sampleContributorsPage sampleLanguagesEndpoint sampleJsonParse
           sampleNumberToString "token" "alice" goModUpstream octoSite sampleLanguages).
  - reflexivity.
  - intros l [<-|[<-|[]]]; vm_compute; intuition discriminate.
  - intros path [<-|[<-|[<-|[<-|[]]]]]; vm_compute; reflexivity.
Defined.

Lemma unlisted_contributor_excluded_witness :
  Forall (fun e => repo e <> octoSite)
         (scoreAndSortRepos sampleDateTime sampleNow
            (enrichRepoData
               (enrichRepo (Browser atob) sampleFilesUpstream slowContributorsPage
                           sampleLanguagesEndpoint sampleJsonParse sampleNumberToString)
               "token" [octoSite] "alice" None)
            "alice").
Proof.
  apply Forall_forall.
  apply (unlisted_contributor_excluded sampleDateTime sampleNow (Browser atob)
           sampleFilesUpstream slowContributorsPage sampleLanguagesEndpoint
           sampleJsonParse sampleNumberToString "token" "alice" [octoSite] None
           octoSite 0).
  - reflexivity.
  - reflexivity.
  - vm_compute. reflexivity.
Defined.
